(** * MomCareBot: the plan reader and the event logger, embedded in Rocq

    A shallow embedding of [app/plan_reader.py] (value coercion, plan
    extraction from the worksheet grid, notification text) and of
    [app/logger.py] (the CSV event log), followed by the properties the
    specification states about them.  Their callers come after them:
    the Telegram client of [app/telegram.py], the jobs of
    [app/scheduler.py], [app/main.py], the tables of
    [app/pdf_builder.py] and [app/test_reader.py], with further
    properties of the code in Part III.

    Conventions.
    - A Python [str] is a list of Unicode code points ([pystr]).
    - A Python [float] is an IEEE-754 binary64 value, [spec_float] of the
      standard library with [prec = 53] and [emax = 1024].
    - A Python [int] is a [Z].
    - A call that may raise returns a [result]; [Raise e] is the exception.
    - What depends on the interpreter's Unicode tables and version (case
      mapping, the decimal-digit property, [repr] of a float, the summation
      algorithm of [sum]) is a field of the class [PyRuntime]. *)

From Stdlib Require Import String Ascii.
From Stdlib Require Import ZArith List Bool Lia.
From Stdlib Require Import SpecFloat.
From Stdlib Require DecimalPos DecimalN.
From Equations Require Import Equations.
From Equations.Prop Require Import Logic.
Import ListNotations.

#[local] Open Scope Z_scope.
#[local] Set Default Goal Selector "!".

(* ===================================================================== *)
(** * Part I: definitions                                                  *)
(* ===================================================================== *)

(** ** Exceptions and results *)

Inductive value_error : Type :=
| SheetNotFound
| MissingIncomeRows
| MissingHeaderRow
| CouldNotConvert.

(** [LoadError name] is the exception [load_workbook] raises on a file
    it cannot read as a workbook ([BadZipFile], [InvalidFileException],
    [PermissionError], ...), given by the name of its type as a list of
    code points. *)
Inductive exn : Type :=
| FileNotFoundError
| ValueError (why : value_error)
| OverflowError
| LoadError (type_name : list Z).

Inductive result (A : Type) : Type :=
| Return (a : A)
| Raise (e : exn).
Arguments Return {A} a.
Arguments Raise {A} e.

Definition bind {A B : Type} (m : result A) (k : A -> result B) : result B :=
  match m with
  | Return a => k a
  | Raise e => Raise e
  end.

Declare Scope py_scope.
Notation "x <- m ;; k" := (bind m (fun x => k))
  (at level 61, m at next level, right associativity) : py_scope.
#[local] Open Scope py_scope.

(** [try: m except ValueError: h] *)
Definition try_except_ValueError {A : Type} (m : result A) (h : result A) : result A :=
  match m with
  | Raise (ValueError _) => h
  | _ => m
  end.

(** ** Strings *)

Definition pystr : Type := list Z.

(** An ASCII literal of the source, as code points. *)
Definition py (s : string) : pystr :=
  map (fun a => Z.of_N (N_of_ascii a)) (list_ascii_of_string s).

Definition codepoint_eqb : Z -> Z -> bool := Z.eqb.

Fixpoint str_eqb (a b : pystr) : bool :=
  match a, b with
  | [], [] => true
  | x :: a', y :: b' => codepoint_eqb x y && str_eqb a' b'
  | _, _ => false
  end.

(** [not s] *)
Definition str_is_empty (s : pystr) : bool :=
  match s with
  | [] => true
  | _ :: _ => false
  end.

(** [str.isspace] of one code point: the characters [str.strip()] removes.
    U+0009..U+000D, U+001C..U+0020, U+0085, U+00A0, U+1680,
    U+2000..U+200A, U+2028, U+2029, U+202F, U+205F, U+3000. *)
Definition py_isspace (c : Z) : bool :=
  ((0x09 <=? c) && (c <=? 0x0D)) || ((0x1C <=? c) && (c <=? 0x20))
  || (c =? 0x85) || (c =? 0xA0) || (c =? 0x1680)
  || ((0x2000 <=? c) && (c <=? 0x200A))
  || (c =? 0x2028) || (c =? 0x2029) || (c =? 0x202F) || (c =? 0x205F)
  || (c =? 0x3000).

Fixpoint lstrip (s : pystr) : pystr :=
  match s with
  | [] => []
  | c :: s' => if py_isspace c then lstrip s' else s
  end.

Definition rstrip (s : pystr) : pystr := rev (lstrip (rev s)).

(** [s.strip()] *)
Definition str_strip (s : pystr) : pystr := rstrip (lstrip s).

(** [s.startswith(p)] *)
Fixpoint startswith (p s : pystr) : bool :=
  match p, s with
  | [], _ => true
  | x :: p', y :: s' => codepoint_eqb x y && startswith p' s'
  | _ :: _, [] => false
  end.

(** [s.replace(old, new)]: the occurrences of [old] are found from the left
    and do not overlap.  [fuel] bounds the number of positions visited. *)
Fixpoint replace_fuel (fuel : nat) (old new s : pystr) : pystr :=
  match fuel with
  | O => s
  | S fuel' =>
    match s with
    | [] => []
    | c :: s' =>
      if startswith old s
      then new ++ replace_fuel fuel' old new (skipn (length old) s)
      else c :: replace_fuel fuel' old new s'
    end
  end.

Definition str_replace (old new s : pystr) : pystr :=
  match old with
  | [] => new ++ flat_map (fun c => c :: new) s
  | _ :: _ => replace_fuel (length s) old new s
  end.

(** [sep.join(lines)] *)
Fixpoint str_join (sep : pystr) (lines : list pystr) : pystr :=
  match lines with
  | [] => []
  | [l] => l
  | l :: rest => l ++ sep ++ str_join sep rest
  end.

(** [s[:n]] for [n >= 0] *)
Definition str_prefix (n : nat) (s : pystr) : pystr := firstn n s.

(** Decimal digits of a non-negative integer, most significant first. *)
Fixpoint uint_codepoints (d : Decimal.uint) : pystr :=
  match d with
  | Decimal.Nil => []
  | Decimal.D0 d' => 48 :: uint_codepoints d'
  | Decimal.D1 d' => 49 :: uint_codepoints d'
  | Decimal.D2 d' => 50 :: uint_codepoints d'
  | Decimal.D3 d' => 51 :: uint_codepoints d'
  | Decimal.D4 d' => 52 :: uint_codepoints d'
  | Decimal.D5 d' => 53 :: uint_codepoints d'
  | Decimal.D6 d' => 54 :: uint_codepoints d'
  | Decimal.D7 d' => 55 :: uint_codepoints d'
  | Decimal.D8 d' => 56 :: uint_codepoints d'
  | Decimal.D9 d' => 57 :: uint_codepoints d'
  end.

Definition digits_of_N (n : N) : pystr := uint_codepoints (N.to_uint n).

(** [str(n)] for an [int] *)
Definition str_of_int (n : Z) : pystr :=
  match n with
  | Zneg p => 45 :: digits_of_N (Npos p)
  | _ => digits_of_N (Z.to_N n)
  end.

(** ** Floats: IEEE-754 binary64 *)

Definition float : Type := spec_float.
Definition prec : Z := 53.
Definition emax : Z := 1024.

(** [0.0] *)
Definition fzero : float := S754_zero false.

(** [x == y], [x <= y], [x + y] *)
Definition float_eqb (x y : float) : bool := SFeqb x y.
Definition float_leb (x y : float) : bool := SFleb x y.
Definition float_add (x y : float) : float := SFadd prec emax x y.

(** [bool(x)]: a float is falsy exactly when it equals zero. *)
Definition float_truthy (x : float) : bool := negb (float_eqb x fzero).

(** [float(n)] for an [int]: rounded to nearest, ties to even;
    [OverflowError] when the result does not fit a double. *)
Definition float_of_int (n : Z) : result float :=
  match binary_normalize prec emax n 0 false with
  | S754_infinity _ => Raise OverflowError
  | x => Return x
  end.

(** The double nearest to [(-1)^neg * m * 10^e] (ties to even), infinite on
    overflow: what [strtod] returns for a decimal literal. *)
Definition float_of_decimal (neg : bool) (m e : Z) : float :=
  match m with
  | Zpos p =>
    match e with
    | Zneg k =>
      let '(q, e', l) := SFdiv_core_binary prec emax (Zpos p) 0 (Z.pow_pos 10 k) 0 in
      binary_round_aux prec emax neg q e' l
    | _ =>
      match Zpos p * 10 ^ e with
      | Zpos q => binary_round prec emax neg q 0
      | _ => S754_zero neg
      end
    end
  | _ => S754_zero neg
  end.

(** [m / d] rounded to the nearest integer, ties to even ([d > 0]). *)
Definition round_half_even_div (m d : Z) : Z :=
  let q := m / d in
  let r := m mod d in
  match 2 * r ?= d with
  | Lt => q
  | Gt => q + 1
  | Eq => if Z.even q then q else q + 1
  end.

(** The magnitude of a finite float rounded to an integer. *)
Definition float_round_magnitude (m : positive) (e : Z) : Z :=
  match e with
  | Zneg k => round_half_even_div (Zpos m) (Z.pow_pos 2 k)
  | _ => Zpos m * 2 ^ e
  end.

Fixpoint group_rev (k : nat) (ds : pystr) : pystr :=
  match ds with
  | [] => []
  | d :: ds' =>
    match k with
    | 3%nat => 44 :: d :: group_rev 1 ds'
    | _ => d :: group_rev (S k) ds'
    end
  end.

(** Digits in groups of three from the right, separated by [","]. *)
Definition group_thousands (ds : pystr) : pystr := rev (group_rev 0 (rev ds)).

Definition sign_prefix (neg : bool) : pystr := if neg then [45] else [].

(** [format(x, ".0f")] and, with [grouped], [format(x, ",.0f")]. *)
Definition format_f0 (grouped : bool) (x : float) : pystr :=
  match x with
  | S754_nan => py "nan"
  | S754_infinity s => sign_prefix s ++ py "inf"
  | S754_zero s => sign_prefix s ++ py "0"
  | S754_finite s m e =>
    let ds := digits_of_N (Z.to_N (float_round_magnitude m e)) in
    sign_prefix s ++ (if grouped then group_thousands ds else ds)
  end.

(** ** The interpreter-dependent part of the runtime *)

Class PyRuntime : Type := {
  (** [Py_UNICODE_TODECIMAL] on the code points from 127 up *)
  unicode_decimal : Z -> option Z;
  unicode_decimal_digit : forall c d, unicode_decimal c = Some d -> 0 <= d <= 9;
  unicode_decimal_latin1 : forall c, 127 <= c < 256 -> unicode_decimal c = None;
  (** [str.upper] and [str.lower] *)
  str_upper : pystr -> pystr;
  str_lower : pystr -> pystr;
  (** [repr] of a float, which is also its [str] *)
  float_repr : float -> pystr;
  (** [sum] of a sequence of floats, starting from the integer [0] *)
  float_sum : list float -> float;
  float_sum_nil : float_sum [] = fzero
}.

(** ** [float(s)] for a string *)

Definition is_ascii_digit (c : Z) : bool := (48 <=? c) && (c <=? 57).

(** [Py_ISSPACE] *)
Definition c_isspace (c : Z) : bool := (c =? 32) || ((9 <=? c) && (c <=? 13)).

Definition c_tolower (c : Z) : Z := if (65 <=? c) && (c <=? 90) then c + 32 else c.

Fixpoint drop_while (p : Z -> bool) (s : pystr) : pystr :=
  match s with
  | [] => []
  | c :: s' => if p c then drop_while p s' else s
  end.

Fixpoint scan_digits (b : pystr) : pystr * pystr :=
  match b with
  | [] => ([], [])
  | c :: b' =>
    if is_ascii_digit c
    then let '(ds, rest) := scan_digits b' in (c :: ds, rest)
    else ([], b)
  end.

Definition digits_value (ds : pystr) : Z :=
  fold_left (fun acc c => 10 * acc + (c - 48)) ds 0.

Definition parse_sign (b : pystr) : bool * pystr :=
  match b with
  | [] => (false, b)
  | c :: r => if c =? 45 then (true, r) else if c =? 43 then (false, r) else (false, b)
  end.

(** What may follow the mantissa: nothing, or [e] or [E], an optional
    sign and at least one digit. *)
Definition parse_exponent (b : pystr) : option Z :=
  match b with
  | [] => Some 0
  | c :: r =>
    if (c =? 101) || (c =? 69) then
      let '(neg, r1) := parse_sign r in
      let '(ds, r2) := scan_digits r1 in
      match ds, r2 with
      | _ :: _, [] => Some (cond_Zopp neg (digits_value ds))
      | _, _ => None
      end
    else None
  end.

(** An unsigned decimal literal taking the whole of [b]: the value of its
    digits and its decimal exponent. *)
Definition parse_decimal (b : pystr) : option (Z * Z) :=
  let '(int_ds, r1) := scan_digits b in
  let '(frac_ds, r2) :=
    match r1 with
    | [] => ([], r1)
    | c :: r => if c =? 46 then scan_digits r else ([], r1)
    end in
  match int_ds ++ frac_ds with
  | [] => None
  | ds =>
    match parse_exponent r2 with
    | Some e => Some (digits_value ds, e - Z.of_nat (length frac_ds))
    | None => None
    end
  end.

Definition parse_inf_or_nan (b : pystr) : option float :=
  let '(neg, r) := parse_sign b in
  let low := map c_tolower r in
  if str_eqb low (py "inf") || str_eqb low (py "infinity") then Some (S754_infinity neg)
  else if str_eqb low (py "nan") then Some S754_nan
  else None.

(** Underscores are allowed between two digits only; they are removed. *)
Fixpoint strip_underscores (prev : Z) (b : pystr) : option pystr :=
  match b with
  | [] => if prev =? 95 then None else Some []
  | p :: b' =>
    if p =? 95 then
      if is_ascii_digit prev then strip_underscores p b' else None
    else if (prev =? 95) && negb (is_ascii_digit p) then None
    else option_map (cons p) (strip_underscores p b')
  end.

Section Runtime.
Context {rt : PyRuntime}.

(** Non-ASCII spaces become [" "], non-ASCII decimal digits their ASCII
    digit; the first other non-ASCII character becomes ["?"] and ends
    the text. *)
Fixpoint transform_decimal_and_space (s : pystr) : pystr :=
  match s with
  | [] => []
  | ch :: s' =>
    if ch <? 127 then ch :: transform_decimal_and_space s'
    else if py_isspace ch then 32 :: transform_decimal_and_space s'
    else
      match unicode_decimal ch with
      | Some d => (48 + d) :: transform_decimal_and_space s'
      | None => [63]
      end
  end.

(** [float(s)]; [ValueError] when [s] is not a float literal. *)
Definition float_of_str (s : pystr) : result float :=
  let a := transform_decimal_and_space s in
  let a := rev (drop_while c_isspace (rev (drop_while c_isspace a))) in
  match (if existsb (Z.eqb 95) a then strip_underscores 0 a else Some a) with
  | None => Raise (ValueError CouldNotConvert)
  | Some b =>
    let '(neg, r) := parse_sign b in
    match parse_decimal r with
    | Some (m, e) => Return (float_of_decimal neg m e)
    | None =>
      match parse_inf_or_nan b with
      | Some x => Return x
      | None => Raise (ValueError CouldNotConvert)
      end
    end
  end.

End Runtime.

(** ** Cell values of a worksheet *)

(** What [openpyxl] hands out for a cell read with [data_only=True]:
    [None], a [bool], an [int], a [float], a [str], or a date or time
    object, which this program only converts with [str()] and tests for
    truth. *)
Inductive cell : Type :=
| CNone
| CBool (b : bool)
| CInt (n : Z)
| CFloat (x : float)
| CStr (s : pystr)
| CDate (text : pystr) (truth : bool).

(** The literals [chr(0xC2) + chr(0xA3)] and
    [chr(0xE2) + chr(0x201A) + chr(0xA6)] of [plan_reader.py]: the pound
    and naira signs as the source file spells them. *)
Definition lit_pound : pystr := [0xC2; 0xA3].
Definition lit_naira : pystr := [0xE2; 0x201A; 0xA6].

(** [x or 0.0] for an optional float *)
Definition or_zero (o : option float) : float :=
  match o with
  | Some x => if float_truthy x then x else fzero
  | None => fzero
  end.

Section Coercion.
Context {rt : PyRuntime}.

(** [str(v)] *)
Definition py_str (v : cell) : pystr :=
  match v with
  | CNone => py "None"
  | CBool b => if b then py "True" else py "False"
  | CInt n => str_of_int n
  | CFloat x => float_repr x
  | CStr s => s
  | CDate text _ => text
  end.

(** [bool(v)] *)
Definition py_truthy (v : cell) : bool :=
  match v with
  | CNone => false
  | CBool b => b
  | CInt n => negb (n =? 0)
  | CFloat x => float_truthy x
  | CStr s => negb (str_is_empty s)
  | CDate _ truth => truth
  end.

(** The text branch of [_to_float], after [s = str(v)]. *)
Definition to_float_text (s : pystr) : result (option float) :=
  let s := str_replace (py ",") [] (str_strip s) in
  let s := fold_left (fun s ch => str_strip (str_replace ch [] s))
                     [lit_pound; py "GBP"; py "NGN"; lit_naira] s in
  if str_is_empty s then Return None
  else try_except_ValueError (x <- float_of_str s ;; Return (Some x)) (Return None).

Definition _to_float (v : cell) : result (option float) :=
  match v with
  | CNone => Return None
  | CBool b => x <- float_of_int (if b then 1 else 0) ;; Return (Some x)
  | CInt n => x <- float_of_int n ;; Return (Some x)
  | CFloat x => Return (Some x)
  | CStr _ | CDate _ _ => to_float_text (py_str v)
  end.

(** The text branch of [_to_ngn_float]. *)
Definition to_ngn_float_text (s : pystr) : result (option float) :=
  let s := str_replace (py ",") [] (str_strip s) in
  let s := str_strip (str_replace (py "NGN") [] (str_replace lit_naira [] s)) in
  if str_is_empty s then Return None
  else try_except_ValueError (x <- float_of_str s ;; Return (Some x)) (Return None).

Definition _to_ngn_float (v : cell) : result (option float) :=
  match v with
  | CNone => Return None
  | CBool b => x <- float_of_int (if b then 1 else 0) ;; Return (Some x)
  | CInt n => x <- float_of_int n ;; Return (Some x)
  | CFloat x => Return (Some x)
  | CStr _ | CDate _ _ => to_ngn_float_text (py_str v)
  end.

End Coercion.

(** *** The text each variant hands to [float]

    The thousands separators and the markers removed, the white space
    trimmed.  The markers of each variant are those its source lists,
    in that order and as its file spells them. *)

Definition primary_markers : list pystr := [lit_pound; py "GBP"; py "NGN"; lit_naira].
Definition secondary_markers : list pystr := [lit_naira; py "NGN"].

Definition spec_marker_free_form (markers : list pystr) (s : pystr) : pystr :=
  str_strip (fold_left (fun s m => str_replace m [] s) markers (str_replace (py ",") [] s)).

(** *** The specification's wording of the markers

    "A fixed set of recognized currency markers (symbol and 3-letter
    code forms, for both the primary and secondary currency)": the pound
    sign U+00A3 and the naira sign U+20A6, [GBP] and [NGN]. *)
Definition spec_pound_sign : pystr := [0xA3].
Definition spec_naira_sign : pystr := [0x20A6].

Definition spec_primary_markers : list pystr :=
  [spec_pound_sign; py "GBP"; py "NGN"; spec_naira_sign].
Definition spec_secondary_markers : list pystr := [spec_naira_sign; py "NGN"].

(** ** The plan *)

Record BudgetItem : Type := {
  category : pystr;
  amount_gbp : float;
  amount_ngn : option float;
  notes : pystr
}.

Record CarePlan : Type := {
  weekly_income_gbp : float;
  monthly_income_gbp : float;
  total_support_gbp : float;
  total_support_ngn : option float;
  items : list BudgetItem
}.

(** ** The worksheet *)

(** Columns A to D of one row. *)
Record row : Type := {
  colA : cell;
  colB : cell;
  colC : cell;
  colD : cell
}.

(** The rows of the sheet, row 1 first. *)
Definition worksheet : Type := list row.

(** [ws.max_row]: at least 1, also for an empty sheet. *)
Definition max_row (ws : worksheet) : nat := Nat.max 1 (length ws).

(** [ws.cell(row=r, column=c).value] for [1 <= r] and [c] in 1..4;
    a cell that was never written holds [None]. *)
Definition cell_value (ws : worksheet) (r : nat) (c : nat) : cell :=
  match r with
  | O => CNone
  | S i =>
    match nth_error ws i with
    | None => CNone
    | Some rw =>
      match c with
      | 1%nat => colA rw
      | 2%nat => colB rw
      | 3%nat => colC rw
      | 4%nat => colD rw
      | _ => CNone
      end
    end
  end.

(** The variables of the [while] loop of [read_care_plan_from_excel]. *)
Record loop_state : Type := {
  st_r : nat;
  st_items : list BudgetItem;
  st_total_support_gbp : float;
  st_total_support_ngn : option float
}.

(** How one pass through the loop body ends. *)
Inductive flow : Type :=
| Continue (st : loop_state)
| Break (st : loop_state)
| Throw (e : exn).

(** [r += 1] *)
Definition advance (st : loop_state) : loop_state :=
  {| st_r := st_r st + 1;
     st_items := st_items st;
     st_total_support_gbp := st_total_support_gbp st;
     st_total_support_ngn := st_total_support_ngn st |}.

(** [not l] for a list *)
Definition list_is_empty {A : Type} (l : list A) : bool :=
  match l with
  | [] => true
  | _ :: _ => false
  end.

Definition is_None (v : cell) : bool :=
  match v with
  | CNone => true
  | _ => false
  end.

Section Extraction.
Context {rt : PyRuntime}.

(** The nested helper [find_row] of [read_care_plan_from_excel]. *)
Definition find_row (ws : worksheet) (label : pystr) : option nat :=
  let label_low := str_lower (str_strip label) in
  find (fun r =>
          let a := cell_value ws r 1 in
          if is_None a then false
          else str_eqb (str_lower (str_strip (py_str a))) label_low)
       (seq 1 (max_row ws)).

(** The body of [while r <= ws.max_row], after it has read the four
    cells of row [r]. *)
Definition process_row (cat gbp ngn note : cell) (st : loop_state) : flow :=
  if is_None cat then Continue (advance st)
  else
    let cat_str := str_strip (py_str cat) in
    if str_is_empty cat_str then Continue (advance st)
    else if str_eqb (str_upper cat_str) (py "TOTAL MONTHLY SUPPORT")
            || str_eqb (str_upper cat_str) (py "REMAINING FOR YOU") then
      if str_eqb (str_upper cat_str) (py "TOTAL MONTHLY SUPPORT") then
        match _to_float gbp with
        | Raise e => Throw e
        | Return g =>
          match _to_ngn_float ngn with
          | Raise e => Throw e
          | Return n =>
            Break {| st_r := st_r st;
                     st_items := st_items st;
                     st_total_support_gbp := or_zero g;
                     st_total_support_ngn := n |}
          end
        end
      else Break st
    else if str_eqb cat_str [] then Continue (advance st)
    else
      match _to_float gbp with
      | Raise e => Throw e
      | Return None => Continue (advance st)
      | Return (Some amount_gbp) =>
        match _to_ngn_float ngn with
        | Raise e => Throw e
        | Return amount_ngn =>
          Continue (advance
            {| st_r := st_r st;
               st_items := st_items st ++
                 [ {| category := cat_str;
                      amount_gbp := amount_gbp;
                      amount_ngn := amount_ngn;
                      notes := if py_truthy note then str_strip (py_str note) else [] |} ];
               st_total_support_gbp := st_total_support_gbp st;
               st_total_support_ngn := st_total_support_ngn st |})
        end
      end.

(** The body of [while r <= ws.max_row]. *)
Definition loop_body (ws : worksheet) (st : loop_state) : flow :=
  let cat := cell_value ws (st_r st) 1 in
  let gbp := cell_value ws (st_r st) 2 in
  let ngn := cell_value ws (st_r st) 3 in
  let note := cell_value ws (st_r st) 4 in
  process_row cat gbp ngn note st.

(** The [while] loop: it runs the body as long as [r <= ws.max_row] and
    the body neither breaks nor raises. *)
Equations? breakdown_loop (ws : worksheet) (st : loop_state) : result loop_state
  by wf (S (max_row ws) - st_r st)%nat lt :=
breakdown_loop ws st with le_dec (st_r st) (max_row ws) => {
  | right _ => Return st
  | left _ with inspect (loop_body ws st) => {
    | exist _ (Throw e) _ => Raise e
    | exist _ (Break st') _ => Return st'
    | exist _ (Continue st') Hbody => breakdown_loop ws st' } }.
Proof.
  assert (Hr : st_r st' = (st_r st + 1)%nat).
  { unfold loop_body, process_row in Hbody.
    repeat match type of Hbody with
           | (if ?c then _ else _) = _ => destruct c
           | match ?x with _ => _ end = _ => destruct x
           end;
      try discriminate; injection Hbody as <-; reflexivity. }
  rewrite Hr, Nat.add_1_r.
  destruct (st_r st); lia.
Defined.

End Extraction.

(** ** [read_care_plan_from_excel] *)

(** A workbook: its sheets by name.  What is stored under a path: a
    workbook, or a file on which [load_workbook] raises an exception of
    the type named.  The file system: what is stored under a path, if a
    file exists there. *)
Definition workbook : Type := list (pystr * worksheet).

Inductive stored_file : Type :=
| Workbook (wb : workbook)
| Unreadable (type_name : pystr).

Definition filesystem : Type := pystr -> option stored_file.

(** [wb[name]], [None] when [name not in wb.sheetnames] *)
Definition sheet_by_name (wb : workbook) (name : pystr) : option worksheet :=
  option_map snd (find (fun p => str_eqb (fst p) name) wb).

Definition initial_state (header_row : nat) : loop_state :=
  {| st_r := header_row + 1;
     st_items := [];
     st_total_support_gbp := fzero;
     st_total_support_ngn := None |}.

Section Reader.
Context {rt : PyRuntime}.

(** [read_care_plan_from_excel] from [ws = wb[sheet_name]] on. *)
Definition care_plan_of_worksheet (ws : worksheet) : result CarePlan :=
  let weekly_row := find_row ws (py "Weekly Income") in
  let monthly_row := find_row ws (py "Monthly Income") in
  match weekly_row, monthly_row with
  | Some weekly_row, Some monthly_row =>
    w <- _to_float (cell_value ws weekly_row 2) ;;
    let weekly_income := or_zero w in
    m <- _to_float (cell_value ws monthly_row 2) ;;
    let monthly_income := or_zero m in
    match find_row ws (py "MONTHLY SUPPORT BREAKDOWN") with
    | None => Raise (ValueError MissingHeaderRow)
    | Some header_row =>
      st <- breakdown_loop ws (initial_state header_row) ;;
      let total_support_gbp :=
        if float_eqb (st_total_support_gbp st) fzero && negb (list_is_empty (st_items st))
        then float_sum (map amount_gbp (st_items st))
        else st_total_support_gbp st in
      Return {| weekly_income_gbp := weekly_income;
                monthly_income_gbp := monthly_income;
                total_support_gbp := total_support_gbp;
                total_support_ngn := st_total_support_ngn st;
                items := st_items st |}
    end
  | _, _ => Raise (ValueError MissingIncomeRows)
  end.

Definition read_care_plan_from_excel (fs : filesystem) (xlsx_path : pystr) : result CarePlan :=
  match fs xlsx_path with
  | None => Raise FileNotFoundError
  | Some (Unreadable type_name) => Raise (LoadError type_name)
  | Some (Workbook wb) =>
    match sheet_by_name wb (py "Mom Monthly Support Plan") with
    | None => Raise (ValueError SheetNotFound)
    | Some ws => care_plan_of_worksheet ws
    end
  end.

End Reader.

(** *** The specification's wording of plan extraction *)

Section ExtractionSpec.
Context {rt : PyRuntime}.

(** The label of a row: the text of its first cell, trimmed. *)
Definition label (rw : row) : pystr := str_strip (py_str (colA rw)).

(** "Rows whose label cell is empty (null or blank after trim)." *)
Definition blank_label (rw : row) : bool :=
  is_None (colA rw) || str_is_empty (label rw).

(** "The label (case-insensitive) matches a terminal sentinel", and
    "it is specifically the totals sentinel". *)
Definition totals_sentinel (rw : row) : bool :=
  negb (blank_label rw) && str_eqb (str_upper (label rw)) (py "TOTAL MONTHLY SUPPORT").

Definition terminal_sentinel (rw : row) : bool :=
  negb (blank_label rw)
  && (str_eqb (str_upper (label rw)) (py "TOTAL MONTHLY SUPPORT")
      || str_eqb (str_upper (label rw)) (py "REMAINING FOR YOU")).

(** The rows strictly before the first terminal sentinel. *)
Fixpoint before_terminal (rows : list row) : list row :=
  match rows with
  | [] => []
  | rw :: rest => if terminal_sentinel rw then [] else rw :: before_terminal rest
  end.

(** The rows strictly after row [header_row] and strictly before the
    first terminal sentinel below it. *)
Definition breakdown_rows (ws : worksheet) (header_row : nat) : list row :=
  before_terminal (skipn header_row ws).

(** The first terminal sentinel below row [header_row], if there is one. *)
Definition first_terminal (ws : worksheet) (header_row : nat) : option row :=
  find terminal_sentinel (skipn header_row ws).

(** A row "whose label cell is non-blank after trimming and whose
    column-2 value coerces to a number". *)
Definition is_item_row (rw : row) : bool :=
  negb (blank_label rw)
  && match _to_float (colB rw) with
     | Return (Some _) => true
     | _ => false
     end.

(** The item made of an item row. *)
Definition item_of_row (rw : row) : BudgetItem :=
  {| category := label rw;
     amount_gbp := match _to_float (colB rw) with
                   | Return (Some x) => x
                   | _ => fzero
                   end;
     amount_ngn := match _to_ngn_float (colC rw) with
                   | Return n => n
                   | Raise _ => None
                   end;
     notes := if py_truthy (colD rw) then str_strip (py_str (colD rw)) else [] |}.

Definition spec_items (ws : worksheet) (header_row : nat) : list BudgetItem :=
  map item_of_row (filter is_item_row (breakdown_rows ws header_row)).

(** A label has "a case-insensitive trimmed exact match in column 1". *)
Definition has_label (ws : worksheet) (lbl : pystr) : Prop :=
  exists rw, In rw ws /\ is_None (colA rw) = false
             /\ str_lower (label rw) = str_lower (str_strip lbl).

(** The loop over the rows below the header, row by row. *)
Fixpoint scan_rows (rows : list row) (st : loop_state) : result loop_state :=
  match rows with
  | [] => Return st
  | rw :: rest =>
    match process_row (colA rw) (colB rw) (colC rw) (colD rw) st with
    | Continue st' => scan_rows rest st'
    | Break st' => Return st'
    | Throw e => Raise e
    end
  end.

(** A run of the [while] loop from a state: the number of times its body
    is entered and how the loop ends. *)
Inductive loop_run (ws : worksheet) : loop_state -> nat -> result loop_state -> Prop :=
| run_exit (st : loop_state) :
    (max_row ws < st_r st)%nat ->
    loop_run ws st 0 (Return st)
| run_break (st st' : loop_state) :
    (st_r st <= max_row ws)%nat ->
    loop_body ws st = Break st' ->
    loop_run ws st 1 (Return st')
| run_raise (st : loop_state) (e : exn) :
    (st_r st <= max_row ws)%nat ->
    loop_body ws st = Throw e ->
    loop_run ws st 1 (Raise e)
| run_continue (st st' : loop_state) (n : nat) (res : result loop_state) :
    (st_r st <= max_row ws)%nat ->
    loop_body ws st = Continue st' ->
    loop_run ws st' n res ->
    loop_run ws st (S n) res.

(** The totals sentinel met in the breakdown region: the first terminal
    sentinel below the header, when it is the totals sentinel. *)
Definition totals_row (ws : worksheet) (header_row : nat) : option row :=
  match first_terminal ws header_row with
  | Some rw => if totals_sentinel rw then Some rw else None
  | None => None
  end.

(** The three anchor labels. *)
Definition anchors_present (ws : worksheet) : Prop :=
  has_label ws (py "Weekly Income") /\ has_label ws (py "Monthly Income")
  /\ has_label ws (py "MONTHLY SUPPORT BREAKDOWN").

End ExtractionSpec.

(** [0.0 <= x] *)
Definition float_nonneg (x : float) : Prop := float_leb fzero x = true.

(** ** [format_plan_for_telegram] *)

(** The non-ASCII pieces of the message, as the source file spells them. *)
Definition lit_receipt : pystr := [0xF0; 0x178; 0xA7; 0xBE].
Definition lit_dash : pystr := [0xE2; 0x20AC; 0x201D].
Definition lit_approx : pystr := [0xE2; 0x2030; 0x2C6].
Definition lit_bullet : pystr := [0xE2; 0x20AC; 0xA2].
Definition lit_check : pystr := [0xE2; 0x153; 0x2026].

Definition title_line : pystr :=
  lit_receipt ++ py " MomCareBot " ++ lit_dash ++ py " Monthly Support Plan".

Definition income_line (plan : CarePlan) : pystr :=
  py "Income: " ++ lit_pound ++ format_f0 false (weekly_income_gbp plan)
  ++ py "/week (~" ++ lit_pound ++ format_f0 false (monthly_income_gbp plan)
  ++ py "/month)".

Definition approx_ngn (x : float) : pystr :=
  py " (" ++ lit_approx ++ py " " ++ lit_naira ++ format_f0 true x ++ py ")".

Definition support_line (plan : CarePlan) : pystr :=
  match total_support_ngn plan with
  | Some ngn =>
    py "Planned support: " ++ lit_pound ++ format_f0 false (total_support_gbp plan)
    ++ approx_ngn ngn
  | None =>
    py "Planned support: " ++ lit_pound ++ format_f0 false (total_support_gbp plan)
  end.

Definition item_line (item : BudgetItem) : pystr :=
  match amount_ngn item with
  | Some ngn =>
    lit_bullet ++ py " " ++ category item ++ py ": " ++ lit_pound
    ++ format_f0 false (amount_gbp item) ++ approx_ngn ngn
  | None =>
    lit_bullet ++ py " " ++ category item ++ py ": " ++ lit_pound
    ++ format_f0 false (amount_gbp item)
  end.

Definition reminder_line : pystr :=
  lit_check ++ py " Reminder: keep it consistent + save emergency fund monthly.".

(** The list [lines] when [format_plan_for_telegram] reaches its [return]. *)
Definition plan_lines (plan : CarePlan) : list pystr :=
  let lines := [] in
  let lines := lines ++ [title_line] in
  let lines := lines ++ [income_line plan] in
  let lines := lines ++ [support_line plan] in
  let lines := lines ++ [[]] in
  let lines := lines ++ [py "Breakdown:"] in
  let lines := fold_left (fun lines item => lines ++ [item_line item]) (items plan) lines in
  let lines := lines ++ [[]] in
  let lines := lines ++ [reminder_line] in
  lines.

Definition format_plan_for_telegram (plan : CarePlan) : pystr :=
  str_join [10] (plan_lines plan).

(** *** The specification's wording of the message

    "A title line, an income summary line, a planned-support line, a blank
    separator, a Breakdown: header, one bulleted line per item, and a
    closing reminder line." *)
Definition spec_plan_lines (plan : CarePlan) : list pystr :=
  [title_line; income_line plan; support_line plan; []; py "Breakdown:"]
  ++ map item_line (items plan) ++ [reminder_line].

(** A plan without items. *)
Definition empty_plan : CarePlan :=
  {| weekly_income_gbp := fzero;
     monthly_income_gbp := fzero;
     total_support_gbp := fzero;
     total_support_ngn := None;
     items := [] |}.

(** ** [log_event] *)

(** A reading of the clock, [datetime.now()]. *)
Record datetime : Type := {
  year : Z;
  month : Z;
  day : Z;
  hour : Z;
  minute : Z;
  second : Z
}.

(** The ranges the fields of a [datetime] object are in, for a year of
    four digits. *)
Definition valid_datetime (t : datetime) : Prop :=
  1000 <= year t <= 9999 /\ 1 <= month t <= 12 /\ 1 <= day t <= 31
  /\ 0 <= hour t <= 23 /\ 0 <= minute t <= 59 /\ 0 <= second t <= 59.

(** The decimal digits of [n >= 0], padded with zeros to [width]. *)
Definition zero_pad (width : nat) (n : Z) : pystr :=
  let ds := digits_of_N (Z.to_N n) in
  repeat 48 (width - length ds) ++ ds.

(** [now.strftime("%Y-%m-%d %H:%M:%S")] *)
Definition strftime (t : datetime) : pystr :=
  zero_pad 4 (year t) ++ py "-" ++ zero_pad 2 (month t) ++ py "-" ++ zero_pad 2 (day t)
  ++ py " " ++ zero_pad 2 (hour t) ++ py ":" ++ zero_pad 2 (minute t)
  ++ py ":" ++ zero_pad 2 (second t).

(** The dictionary [row] of [log_event]. *)
Record log_row : Type := {
  timestamp_uk : pystr;
  job : pystr;
  status : pystr;
  message : pystr;
  extra : pystr
}.

(** One record of the CSV file: its fields in column order.  The file
    [data/logs.csv]: its records, or [None] while it does not exist. *)
Definition csv_record : Type := list pystr.
Definition log_file : Type := option (list csv_record).

Definition fieldnames : csv_record :=
  [py "timestamp_uk"; py "job"; py "status"; py "message"; py "extra"].

(** [writer.writerow(row)]: the values of [row] in the order of [fieldnames]. *)
Definition record_of_row (rw : log_row) : csv_record :=
  [timestamp_uk rw; job rw; status rw; message rw; extra rw].

(** [s or ""] *)
Definition str_or_empty (s : pystr) : pystr := if str_is_empty s then [] else s.

Definition make_row (now : datetime) (job status message extra : pystr) : log_row :=
  {| timestamp_uk := strftime now;
     job := job;
     status := status;
     message := str_prefix 400 (str_or_empty message);
     extra := str_prefix 400 (str_or_empty extra) |}.

(** [log_event], with the clock reading and the log file made explicit;
    the result is the log file after the call. *)
Definition log_event (now : datetime) (job status message extra : pystr)
    (file : log_file) : log_file :=
  let row := make_row now job status message extra in
  match file with
  | None => Some ([fieldnames] ++ [record_of_row row])
  | Some records => Some (records ++ [record_of_row row])
  end.

(** ** A runtime to evaluate with

    CPython 3.11: the decimal digits of Unicode 14, the shortest [repr]
    of a float that reads back as the same float, and [sum] adding from
    left to right.  The case mapping covers the Basic Latin and Latin-1
    Supplement blocks; it leaves every other character as it is. *)

(** The first code point of each run ["0".."9"] of decimal digits above
    ASCII. *)
Definition unicode14_decimal_blocks : list Z :=
  [ 0x660; 0x6F0; 0x7C0; 0x966; 0x9E6; 0xA66; 0xAE6; 0xB66; 0xBE6; 0xC66;
    0xCE6; 0xD66; 0xDE6; 0xE50; 0xED0; 0xF20; 0x1040; 0x1090; 0x17E0;
    0x1810; 0x1946; 0x19D0; 0x1A80; 0x1A90; 0x1B50; 0x1BB0; 0x1C40; 0x1C50;
    0xA620; 0xA8D0; 0xA900; 0xA9D0; 0xA9F0; 0xAA50; 0xABF0; 0xFF10; 0x104A0;
    0x10D30; 0x11066; 0x110F0; 0x11136; 0x111D0; 0x112F0; 0x11450; 0x114D0;
    0x11650; 0x116C0; 0x11730; 0x118E0; 0x11950; 0x11C50; 0x11D50; 0x11DA0;
    0x16A60; 0x16AC0; 0x16B50; 0x1D7CE; 0x1D7D8; 0x1D7E2; 0x1D7EC; 0x1D7F6;
    0x1E140; 0x1E2F0; 0x1E950; 0x1FBF0 ].

Definition unicode14_decimal (c : Z) : option Z :=
  match find (fun b => (b <=? c) && (c <? b + 10)) unicode14_decimal_blocks with
  | Some b => Some (c - b)
  | None => None
  end.

Definition latin1_upper_char (c : Z) : pystr :=
  if (97 <=? c) && (c <=? 122) then [c - 32]
  else if c =? 0xB5 then [0x39C]
  else if c =? 0xDF then [83; 83]
  else if (0xE0 <=? c) && (c <=? 0xFE) && negb (c =? 0xF7) then [c - 32]
  else if c =? 0xFF then [0x178]
  else [c].

Definition latin1_lower_char (c : Z) : pystr :=
  if (65 <=? c) && (c <=? 90) then [c + 32]
  else if (0xC0 <=? c) && (c <=? 0xDE) && negb (c =? 0xD7) then [c + 32]
  else [c].

Definition latin1_upper (s : pystr) : pystr := flat_map latin1_upper_char s.
Definition latin1_lower (s : pystr) : pystr := flat_map latin1_lower_char s.

(** [sum(xs)] up to Python 3.11: [((0.0 + x1) + x2) + ...] *)
Definition sum_left_to_right (xs : list float) : float := fold_left float_add xs fzero.

(** *** The shortest [repr] *)

Definition float_identical (x y : float) : bool :=
  match x, y with
  | S754_zero s, S754_zero s' => Bool.eqb s s'
  | S754_infinity s, S754_infinity s' => Bool.eqb s s'
  | S754_nan, S754_nan => true
  | S754_finite s m e, S754_finite s' m' e' => Bool.eqb s s' && (m =? m')%positive && (e =? e')
  | _, _ => false
  end.

Definition decimal_digit_count (n : Z) : Z := Z.of_nat (length (digits_of_N (Z.to_N n))).

(** The position [p] of the decimal point of [num / den > 0]:
    [10^(p-1) <= num / den < 10^p]. *)
Definition decimal_point (num den : Z) : Z :=
  if den <=? num then decimal_digit_count (num / den)
  else
    let d := decimal_digit_count (den / num) in
    if den <=? num * 10 ^ (d - 1) then 2 - d else 1 - d.

(** The [n]-digit decimal nearest to [m * 2^e] that reads back as that
    float, if there is one: its digits as an integer and its exponent. *)
Definition repr_candidate (m : positive) (e : Z) (n : Z) : option (Z * Z) :=
  let '(num, den) :=
    match e with
    | Zneg k => (Zpos m, Z.pow_pos 2 k)
    | _ => (Zpos m * 2 ^ e, 1)
    end in
  let s := n - decimal_point num den in
  let '(sn, sd) := if 0 <=? s then (num * 10 ^ s, den) else (num, den * 10 ^ (- s)) in
  let lo := sn / sd in
  let rem := sn mod sd in
  let back d := float_identical (float_of_decimal false d (- s)) (S754_finite false m e) in
  let lo_ok := back lo in
  let hi_ok := negb (rem =? 0) && back (lo + 1) in
  if lo_ok && hi_ok then
    match 2 * rem ?= sd with
    | Lt => Some (lo, - s)
    | Gt => Some (lo + 1, - s)
    | Eq => Some (if Z.even lo then lo else lo + 1, - s)
    end
  else if lo_ok then Some (lo, - s)
  else if hi_ok then Some (lo + 1, - s)
  else None.

Fixpoint shortest_candidate (m : positive) (e : Z) (tries : list Z) : Z * Z :=
  match tries with
  | [] => (0, 0)
  | n :: tries' =>
    match repr_candidate m e n with
    | Some c => c
    | None => shortest_candidate m e tries'
    end
  end.

Definition strip_trailing_zeros (ds : pystr) : pystr :=
  match rev (drop_while (Z.eqb 48) (rev ds)) with
  | [] => [48]
  | ds' => ds'
  end.

(** [repr] of the finite non-zero magnitude [m * 2^e]. *)
Definition repr_magnitude (m : positive) (e : Z) : pystr :=
  let '(d, x) := shortest_candidate m e [1; 2; 3; 4; 5; 6; 7; 8; 9; 10; 11; 12; 13; 14; 15; 16; 17] in
  let all := digits_of_N (Z.to_N d) in
  let decpt := Z.of_nat (length all) + x in
  let ds := strip_trailing_zeros all in
  let n := Z.of_nat (length ds) in
  if (decpt <=? -4) || (16 <? decpt) then
    let ev := decpt - 1 in
    firstn 1 ds ++ (if 1 <? n then 46 :: skipn 1 ds else [])
    ++ [101] ++ (if ev <? 0 then [45] else [43])
    ++ repeat 48 (2 - length (digits_of_N (Z.to_N (Z.abs ev))))
    ++ digits_of_N (Z.to_N (Z.abs ev))
  else if decpt <=? 0 then
    py "0." ++ repeat 48 (Z.to_nat (- decpt)) ++ ds
  else if n <=? decpt then
    ds ++ repeat 48 (Z.to_nat (decpt - n)) ++ py ".0"
  else
    firstn (Z.to_nat decpt) ds ++ [46] ++ skipn (Z.to_nat decpt) ds.

Definition repr_shortest (x : float) : pystr :=
  match x with
  | S754_nan => py "nan"
  | S754_infinity s => sign_prefix s ++ py "inf"
  | S754_zero s => sign_prefix s ++ py "0.0"
  | S754_finite s m e => sign_prefix s ++ repr_magnitude m e
  end.

#[export] Instance cpython_3_11 : PyRuntime.
Proof.
  refine {| unicode_decimal := unicode14_decimal;
            str_upper := latin1_upper;
            str_lower := latin1_lower;
            float_repr := repr_shortest;
            float_sum := sum_left_to_right |}.
  - intros c d. unfold unicode14_decimal.
    destruct (find _ _) as [b|] eqn:Hfind; [|discriminate].
    apply find_some in Hfind. intros [= <-]. lia.
  - intros c Hc. unfold unicode14_decimal.
    destruct (find _ _) as [b|] eqn:Hfind; [|reflexivity].
    apply find_some in Hfind. destruct Hfind as [Hin Hb].
    assert (Hall : forallb (fun b => 0x660 <=? b) unicode14_decimal_blocks = true)
      by reflexivity.
    rewrite forallb_forall in Hall. apply Hall in Hin. lia.
  - reflexivity.
Defined.

(** ** Predicates used to state the properties *)

(** White space only, and no white space at all. *)
Definition all_space (s : pystr) : Prop := Forall (fun c => py_isspace c = true) s.
Definition space_free (s : pystr) : Prop := Forall (fun c => py_isspace c = false) s.

(** The ASCII characters a text accepted by [float] can contain besides
    white space: digits, signs, the point, the exponent mark, the
    underscore and the letters of [inf], [infinity] and [nan]. *)
Definition float_literal_char (c : Z) : bool :=
  is_ascii_digit c
  || (c =? 43) || (c =? 45) || (c =? 46) || (c =? 95) || (c =? 101) || (c =? 69)
  || existsb (Z.eqb (c_tolower c)) (py "infatyn").

(** What a character of a text accepted by [float] is. *)
Definition float_text_char {rt : PyRuntime} (c : Z) : Prop :=
  (c < 127 /\ (float_literal_char c = true \/ c_isspace c = true))
  \/ (127 <= c /\ (py_isspace c = true \/ unicode_decimal c <> None)).

(** A cell whose conversion to [float] does not overflow: every cell but
    an [int] beyond the range of a double. *)
Definition no_overflow (v : cell) : Prop :=
  match v with
  | CInt n => exists x, float_of_int n = Return x
  | _ => True
  end.

(** Deleting ["NGN"] and the naira marker from the text of the cell, its
    thousands separators removed, gives the same text in either order.
    Nothing is asked of a cell that is not a text. *)
Definition markers_commute {rt : PyRuntime} (v : cell) : Prop :=
  match v with
  | CStr _ | CDate _ _ =>
    let s := str_replace (py ",") [] (py_str v) in
    str_replace lit_naira [] (str_replace (py "NGN") [] s)
    = str_replace (py "NGN") [] (str_replace lit_naira [] s)
  | _ => True
  end.

(** [216000.0] and [5.0] *)
Definition float_216000 : float := S754_finite false 7421703487488000 (-35).
Definition float_5 : float := S754_finite false 5629499534213120 (-50).

(** The outcome of the text branch in terms of the marker-free form. *)
Definition coerce_form {rt : PyRuntime} (t : pystr) : result (option float) :=
  if str_is_empty t then Return None
  else try_except_ValueError (x <- float_of_str t ;; Return (Some x)) (Return None).

(** No [int] beyond the range of a double in the amount columns. *)
Definition ws_no_overflow (ws : worksheet) : Prop :=
  Forall (fun rw => no_overflow (colB rw) /\ no_overflow (colC rw)) ws.

(** One call of [log_event]: the clock reading and the four arguments. *)
Record log_call : Type := {
  call_now : datetime;
  call_job : pystr;
  call_status : pystr;
  call_message : pystr;
  call_extra : pystr
}.

(** The record a call appends. *)
Definition record_of_call (c : log_call) : csv_record :=
  [strftime (call_now c); call_job c; call_status c;
   str_prefix 400 (call_message c); str_prefix 400 (call_extra c)].

(** The calls of a run, one after the other. *)
Definition log_events (calls : list log_call) (file : log_file) : log_file :=
  fold_left (fun f c => log_event (call_now c) (call_job c) (call_status c)
                                  (call_message c) (call_extra c) f)
            calls file.

(** ** The specification's sentences that the code does not satisfy *)

Section SpecWording.
Context {rt : PyRuntime}.

(** "If the totals sentinel row is absent, [total_support_primary] equals
    the sum of all item primary amounts; if present, the sentinel value is
    used verbatim", and the secondary total is "read from the sentinel row
    only". *)
Definition spec_total_support (ws : worksheet) : Prop :=
  forall plan h,
    care_plan_of_worksheet ws = Return plan ->
    find_row ws (py "MONTHLY SUPPORT BREAKDOWN") = Some h ->
    match totals_row ws h with
    | None =>
      total_support_gbp plan = float_sum (map amount_gbp (items plan))
      /\ total_support_ngn plan = None
    | Some rw =>
      _to_float (colB rw) = Return (Some (total_support_gbp plan))
      /\ _to_ngn_float (colC rw) = Return (total_support_ngn plan)
    end.

(** "[weekly_income], [monthly_income]: non-negative numeric baselines",
    "[amount_primary]: non-negative numeric value". *)
Definition spec_nonnegative (ws : worksheet) : Prop :=
  forall plan,
    care_plan_of_worksheet ws = Return plan ->
    float_nonneg (weekly_income_gbp plan)
    /\ float_nonneg (monthly_income_gbp plan)
    /\ Forall (fun it => float_nonneg (amount_gbp it)) (items plan).

(** "Each field-length-capped defensively": some bound holds for every
    field of every appended record. *)
Definition spec_fields_capped : Prop :=
  exists cap : nat,
    forall now job status message extra file records,
      log_event now job status message extra file = Some records ->
      Forall (fun field => (length field <= cap)%nat) (last records []).

End SpecWording.

(** ** Sheets and values of the scenarios *)

Definition text_row (lbl : string) (b c d : cell) : row :=
  {| colA := CStr (py lbl); colB := b; colC := c; colD := d |}.

(** The scenario of the specification: incomes 100 and 433, one item and
    a totals row. *)
Definition scenario_sheet : worksheet :=
  [ text_row "Weekly Income" (CInt 100) CNone CNone;
    text_row "Monthly Income" (CInt 433) CNone CNone;
    text_row "MONTHLY SUPPORT BREAKDOWN" CNone CNone CNone;
    text_row "Transport" (CInt 50) (CStr (py "20,000")) (CStr []);
    text_row "TOTAL MONTHLY SUPPORT" (CInt 50) (CStr (py "20,000")) CNone ].

(** The same sheet with a totals row that says 0. *)
Definition zero_total_sheet : worksheet :=
  [ text_row "Weekly Income" (CInt 100) CNone CNone;
    text_row "Monthly Income" (CInt 433) CNone CNone;
    text_row "MONTHLY SUPPORT BREAKDOWN" CNone CNone CNone;
    text_row "Transport" (CInt 50) (CStr (py "20,000")) (CStr []);
    text_row "TOTAL MONTHLY SUPPORT" (CInt 0) (CStr (py "20,000")) CNone ].

(** A sheet with a negative weekly income. *)
Definition negative_income_sheet : worksheet :=
  [ text_row "Weekly Income" (CInt (-5)) CNone CNone;
    text_row "Monthly Income" (CInt 433) CNone CNone;
    text_row "MONTHLY SUPPORT BREAKDOWN" CNone CNone CNone ].

(** The scenario's sheet with two negative second cells extraction does
    not read: one in a row without a label, one below the totals row. *)
Definition unread_negative_sheet : worksheet :=
  [ text_row "Weekly Income" (CInt 100) CNone CNone;
    text_row "Monthly Income" (CInt 433) CNone CNone;
    text_row "MONTHLY SUPPORT BREAKDOWN" CNone CNone CNone;
    {| colA := CNone; colB := CInt (-5); colC := CNone; colD := CNone |};
    text_row "Transport" (CInt 50) (CStr (py "20,000")) (CStr []);
    text_row "TOTAL MONTHLY SUPPORT" (CInt 50) (CStr (py "20,000")) CNone;
    text_row "Refund" (CInt (-5)) CNone CNone ].

(** [10**309], an [int] beyond the range of a double, and a sheet that
    holds it as the weekly income and has no breakdown header. *)
Definition huge_int : Z := 10 ^ 309.

Definition huge_income_sheet : worksheet :=
  [ text_row "Weekly Income" (CInt huge_int) CNone CNone;
    text_row "Monthly Income" (CInt 433) CNone CNone ].

(** ["NG" + naira + "N5"]: deleting the naira marker leaves ["NGN5"]. *)
Definition split_marker_text : pystr := py "NG" ++ lit_naira ++ py "N5".

(** [50.0], [100.0], [200.0], [433.0], [1200.5], [1500.0], [20000.0], [-5.0] *)
Definition float_50 : float := S754_finite false 7036874417766400 (-47).
Definition float_200 : float := S754_finite false 7036874417766400 (-45).
Definition float_100 : float := S754_finite false 7036874417766400 (-46).
Definition float_433 : float := S754_finite false 7617416557232128 (-44).
Definition float_1200_5 : float := S754_finite false 5279854836580352 (-42).
Definition float_1500 : float := S754_finite false 6597069766656000 (-42).
Definition float_20000 : float := S754_finite false 5497558138880000 (-38).
Definition float_minus_5 : float := S754_finite true 5629499534213120 (-50).

(** The plan read from [scenario_sheet] and from [zero_total_sheet]. *)
Definition scenario_plan : CarePlan :=
  {| weekly_income_gbp := float_100;
     monthly_income_gbp := float_433;
     total_support_gbp := float_50;
     total_support_ngn := Some float_20000;
     items := [ {| category := py "Transport";
                   amount_gbp := float_50;
                   amount_ngn := Some float_20000;
                   notes := [] |} ] |}.

(** The plan read from [negative_income_sheet]. *)
Definition negative_income_plan : CarePlan :=
  {| weekly_income_gbp := float_minus_5;
     monthly_income_gbp := float_433;
     total_support_gbp := fzero;
     total_support_ngn := None;
     items := [] |}.

(** The totals row of [zero_total_sheet]. *)
Definition zero_total_row : row :=
  text_row "TOTAL MONTHLY SUPPORT" (CInt 0) (CStr (py "20,000")) CNone.

(** 6 November 2026, 09:00:05. *)
Definition sample_time : datetime :=
  {| year := 2026; month := 11; day := 6; hour := 9; minute := 0; second := 5 |}.

Definition scenario_start : loop_state := initial_state 3.

(* ===================================================================== *)
(** * Part I, continued: what the properties beyond the specification use *)
(* ===================================================================== *)

(** ** The reader, row by row *)

Section ReaderRows.
Context {rt : PyRuntime}.

(** The test [find_row] makes on the row it looks at: the first cell is
    not [None] and its text, trimmed and in lower case, is the label's. *)
Definition label_matches (lbl : pystr) (rw : row) : bool :=
  if is_None (colA rw) then false
  else str_eqb (str_lower (str_strip (py_str (colA rw)))) (str_lower (str_strip lbl)).

(** The position, counted from 0, of the first row that passes a test. *)
Fixpoint first_index (p : row -> bool) (rows : list row) : option nat :=
  match rows with
  | [] => None
  | rw :: rest => if p rw then Some O else option_map S (first_index p rest)
  end.

(** Where a row index moves when a row is put in before row [k + 1]. *)
Definition shift_index (k i : nat) : nat := if (i <? k)%nat then i else S i.

(** The sheet with one more row [b], put in after its first [k] rows. *)
Definition insert_row (k : nat) (b : row) (ws : worksheet) : worksheet :=
  firstn k ws ++ b :: skipn k ws.

(** The variables of the loop other than the row counter. *)
Definition loop_vars (st : loop_state) : list BudgetItem * float * option float :=
  (st_items st, st_total_support_gbp st, st_total_support_ngn st).

Definition result_vars (res : result loop_state)
  : result (list BudgetItem * float * option float) :=
  match res with
  | Return st => Return (loop_vars st)
  | Raise e => Raise e
  end.

(** What an item of a plan always satisfies: the category is not empty,
    has no white space around it and is not a terminal sentinel; the
    notes have no white space around them. *)
Definition well_formed_item (item : BudgetItem) : Prop :=
  category item <> []
  /\ str_strip (category item) = category item
  /\ str_upper (category item) <> py "TOTAL MONTHLY SUPPORT"
  /\ str_upper (category item) <> py "REMAINING FOR YOU"
  /\ str_strip (notes item) = notes item.

End ReaderRows.

(** ** The callers: [telegram.py], [scheduler.py], [main.py]

    The reader and the logger are called from the scheduler's jobs, next
    to the Telegram client and the PDF builder.  What these do to the
    world is the log file they append to and the calls they make to the
    outside; what the outside answers (the clock, the process
    environment, the HTTP client, the file system, [reportlab]) is given
    by an [outside], consulted once per call.  Appending to the log
    fails when the outside says so; [log_event] above is the appending
    that goes through. *)

(** An exception as a caller sees it. *)
Record py_exception : Type := {
  exc_type_name : pystr;      (** [type(e).__name__] *)
  exc_text : pystr;           (** [str(e)] *)
  exc_is_Exception : bool     (** [isinstance(e, Exception)] *)
}.

Inductive outcome (A : Type) : Type :=
| Returned (a : A)
| Raised (e : py_exception).
Arguments Returned {A} a.
Arguments Raised {A} e.

(** A relative [Path]: its parts.  [p.name], [p / name] for a [name] of
    one part, and [str(p)] with the separator of the platform. *)
Definition path : Type := list pystr.

Definition path_name (p : path) : pystr := last p [].

Definition path_div (p : path) (name : pystr) : path := p ++ [name].

Definition path_str (sep : pystr) (p : path) : pystr :=
  match p with
  | [] => py "."
  | _ :: _ => str_join sep p
  end.

(** The arguments of a call of [requests.post]: [url] and [json], or
    [url], [data] and [files]; a file is given by its name and the path
    it was opened from. *)
Inductive request : Type :=
| PostJson (url : pystr) (json : list (pystr * pystr))
| PostForm (url : pystr) (data : list (pystr * pystr))
           (files : list (pystr * (pystr * path))).

(** The response [r] of a request, as far as it is used: what
    [r.raise_for_status()] raises, if it raises. *)
Record response : Type := {
  status_error : option py_exception
}.

(** The calls that leave the program. *)
Inductive call : Type :=
| RequestsPost (req : request)
| BuildDocument (plan : CarePlan) (out_path : path).

Record world : Type := {
  w_log : log_file;          (** [data/logs.csv] *)
  w_calls : list call;       (** the calls made so far, oldest first *)
  w_tick : nat               (** how often the outside has been consulted *)
}.

Record outside : Type := {
  (** [datetime.now()] *)
  out_now : nat -> datetime;
  (** [os.getenv], once [load_dotenv()] has run *)
  out_getenv : pystr -> option pystr;
  (** [requests.post] *)
  out_post : nat -> request -> outcome response;
  (** [file_path.exists()] and what [file_path.open("rb")] raises *)
  out_exists : nat -> path -> bool;
  out_open : nat -> path -> option py_exception;
  (** what is stored on disk where a workbook is looked for *)
  out_workbooks : nat -> filesystem;
  (** what [log_event] raises, and the log file it leaves behind, when
      it cannot make the directory, open the file or write to it; [None]
      when the record gets appended *)
  out_log_failure : nat -> log_file -> option (py_exception * log_file);
  (** what [build_mom_care_pdf] raises while it makes the directory and
      has [reportlab] build the document *)
  out_reportlab : nat -> CarePlan -> path -> option py_exception;
  (** [os.sep] *)
  out_sep : pystr;
  (** [str(e)] for an exception of [read_care_plan_from_excel] *)
  out_exn_text : exn -> pystr
}.

(** A computation that may raise and changes the world. *)
Definition action (A : Type) : Type := world -> outcome A * world.

Definition ret {A : Type} (a : A) : action A := fun w => (Returned a, w).

Definition raise {A : Type} (e : py_exception) : action A := fun w => (Raised e, w).

Definition and_then {A B : Type} (m : action A) (k : A -> action B) : action B :=
  fun w =>
    match m w with
    | (Returned a, w') => k a w'
    | (Raised e, w') => (Raised e, w')
    end.

Declare Scope io_scope.
Delimit Scope io_scope with io.
Bind Scope io_scope with action.
Notation "x <- m ;; k" := (and_then m (fun x => k))
  (at level 61, m at next level, right associativity) : io_scope.

(** [try: m except Exception as e: h e] *)
Definition try_except_Exception {A : Type} (m : action A) (h : py_exception -> action A)
  : action A :=
  fun w =>
    match m w with
    | (Returned a, w') => (Returned a, w')
    | (Raised e, w') => if exc_is_Exception e then h e w' else (Raised e, w')
    end.

(** The world after the outside has been consulted, and after a call. *)
Definition consulted (w : world) : world :=
  {| w_log := w_log w; w_calls := w_calls w; w_tick := S (w_tick w) |}.

Definition called (c : call) (w : world) : world :=
  {| w_log := w_log w; w_calls := w_calls w ++ [c]; w_tick := S (w_tick w) |}.

(** [bool(s)] for the result of [os.getenv], and the string it holds. *)
Definition env_truthy (s : option pystr) : bool :=
  match s with
  | Some (_ :: _) => true
  | _ => false
  end.

Definition env_text (s : option pystr) : pystr :=
  match s with
  | Some s => s
  | None => []
  end.

(** The literals of [scheduler.py] and [main.py] that are not ASCII. *)
Definition lit_warning : pystr := [0x26A0; 0xFE0F].
Definition lit_page : pystr := [0x1F4C4].
Definition lit_calendar : pystr := [0x1F4C5].
Definition lit_telephone : pystr := [0x1F4DE].
Definition lit_money_bag : pystr := [0x1F4B0].
Definition lit_em_dash : pystr := [0x2014].
Definition lit_check_mark : pystr := [0x2705].
Definition lit_pound_sign : pystr := [0xA3].
Definition lit_almost_equal : pystr := [0x2248].
Definition lit_naira_sign : pystr := [0x20A6].

(** [PLAN_PATH] and [PDF_DIR] *)
Definition PLAN_PATH : pystr := py "data/Mom_Care_Monthly_Support_Plan.xlsx".
Definition PDF_DIR : path := [py "out"].

(** [now.strftime("%Y-%m")] *)
Definition strftime_Ym (t : datetime) : pystr :=
  zero_pad 4 (year t) ++ py "-" ++ zero_pad 2 (month t).

(** [sub in s] *)
Fixpoint str_contains (sub s : pystr) : bool :=
  startswith sub s
  || match s with
     | [] => false
     | _ :: s' => str_contains sub s'
     end.

(** The jobs [start_scheduler] registers: the function, the fields of
    its [CronTrigger], and the options of [add_job]. *)
Inductive job_function : Type :=
| MonthlySupportJob
| WeeklyCallJob
| EmergencySavingsJob.

Record CronTrigger : Type := {
  cron_day : option Z;
  cron_day_of_week : option pystr;
  cron_hour : Z;
  cron_minute : Z
}.

Record scheduled_job : Type := {
  job_func : job_function;
  job_trigger : CronTrigger;
  job_id : pystr;
  job_misfire_grace_time : Z
}.

(** A scheduler that has not been started: its time zone and the jobs
    added to it. *)
Record scheduler : Type := {
  sched_timezone : pystr;
  sched_jobs : list scheduled_job
}.

(** [BlockingScheduler(timezone=...)] *)
Definition BlockingScheduler (timezone : pystr) : scheduler :=
  {| sched_timezone := timezone; sched_jobs := [] |}.

(** [sched.add_job(..., id=..., replace_existing=True)] *)
Definition add_job (j : scheduled_job) (sched : scheduler) : scheduler :=
  {| sched_timezone := sched_timezone sched;
     sched_jobs :=
       filter (fun j' => negb (str_eqb (job_id j') (job_id j))) (sched_jobs sched) ++ [j] |}.

Definition MONTHLY_TRANSFER_DAY : Z := 1.
Definition TIMEZONE : pystr := py "Europe/London".

Section Callers.
Context {rt : PyRuntime}.
Variable o : outside.

(** *** [telegram.py] *)

Definition missing_credentials : py_exception :=
  {| exc_type_name := py "RuntimeError";
     exc_text := py "Missing TELEGRAM_BOT_TOKEN or TELEGRAM_CHAT_ID in .env";
     exc_is_Exception := true |}.

Definition _get_creds : action (pystr * pystr) :=
  let token := out_getenv o (py "TELEGRAM_BOT_TOKEN") in
  let chat_id := out_getenv o (py "TELEGRAM_CHAT_ID") in
  if negb (env_truthy token) || negb (env_truthy chat_id)
  then raise missing_credentials
  else ret (env_text token, env_text chat_id).

(** [requests.post(...)] and [r.raise_for_status()] *)
Definition requests_post (req : request) : action response :=
  fun w => (out_post o (w_tick w) req, called (RequestsPost req) w).

Definition raise_for_status (r : response) : action unit :=
  match status_error r with
  | Some e => raise e
  | None => ret tt
  end.

Definition send_message_url (token : pystr) : pystr :=
  py "https://api.telegram.org/bot" ++ token ++ py "/sendMessage".

Definition send_document_url (token : pystr) : pystr :=
  py "https://api.telegram.org/bot" ++ token ++ py "/sendDocument".

Definition send_telegram (message : pystr) : action unit :=
  (creds <- _get_creds ;;
   let '(token, chat_id) := creds in
   let url := send_message_url token in
   r <- requests_post (PostJson url [(py "chat_id", chat_id); (py "text", message)]) ;;
   raise_for_status r)%io.

Definition document_not_found (file_path : path) : py_exception :=
  {| exc_type_name := py "FileNotFoundError";
     exc_text := py "Document not found: " ++ path_str (out_sep o) file_path;
     exc_is_Exception := true |}.

Definition path_exists (p : path) : action bool :=
  fun w => (Returned (out_exists o (w_tick w) p), consulted w).

(** [file_path.open("rb")]: the open file, given by its path. *)
Definition path_open_rb (p : path) : action path :=
  fun w =>
    (match out_open o (w_tick w) p with
     | Some e => Raised e
     | None => Returned p
     end, consulted w).

Definition send_document (file_path : path) (caption : pystr) : action unit :=
  (creds <- _get_creds ;;
   let '(token, chat_id) := creds in
   found <- path_exists file_path ;;
   if negb found then raise (document_not_found file_path)
   else
     let url := send_document_url token in
     f <- path_open_rb file_path ;;
     let files := [(py "document", (path_name file_path, f))] in
     let data := if negb (str_is_empty caption)
                 then [(py "chat_id", chat_id); (py "caption", caption)]
                 else [(py "chat_id", chat_id)] in
     r <- requests_post (PostForm url data files) ;;
     raise_for_status r)%io.

(** *** The calls of [log_event], [read_care_plan_from_excel] and
    [build_mom_care_pdf] *)

(** [log_event(job, status, message=..., extra=...)], reading the clock:
    the record is appended, unless making the directory, opening the
    file or writing raises. *)
Definition log_event_now (job status message extra : pystr) : action unit :=
  fun w =>
    match out_log_failure o (w_tick w) (w_log w) with
    | Some (e, left_behind) =>
      (Raised e,
       {| w_log := left_behind; w_calls := w_calls w; w_tick := S (w_tick w) |})
    | None =>
      (Returned tt,
       {| w_log := log_event (out_now o (w_tick w)) job status message extra (w_log w);
          w_calls := w_calls w;
          w_tick := S (w_tick w) |})
    end.

(** An exception of the reader as a caller sees it. *)
Definition exception_of_exn (e : exn) : py_exception :=
  {| exc_type_name := match e with
                      | FileNotFoundError => py "FileNotFoundError"
                      | ValueError _ => py "ValueError"
                      | OverflowError => py "OverflowError"
                      | LoadError type_name => type_name
                      end;
     exc_text := out_exn_text o e;
     exc_is_Exception := true |}.

Definition read_care_plan (xlsx_path : pystr) : action CarePlan :=
  fun w =>
    (match read_care_plan_from_excel (out_workbooks o (w_tick w)) xlsx_path with
     | Return plan => Returned plan
     | Raise e => Raised (exception_of_exn e)
     end, consulted w).

(** [build_mom_care_pdf(plan, out_path)]: it returns [out_path] when the
    document has been built. *)
Definition build_mom_care_pdf (plan : CarePlan) (out_path : path) : action path :=
  fun w =>
    (match out_reportlab o (w_tick w) plan out_path with
     | Some e => Raised e
     | None => Returned out_path
     end, called (BuildDocument plan out_path) w).

(** [datetime.now()] *)
Definition datetime_now : action datetime :=
  fun w => (Returned (out_now o (w_tick w)), consulted w).

(** *** [scheduler.py] *)

(** [f"{type(e).__name__}: {e}"] *)
Definition error_text (e : py_exception) : pystr :=
  exc_type_name e ++ py ": " ++ exc_text e.

Definition error_notice (job step err : pystr) : pystr :=
  lit_warning ++ py " MomCareBot " ++ job ++ py " error at '" ++ step ++ py "': " ++ err.

(** [_safe]: [fn] stands for the call of the function on the arguments
    passed along; the result is that of [fn], or [None]. *)
Definition _safe {A : Type} (job step : pystr) (fn : action A) : action (option A) :=
  try_except_Exception
    (result <- fn ;;
     _ <- log_event_now job (py "SENT") step [] ;;
     ret (Some result))%io
    (fun e =>
       let err := error_text e in
       (_ <- log_event_now job (py "ERROR") step err ;;
        _ <- try_except_Exception (send_telegram (error_notice job step err))
                                  (fun _ => ret tt) ;;
        ret None)%io).

Definition pdf_caption (stamp : pystr) : pystr :=
  lit_page ++ py " Mom Care Plan (" ++ stamp ++ py ")".

Definition monthly_text (plan : CarePlan) : pystr :=
  (lit_calendar ++ py " Monthly Support Reminder" ++ [10]
   ++ py "Today is your scheduled transfer date." ++ [10; 10])
  ++ format_plan_for_telegram plan.

Definition monthly_support_job : action unit :=
  let job := py "monthly_support" in
  (_ <- log_event_now job (py "STARTED") (py "Monthly job triggered") [] ;;
   plan <- _safe job (py "read_excel_plan") (read_care_plan PLAN_PATH) ;;
   match plan with
   | None => ret tt
   | Some plan =>
     now <- datetime_now ;;
     let stamp := strftime_Ym now in
     let pdf_path := path_div PDF_DIR (py "Mom_Care_Plan_" ++ stamp ++ py ".pdf") in
     built <- _safe job (py "build_pdf") (build_mom_care_pdf plan pdf_path) ;;
     _ <- match built with
          | Some built =>
            _ <- _safe job (py "send_pdf_to_telegram")
                       (send_document built (pdf_caption stamp)) ;;
            ret tt
          | None => ret tt
          end ;;
     let msg := monthly_text plan in
     _ <- _safe job (py "send_text_breakdown") (send_telegram msg) ;;
     log_event_now job (py "DONE") (py "Monthly job completed") []
   end)%io.

Definition weekly_call_text : pystr :=
  lit_telephone ++ py " MomCareBot: Reminder " ++ lit_em_dash
  ++ py " call Mum today (weekly check-in).".

Definition weekly_call_job : action unit :=
  let job := py "weekly_call" in
  (_ <- log_event_now job (py "STARTED") (py "Weekly call job triggered") [] ;;
   _ <- _safe job (py "send_call_reminder") (send_telegram weekly_call_text) ;;
   log_event_now job (py "DONE") (py "Weekly call job completed") [])%io.

Definition generic_emergency_text : pystr :=
  lit_money_bag ++ py " MomCareBot: Reminder " ++ lit_em_dash
  ++ py " put emergency savings aside this week.".

(** [next((i for i in plan.items if "emergency" in i.category.lower()), None)] *)
Definition emergency_item (plan : CarePlan) : option BudgetItem :=
  find (fun i => str_contains (py "emergency") (str_lower (category i))) (items plan).

Definition emergency_amount_text (emergency : BudgetItem) : pystr :=
  let line := lit_money_bag ++ py " MomCareBot: Emergency savings reminder " ++ lit_em_dash
              ++ py " " ++ lit_pound_sign ++ format_f0 false (amount_gbp emergency) in
  match amount_ngn emergency with
  | Some ngn =>
    line ++ (py " (" ++ lit_almost_equal ++ py " " ++ lit_naira_sign
             ++ format_f0 true ngn ++ py ")")
  | None => line
  end.

Definition emergency_savings_job : action unit :=
  let job := py "emergency_savings" in
  (_ <- log_event_now job (py "STARTED") (py "Emergency savings job triggered") [] ;;
   plan <- _safe job (py "read_excel_plan") (read_care_plan PLAN_PATH) ;;
   match plan with
   | None =>
     _ <- _safe job (py "send_generic_emergency_reminder")
                (send_telegram generic_emergency_text) ;;
     log_event_now job (py "DONE") (py "Emergency savings job completed") []
   | Some plan =>
     let emergency := emergency_item plan in
     _ <- match emergency with
          | Some emergency =>
            let line := emergency_amount_text emergency in
            _ <- _safe job (py "send_emergency_amount_reminder") (send_telegram line) ;;
            ret tt
          | None =>
            _ <- _safe job (py "send_generic_emergency_reminder")
                       (send_telegram generic_emergency_text) ;;
            ret tt
          end ;;
     log_event_now job (py "DONE") (py "Emergency savings job completed") []
   end)%io.

Definition startup_text : pystr :=
  lit_check_mark ++ py " MomCareBot started. Logging + monthly PDF are active.".

(** [start_scheduler] up to [sched.start()], which hands control to the
    scheduler: the result is the scheduler as it is started. *)
Definition start_scheduler : action scheduler :=
  let sched := BlockingScheduler TIMEZONE in
  let sched :=
    add_job {| job_func := MonthlySupportJob;
               job_trigger := {| cron_day := Some MONTHLY_TRANSFER_DAY;
                                 cron_day_of_week := None;
                                 cron_hour := 9; cron_minute := 0 |};
               job_id := py "monthly_support";
               job_misfire_grace_time := 3600 |} sched in
  let sched :=
    add_job {| job_func := WeeklyCallJob;
               job_trigger := {| cron_day := None;
                                 cron_day_of_week := Some (py "sun");
                                 cron_hour := 18; cron_minute := 0 |};
               job_id := py "weekly_call";
               job_misfire_grace_time := 3600 |} sched in
  let sched :=
    add_job {| job_func := EmergencySavingsJob;
               job_trigger := {| cron_day := None;
                                 cron_day_of_week := Some (py "fri");
                                 cron_hour := 19; cron_minute := 0 |};
               job_id := py "emergency_savings";
               job_misfire_grace_time := 3600 |} sched in
  (_ <- log_event_now (py "system") (py "STARTED") (py "Scheduler started") [] ;;
   _ <- _safe (py "system") (py "startup_message") (send_telegram startup_text) ;;
   ret sched)%io.

(** *** [main.py] *)

Definition live_text : pystr :=
  py "MomCareBot is live " ++ lit_check_mark ++ py " Reminders are active.".

(** [main], after [load_dotenv()] and up to [sched.start()]. *)
Definition main : action scheduler :=
  (_ <- send_telegram live_text ;;
   start_scheduler)%io.

End Callers.

(** *** What a run leaves behind *)

(** The records [log_event] appends to: those of the file, or the header
    it writes first. *)
Definition log_base (file : log_file) : list csv_record :=
  match file with
  | None => [fieldnames]
  | Some records => records
  end.

(** From [w] to [w'] the log has grown by [records] and the calls made
    are [calls]. *)
Definition leaves (w w' : world) (records : list csv_record) (calls : list call) : Prop :=
  log_base (w_log w') = log_base (w_log w) ++ records
  /\ w_calls w' = w_calls w ++ calls.

(** The job, the status and the message of a record. *)
Definition record_summary (rec : csv_record) : pystr * pystr * pystr :=
  (nth 1 rec [], nth 2 rec [], nth 3 rec []).

(** The credentials are set: both variables hold a non-empty string. *)
Definition credentials (o : outside) (token chat_id : pystr) : Prop :=
  out_getenv o (py "TELEGRAM_BOT_TOKEN") = Some token
  /\ out_getenv o (py "TELEGRAM_CHAT_ID") = Some chat_id
  /\ token <> [] /\ chat_id <> [].

Definition no_credentials (o : outside) : Prop :=
  env_truthy (out_getenv o (py "TELEGRAM_BOT_TOKEN")) = false
  \/ env_truthy (out_getenv o (py "TELEGRAM_CHAT_ID")) = false.

(** The log can be written to, whenever and whatever it holds. *)
Definition log_writable (o : outside) : Prop :=
  forall t file, out_log_failure o t file = None.

(** An action that appends nothing to the log. *)
Definition quiet {A : Type} (fn : action A) : Prop :=
  forall w, exists calls, leaves w (snd (fn w)) [] calls.

(** What a request made at tick [t] leads to: the exception of the post
    or of the response's status, or nothing. *)
Definition post_result (o : outside) (t : nat) (req : request) : outcome unit :=
  match out_post o t req with
  | Raised e => Raised e
  | Returned r =>
    match status_error r with
    | Some e => Raised e
    | None => Returned tt
    end
  end.

(** The requests of [send_telegram] and of [send_document]. *)
Definition message_request (token chat_id message : pystr) : request :=
  PostJson (send_message_url token) [(py "chat_id", chat_id); (py "text", message)].

Definition document_request (token chat_id : pystr) (file_path : path) (caption : pystr)
  : request :=
  PostForm (send_document_url token)
           (if str_is_empty caption
            then [(py "chat_id", chat_id)]
            else [(py "chat_id", chat_id); (py "caption", caption)])
           [(py "document", (path_name file_path, file_path))].

(** *** What the jobs log

    The job, the status and the message of the records a job appends,
    given which of its steps went through. *)

Definition status_of (sent : bool) : pystr := if sent then py "SENT" else py "ERROR".

Definition weekly_call_log (sent : bool) : list (pystr * pystr * pystr) :=
  let job := py "weekly_call" in
  [ (job, py "STARTED", py "Weekly call job triggered");
    (job, status_of sent, py "send_call_reminder");
    (job, py "DONE", py "Weekly call job completed") ].

Definition monthly_support_log (read built pdf text : bool)
  : list (pystr * pystr * pystr) :=
  let job := py "monthly_support" in
  (job, py "STARTED", py "Monthly job triggered")
  :: (job, status_of read, py "read_excel_plan")
  :: (if read then
        (job, status_of built, py "build_pdf")
        :: (if built then [(job, status_of pdf, py "send_pdf_to_telegram")] else [])
        ++ [ (job, status_of text, py "send_text_breakdown");
             (job, py "DONE", py "Monthly job completed") ]
      else []).

Definition emergency_savings_log (read with_amount sent : bool)
  : list (pystr * pystr * pystr) :=
  let job := py "emergency_savings" in
  [ (job, py "STARTED", py "Emergency savings job triggered");
    (job, status_of read, py "read_excel_plan");
    (job, status_of sent,
     if with_amount then py "send_emergency_amount_reminder"
     else py "send_generic_emergency_reminder");
    (job, py "DONE", py "Emergency savings job completed") ].

Definition is_Return {A : Type} (res : result A) : bool :=
  match res with
  | Return _ => true
  | Raise _ => false
  end.

Definition is_Returned {A : Type} (res : outcome A) : bool :=
  match res with
  | Returned _ => true
  | Raised _ => false
  end.

(** Whether a message sent when the outside has been consulted [t] times
    gets through: the credentials are set and neither the post nor the
    status of the response raises. *)
Definition send_succeeds (o : outside) (t : nat) (message : pystr) : bool :=
  let token := out_getenv o (py "TELEGRAM_BOT_TOKEN") in
  let chat_id := out_getenv o (py "TELEGRAM_CHAT_ID") in
  env_truthy token && env_truthy chat_id
  && is_Returned (post_result o t (message_request (env_text token) (env_text chat_id) message)).

(** Whether the document asked for when the outside has been consulted
    [t] times gets built. *)
Definition build_succeeds (o : outside) (t : nat) (plan : CarePlan) (out_path : path) : bool :=
  match out_reportlab o t plan out_path with
  | Some _ => false
  | None => true
  end.

(** Whether a document sent when the outside has been consulted [t]
    times gets through: the credentials are set, the file is there and
    opens, and neither the post nor the status of the response raises. *)
Definition document_succeeds (o : outside) (t : nat) (file_path : path) (caption : pystr)
  : bool :=
  let token := out_getenv o (py "TELEGRAM_BOT_TOKEN") in
  let chat_id := out_getenv o (py "TELEGRAM_CHAT_ID") in
  env_truthy token && env_truthy chat_id
  && out_exists o t file_path
  && match out_open o (S t) file_path with
     | Some _ => false
     | None => true
     end
  && is_Returned (post_result o (S (S t))
                    (document_request (env_text token) (env_text chat_id) file_path caption)).

(** How often the outside is consulted: by a call of [send_telegram],
    once for the post when the credentials are set; by [_safe] after its
    step, for the record and, when the step raised, for the notice; by a
    call of [send_document] made when it has been consulted [t] times,
    for the file, for opening it and for the post, as far as it gets. *)
Definition configured (o : outside) : bool :=
  env_truthy (out_getenv o (py "TELEGRAM_BOT_TOKEN"))
  && env_truthy (out_getenv o (py "TELEGRAM_CHAT_ID")).

Definition send_ticks (o : outside) : nat := if configured o then 1 else 0.

Definition safe_ticks (o : outside) (went_through : bool) : nat :=
  if went_through then 1 else 1 + send_ticks o.

Definition document_ticks (o : outside) (t : nat) (file_path : path) : nat :=
  if configured o then
    if out_exists o t file_path then
      match out_open o (S t) file_path with
      | Some _ => 2
      | None => 3
      end
    else 1
  else 0.

(** The reminder [emergency_savings_job] sends, given what reading the
    plan gave. *)
Definition emergency_reminder {rt : PyRuntime} (res : result CarePlan) : pystr :=
  match res with
  | Return plan =>
    match emergency_item plan with
    | Some emergency => emergency_amount_text emergency
    | None => generic_emergency_text
    end
  | Raise _ => generic_emergency_text
  end.

(** Whether the plan that was read, if one was, has an item for
    emergency savings. *)
Definition has_emergency_item {rt : PyRuntime} (res : result CarePlan) : bool :=
  match res with
  | Return plan =>
    match emergency_item plan with
    | Some _ => true
    | None => false
    end
  | Raise _ => false
  end.

(** An outside where everything works: the credentials are set, every
    request is answered without error, every file is there and opens,
    every document gets built, the workbook gives [plan], and the log
    can be written to. *)
Definition obliging {rt : PyRuntime} (o : outside) (token chat_id : pystr) (plan : CarePlan)
  : Prop :=
  credentials o token chat_id
  /\ (forall t req, post_result o t req = Returned tt)
  /\ (forall t p, out_exists o t p = true)
  /\ (forall t p, out_open o t p = None)
  /\ (forall t pl p, out_reportlab o t pl p = None)
  /\ (forall t, read_care_plan_from_excel (out_workbooks o t) PLAN_PATH = Return plan)
  /\ log_writable o.

(** *** Outsides and a world to evaluate with *)

(** The workbook of the scenario. *)
Definition sample_workbook : workbook :=
  [(py "Sheet1", []); (py "Mom Monthly Support Plan", scenario_sheet)].

Definition sample_exn_text (e : exn) : pystr :=
  match e with
  | FileNotFoundError => py "Excel file not found: " ++ PLAN_PATH
  | ValueError SheetNotFound =>
    py "Sheet 'Mom Monthly Support Plan' not found. Found: ['Sheet1']"
  | ValueError MissingIncomeRows =>
    py "Could not find 'Weekly Income' and/or 'Monthly Income' rows in column A."
  | ValueError MissingHeaderRow =>
    py "Could not find 'MONTHLY SUPPORT BREAKDOWN' header row."
  | ValueError CouldNotConvert => py "could not convert string to float"
  | OverflowError => py "int too large to convert to float"
  | LoadError _ => py "File is not a zip file"
  end.

(** Everything works. *)
Definition sample_outside : outside :=
  {| out_now := fun _ => sample_time;
     out_getenv := fun name =>
       if str_eqb name (py "TELEGRAM_BOT_TOKEN") then Some (py "110201543:AAHdqTcv")
       else if str_eqb name (py "TELEGRAM_CHAT_ID") then Some (py "42")
       else None;
     out_post := fun _ _ => Returned {| status_error := None |};
     out_exists := fun _ _ => true;
     out_open := fun _ _ => None;
     out_workbooks := fun _ p =>
       if str_eqb p PLAN_PATH then Some (Workbook sample_workbook) else None;
     out_log_failure := fun _ _ => None;
     out_reportlab := fun _ _ _ => None;
     out_sep := py "/";
     out_exn_text := sample_exn_text |}.

(** The same without the chat identifier in the environment. *)
Definition unconfigured_outside : outside :=
  {| out_now := out_now sample_outside;
     out_getenv := fun name =>
       if str_eqb name (py "TELEGRAM_BOT_TOKEN") then Some (py "110201543:AAHdqTcv")
       else None;
     out_post := out_post sample_outside;
     out_exists := out_exists sample_outside;
     out_open := out_open sample_outside;
     out_workbooks := out_workbooks sample_outside;
     out_log_failure := out_log_failure sample_outside;
     out_reportlab := out_reportlab sample_outside;
     out_sep := out_sep sample_outside;
     out_exn_text := out_exn_text sample_outside |}.

(** The workbook is not on disk. *)
Definition outside_without_workbook : outside :=
  {| out_now := out_now sample_outside;
     out_getenv := out_getenv sample_outside;
     out_post := out_post sample_outside;
     out_exists := out_exists sample_outside;
     out_open := out_open sample_outside;
     out_workbooks := fun _ _ => None;
     out_log_failure := out_log_failure sample_outside;
     out_reportlab := out_reportlab sample_outside;
     out_sep := out_sep sample_outside;
     out_exn_text := out_exn_text sample_outside |}.

(** What is stored under the plan's path is not a workbook. *)
Definition outside_with_unreadable_workbook : outside :=
  {| out_now := out_now sample_outside;
     out_getenv := out_getenv sample_outside;
     out_post := out_post sample_outside;
     out_exists := out_exists sample_outside;
     out_open := out_open sample_outside;
     out_workbooks := fun _ _ => Some (Unreadable (py "BadZipFile"));
     out_log_failure := out_log_failure sample_outside;
     out_reportlab := out_reportlab sample_outside;
     out_sep := out_sep sample_outside;
     out_exn_text := out_exn_text sample_outside |}.



(** No log file yet, nothing called. *)
Definition first_world : world := {| w_log := None; w_calls := []; w_tick := 0 |}.

(** ** The tables of [pdf_builder.py]

    Of [build_mom_care_pdf], the rows of the two tables, which are made
    from the plan alone. *)

Definition lit_en_dash : pystr := [0x2013].

Definition income_table (plan : CarePlan) : list (list pystr) :=
  [ [py "Item"; py "Amount"];
    [py "Weekly income (avg)"; py "GBP " ++ format_f0 false (weekly_income_gbp plan)];
    [py "Monthly income (estimate)"; py "GBP " ++ format_f0 false (monthly_income_gbp plan)];
    [py "Support budget rule";
     py "Target 15" ++ lit_en_dash ++ py "20% of income for sustainability"] ].

(** [f"NGN {x:,.0f}" if x is not None else "-"] *)
Definition ngn_cell (x : option float) : pystr :=
  match x with
  | Some x => py "NGN " ++ format_f0 true x
  | None => py "-"
  end.

Definition budget_row (item : BudgetItem) : list pystr :=
  [ category item; py "GBP " ++ format_f0 false (amount_gbp item);
    ngn_cell (amount_ngn item); str_or_empty (notes item) ].

Definition budget_header : list pystr :=
  [py "Category"; py "GBP / month"; py "NGN approx"; py "Notes"].

Definition budget_total_row (plan : CarePlan) : list pystr :=
  let total_ngn := ngn_cell (total_support_ngn plan) in
  [ py "TOTAL"; py "GBP " ++ format_f0 false (total_support_gbp plan); total_ngn;
    py "Safe & sustainable baseline" ].

Definition budget_data (plan : CarePlan) : list (list pystr) :=
  let budget_data := [budget_header] in
  let budget_data :=
    fold_left (fun data item => data ++ [budget_row item]) (items plan) budget_data in
  budget_data ++ [budget_total_row plan].

(** The number of [colWidths] given for the two tables. *)
Definition income_columns : nat := 2.
Definition budget_columns : nat := 4.

(** ** [test_reader.py]

    The text the script hands to [print]. *)
Definition test_reader {rt : PyRuntime} (fs : filesystem) : result pystr :=
  plan <- read_care_plan_from_excel fs (py "data/Mom_Care_Monthly_Support_Plan.xlsx") ;;
  Return (format_plan_for_telegram plan).

(** ** Amounts written out

    The characters of an integer written in decimal, and the whole number
    a float is printed as by [format_f0]: the double nearest to it. *)

Definition sign_or_digit (c : Z) : Prop := is_ascii_digit c = true \/ c = 45.

Definition printed_whole (x : float) : float :=
  match x with
  | S754_finite s m e => float_of_decimal s (float_round_magnitude m e) 0
  | _ => x
  end.

(* ===================================================================== *)
(** * Part II: properties                                                  *)
(* ===================================================================== *)

(** ** Strings: [strip] and [replace] *)

Section StringFacts.


Lemma lstrip_app_space (l s : pystr) :
  all_space l -> lstrip (l ++ s) = lstrip s.
Proof.
  induction 1 as [|c l Hc _ IH]; simpl; [reflexivity|].
  rewrite Hc. exact IH.
Qed.

Lemma lstrip_all_space (l : pystr) : all_space l -> lstrip l = [].
Proof.
  intros H. rewrite <- (app_nil_r l). rewrite lstrip_app_space by assumption. reflexivity.
Qed.

Lemma lstrip_split (s : pystr) :
  exists l, s = l ++ lstrip s /\ all_space l.
Proof.
  induction s as [|c s [l [Hs Hl]]]; simpl.
  - exists []. split; [reflexivity|constructor].
  - destruct (py_isspace c) eqn:Hc.
    + exists (c :: l). split; [simpl; congruence|constructor; assumption].
    + exists []. split; [reflexivity|constructor].
Qed.

Lemma lstrip_app_r (s r : pystr) :
  lstrip s <> [] -> lstrip (s ++ r) = lstrip s ++ r.
Proof.
  induction s as [|c s IH]; simpl; intros H; [congruence|].
  destruct (py_isspace c); [auto|reflexivity].
Qed.

Lemma rstrip_app_space (s r : pystr) :
  all_space r -> rstrip (s ++ r) = rstrip s.
Proof.
  intros H. unfold rstrip. rewrite rev_app_distr.
  rewrite lstrip_app_space; [reflexivity|].
  apply Forall_rev. exact H.
Qed.

Lemma rstrip_split (s : pystr) :
  exists r, s = rstrip s ++ r /\ all_space r.
Proof.
  unfold rstrip. destruct (lstrip_split (rev s)) as [l [Hs Hl]].
  exists (rev l). split.
  - rewrite <- rev_app_distr, <- Hs, rev_involutive. reflexivity.
  - apply Forall_rev. exact Hl.
Qed.

Lemma strip_split (s : pystr) :
  exists l r, s = l ++ str_strip s ++ r /\ all_space l /\ all_space r.
Proof.
  destruct (lstrip_split s) as [l [Hs Hl]].
  destruct (rstrip_split (lstrip s)) as [r [Hs' Hr]].
  exists l, r. unfold str_strip. split; [|split; assumption].
  rewrite <- Hs'. exact Hs.
Qed.

Lemma strip_around (l t r : pystr) :
  all_space l -> all_space r -> str_strip (l ++ t ++ r) = str_strip t.
Proof.
  intros Hl Hr. unfold str_strip.
  rewrite lstrip_app_space by assumption.
  destruct (lstrip t) as [|c t'] eqn:Ht.
  - destruct (lstrip_split t) as [l' [Hs Hl']]. rewrite Ht, app_nil_r in Hs. subst l'.
    rewrite lstrip_all_space; [reflexivity|].
    apply Forall_app. split; assumption.
  - rewrite lstrip_app_r by congruence. rewrite Ht.
    apply rstrip_app_space. exact Hr.
Qed.

Lemma strip_idempotent (s : pystr) : str_strip (str_strip s) = str_strip s.
Proof.
  destruct (strip_split s) as [l [r [Hs [Hl Hr]]]].
  rewrite Hs at 2. rewrite strip_around by assumption. reflexivity.
Qed.

Lemma strip_incl (s : pystr) (c : Z) : In c (str_strip s) -> In c s.
Proof.
  destruct (strip_split s) as [l [r [Hs _]]]. intros H.
  rewrite Hs. apply in_or_app. right. apply in_or_app. left. exact H.
Qed.

Lemma strip_keeps (s : pystr) (c : Z) :
  In c s -> In c (str_strip s) \/ py_isspace c = true.
Proof.
  destruct (strip_split s) as [l [r [Hs [Hl Hr]]]]. intros H.
  rewrite Hs in H. unfold all_space in *. rewrite Forall_forall in Hl, Hr.
  apply in_app_or in H. destruct H as [H|H]; [right; auto|].
  apply in_app_or in H. destruct H as [H|H]; [left; assumption|right; auto].
Qed.

(** *** [startswith] *)

Lemma startswith_split (p s : pystr) :
  startswith p s = true -> s = p ++ skipn (length p) s.
Proof.
  revert s. induction p as [|x p IH]; intros s H; [reflexivity|].
  destruct s as [|y s]; simpl in H; [discriminate|].
  apply andb_prop in H. destruct H as [Hxy H].
  apply Z.eqb_eq in Hxy. subst y. simpl. f_equal. apply IH. exact H.
Qed.

Lemma startswith_app_space (p s r : pystr) :
  space_free p -> all_space r -> startswith p (s ++ r) = startswith p s.
Proof.
  intros Hp Hr. revert s. induction Hp as [|x p Hx Hp IH]; intros s; [reflexivity|].
  destruct s as [|y s]; simpl.
  - destruct Hr as [|z r Hz Hr]; [reflexivity|]. simpl.
    destruct (codepoint_eqb x z) eqn:E; [|reflexivity].
    apply Z.eqb_eq in E. congruence.
  - rewrite IH. reflexivity.
Qed.

(** *** [replace] *)

Lemma replace_fuel_enough (old new : pystr) (f1 f2 : nat) (s : pystr) :
  old <> [] -> (length s <= f1)%nat -> (length s <= f2)%nat ->
  replace_fuel f1 old new s = replace_fuel f2 old new s.
Proof.
  intros Hold. revert f2 s. induction f1 as [|f1 IH]; intros f2 s H1 H2.
  - destruct s; [|simpl in H1; lia]. destruct f2; reflexivity.
  - destruct f2 as [|f2].
    + destruct s; [reflexivity|simpl in H2; lia].
    + destruct s as [|c s]; [reflexivity|]. simpl in H1, H2.
      cbn [replace_fuel]. destruct (startswith old (c :: s)) eqn:E.
      * f_equal. destruct old as [|o old']; [congruence|].
        apply IH; cbn [length skipn]; rewrite length_skipn; lia.
      * f_equal. apply IH; lia.
Qed.

Lemma str_replace_nil (old new : pystr) : old <> [] -> str_replace old new [] = [].
Proof. destruct old; [congruence|reflexivity]. Qed.

Lemma str_replace_cons (old new : pystr) (c : Z) (s : pystr) :
  old <> [] ->
  str_replace old new (c :: s) =
  if startswith old (c :: s)
  then new ++ str_replace old new (skipn (length old) (c :: s))
  else c :: str_replace old new s.
Proof.
  intros Hold. destruct old as [|o old']; [congruence|].
  unfold str_replace. cbn [length replace_fuel].
  destruct (startswith (o :: old') (c :: s)); f_equal.
  apply replace_fuel_enough; [congruence| |lia].
  cbn [length skipn]. rewrite length_skipn. lia.
Qed.

(** Induction on the length of a string. *)
Lemma str_length_ind (P : pystr -> Prop) :
  (forall s, (forall t, (length t < length s)%nat -> P t) -> P s) -> forall s, P s.
Proof.
  intros H s. remember (length s) as n eqn:Hn. revert s Hn.
  induction n as [n IH] using lt_wf_ind. intros s Hn. apply H.
  intros t Ht. apply (IH (length t)); [lia|reflexivity].
Qed.

Lemma replace_app_space_l (old l s : pystr) :
  old <> [] -> space_free old -> all_space l ->
  str_replace old [] (l ++ s) = l ++ str_replace old [] s.
Proof.
  intros Hold Hfree Hl. induction Hl as [|c l Hc Hl IH]; [reflexivity|].
  rewrite <- app_comm_cons, str_replace_cons by assumption.
  destruct old as [|o old']; [congruence|]. inversion Hfree as [|? ? Ho _]; subst.
  cbn [startswith]. destruct (codepoint_eqb o c) eqn:E.
  - apply Z.eqb_eq in E. congruence.
  - cbn [andb]. rewrite IH. reflexivity.
Qed.

Lemma replace_app_space_r (old s r : pystr) :
  old <> [] -> space_free old -> all_space r ->
  str_replace old [] (s ++ r) = str_replace old [] s ++ r.
Proof.
  intros Hold Hfree Hr. induction s as [s IH] using str_length_ind.
  destruct s as [|c s].
  - rewrite str_replace_nil by assumption. simpl.
    rewrite <- (app_nil_r r) at 1. rewrite replace_app_space_l by assumption.
    rewrite str_replace_nil by assumption. apply app_nil_r.
  - rewrite <- app_comm_cons, !str_replace_cons by assumption.
    rewrite app_comm_cons, startswith_app_space by assumption.
    destruct (startswith old (c :: s)) eqn:E.
    + pose proof (startswith_split _ _ E) as Hsplit.
      assert (Hlen : (length old <= length (c :: s))%nat).
      { rewrite Hsplit, length_app. lia. }
      rewrite skipn_app.
      replace (length old - length (c :: s))%nat with 0%nat by lia.
      cbn [skipn app]. apply IH.
      rewrite length_skipn. destruct old; [congruence|]. simpl in *. lia.
    + rewrite <- app_comm_cons. f_equal. apply IH. simpl. lia.
Qed.

Lemma strip_replace_strip (old t : pystr) :
  old <> [] -> space_free old ->
  str_strip (str_replace old [] (str_strip t)) = str_strip (str_replace old [] t).
Proof.
  intros Hold Hfree. destruct (strip_split t) as [l [r [Ht [Hl Hr]]]].
  rewrite Ht at 2.
  rewrite replace_app_space_l, replace_app_space_r by assumption.
  rewrite strip_around by assumption. reflexivity.
Qed.

(** Strings that differ in surrounding whitespace only still do so after
    a replacement. *)
Lemma strip_replace_congr (old a b : pystr) :
  old <> [] -> space_free old ->
  str_strip a = str_strip b ->
  str_strip (str_replace old [] a) = str_strip (str_replace old [] b).
Proof.
  intros Hold Hfree Hab.
  rewrite <- (strip_replace_strip old a), <- (strip_replace_strip old b) by assumption.
  rewrite Hab. reflexivity.
Qed.

Lemma fold_strip_replace (ms : list pystr) (a b : pystr) :
  Forall (fun m => m <> [] /\ space_free m) ms ->
  str_strip a = str_strip b ->
  str_strip (fold_left (fun s m => str_strip (str_replace m [] s)) ms a)
  = str_strip (fold_left (fun s m => str_replace m [] s) ms b).
Proof.
  intros Hms. revert a b. induction Hms as [|m ms [Hm Hfree] _ IH]; intros a b Hab.
  - exact Hab.
  - cbn [fold_left]. apply IH. rewrite strip_idempotent.
    apply strip_replace_congr; assumption.
Qed.

Lemma startswith_incl (p s : pystr) (c : Z) :
  startswith p s = true -> In c p -> In c s.
Proof.
  intros H Hc. rewrite (startswith_split _ _ H). apply in_or_app. left. exact Hc.
Qed.

(** Replacing changes nothing when a character of [old] is missing. *)
Lemma replace_absent (old new s : pystr) (c : Z) :
  In c old -> ~ In c s -> str_replace old new s = s.
Proof.
  intros Hc. assert (Hold : old <> []) by (destruct old; [contradiction|congruence]).
  induction s as [|a s IH]; intros Hs.
  - apply str_replace_nil. exact Hold.
  - rewrite str_replace_cons by assumption.
    destruct (startswith old (a :: s)) eqn:E.
    + exfalso. apply Hs. eapply startswith_incl; eassumption.
    + f_equal. apply IH. intros H. apply Hs. right. exact H.
Qed.

Lemma replace_incl (old s : pystr) (c : Z) :
  old <> [] -> In c (str_replace old [] s) -> In c s.
Proof.
  intros Hold. induction s as [s IH] using str_length_ind. destruct s as [|a s].
  - rewrite str_replace_nil by assumption. auto.
  - rewrite str_replace_cons by assumption.
    destruct (startswith old (a :: s)) eqn:E.
    + cbn [app]. intros H. apply IH in H.
      * rewrite (startswith_split _ _ E). apply in_or_app. right. exact H.
      * rewrite length_skipn. destruct old; [congruence|]. simpl. lia.
    + intros [H|H]; [left; assumption|right]. apply IH; [simpl; lia|assumption].
Qed.

Lemma replace_keeps (old s : pystr) (c : Z) :
  old <> [] -> In c s -> In c (str_replace old [] s) \/ In c old.
Proof.
  intros Hold. induction s as [s IH] using str_length_ind. destruct s as [|a s].
  - intros [].
  - rewrite str_replace_cons by assumption. intros Hc.
    destruct (startswith old (a :: s)) eqn:E.
    + rewrite (startswith_split _ _ E) in Hc. apply in_app_or in Hc.
      destruct Hc as [Hc|Hc]; [right; assumption|]. cbn [app].
      apply IH; [|assumption].
      rewrite length_skipn. destruct old; [congruence|]. simpl. lia.
    + destruct Hc as [Hc|Hc]; [left; left; assumption|].
      destruct (IH s) as [H|H]; [simpl; lia|assumption| |]; [left; right; assumption|right; assumption].
Qed.

End StringFacts.

(** ** The characters of a float literal *)


Lemma str_eqb_eq (a b : pystr) : str_eqb a b = true <-> a = b.
Proof.
  revert b. induction a as [|x a IH]; intros [|y b]; simpl; split; intros H;
    try reflexivity; try discriminate.
  - apply andb_prop in H. destruct H as [Hxy H]. apply Z.eqb_eq in Hxy.
    apply IH in H. congruence.
  - injection H as -> ->. unfold codepoint_eqb. rewrite Z.eqb_refl. apply IH. reflexivity.
Qed.

Lemma scan_digits_spec (b ds rest : pystr) :
  scan_digits b = (ds, rest) ->
  b = ds ++ rest /\ Forall (fun c => is_ascii_digit c = true) ds.
Proof.
  revert ds rest. induction b as [|c b IH]; simpl; intros ds rest H.
  - injection H as <- <-. split; [reflexivity|constructor].
  - destruct (is_ascii_digit c) eqn:Hc.
    + destruct (scan_digits b) as [ds' rest'] eqn:Hb. injection H as <- <-.
      destruct (IH _ _ eq_refl) as [-> Hds]. split; [reflexivity|].
      constructor; assumption.
    + injection H as <- <-. split; [reflexivity|constructor].
Qed.

Lemma digit_is_literal (c : Z) : is_ascii_digit c = true -> float_literal_char c = true.
Proof. intros H. unfold float_literal_char. rewrite H. reflexivity. Qed.

Lemma digits_are_literal (ds : pystr) :
  Forall (fun c => is_ascii_digit c = true) ds ->
  Forall (fun c => float_literal_char c = true) ds.
Proof. apply Forall_impl. exact digit_is_literal. Qed.

Lemma parse_sign_chars (b r : pystr) (neg : bool) :
  parse_sign b = (neg, r) ->
  Forall (fun c => float_literal_char c = true) r ->
  Forall (fun c => float_literal_char c = true) b.
Proof.
  destruct b as [|c b]; simpl.
  - intros [= <- <-]. auto.
  - destruct (c =? 45) eqn:E1; [|destruct (c =? 43) eqn:E2].
    + intros [= <- <-] H. apply Z.eqb_eq in E1. subst c. constructor; [reflexivity|assumption].
    + intros [= <- <-] H. apply Z.eqb_eq in E2. subst c. constructor; [reflexivity|assumption].
    + intros [= <- <-] H. assumption.
Qed.

Lemma parse_exponent_chars (b : pystr) (e : Z) :
  parse_exponent b = Some e -> Forall (fun c => float_literal_char c = true) b.
Proof.
  destruct b as [|c r]; simpl; [constructor|].
  destruct ((c =? 101) || (c =? 69)) eqn:Ec; [|discriminate].
  destruct (parse_sign r) as [neg r1] eqn:Hsign.
  destruct (scan_digits r1) as [ds r2] eqn:Hscan.
  destruct ds as [|d ds]; [discriminate|]. destruct r2; [|discriminate]. intros _.
  apply scan_digits_spec in Hscan. destruct Hscan as [-> Hds]. rewrite app_nil_r in Hsign.
  constructor.
  - apply orb_prop in Ec. destruct Ec as [Ec|Ec]; apply Z.eqb_eq in Ec; subst c; reflexivity.
  - eapply parse_sign_chars; [eassumption|]. apply digits_are_literal. exact Hds.
Qed.

Lemma parse_decimal_chars (b : pystr) (v : Z * Z) :
  parse_decimal b = Some v -> Forall (fun c => float_literal_char c = true) b.
Proof.
  unfold parse_decimal.
  destruct (scan_digits b) as [int_ds r1] eqn:Hint.
  apply scan_digits_spec in Hint. destruct Hint as [-> Hint].
  intros H. apply Forall_app. split; [apply digits_are_literal; assumption|].
  destruct r1 as [|c r].
  - constructor.
  - destruct (c =? 46) eqn:Ec.
    + destruct (scan_digits r) as [frac_ds r2] eqn:Hfrac.
      apply scan_digits_spec in Hfrac. destruct Hfrac as [-> Hfrac].
      destruct (int_ds ++ frac_ds); [discriminate|].
      destruct (parse_exponent r2) as [e|] eqn:He; [|discriminate].
      apply Z.eqb_eq in Ec. subst c. constructor; [reflexivity|].
      apply Forall_app. split; [apply digits_are_literal; assumption|].
      eapply parse_exponent_chars. eassumption.
    + destruct (int_ds ++ []); [discriminate|].
      destruct (parse_exponent (c :: r)) as [e|] eqn:He; [|discriminate].
      eapply parse_exponent_chars. eassumption.
Qed.

Lemma lower_letter_is_literal (c : Z) (word : pystr) :
  incl word (py "infatyn") -> In (c_tolower c) word -> float_literal_char c = true.
Proof.
  intros Hincl Hin. unfold float_literal_char.
  assert (H : existsb (Z.eqb (c_tolower c)) (py "infatyn") = true).
  { apply existsb_exists. exists (c_tolower c). split; [auto|apply Z.eqb_refl]. }
  rewrite H. apply orb_true_r.
Qed.

Lemma map_lower_literal (r word : pystr) :
  incl word (py "infatyn") -> map c_tolower r = word ->
  Forall (fun c => float_literal_char c = true) r.
Proof.
  intros Hincl Hmap. apply Forall_forall. intros c Hc.
  apply (lower_letter_is_literal c word Hincl).
  rewrite <- Hmap. apply in_map. exact Hc.
Qed.

Lemma parse_inf_or_nan_chars (b : pystr) (x : float) :
  parse_inf_or_nan b = Some x -> Forall (fun c => float_literal_char c = true) b.
Proof.
  unfold parse_inf_or_nan. destruct (parse_sign b) as [neg r] eqn:Hsign.
  intros H. eapply parse_sign_chars; [eassumption|].
  destruct (str_eqb (map c_tolower r) (py "inf")) eqn:E1;
    [|destruct (str_eqb (map c_tolower r) (py "infinity")) eqn:E2;
      [|destruct (str_eqb (map c_tolower r) (py "nan")) eqn:E3]].
  - apply str_eqb_eq in E1. eapply map_lower_literal; [|eassumption].
    intros c Hc. vm_compute in Hc |- *. tauto.
  - apply str_eqb_eq in E2. eapply map_lower_literal; [|eassumption].
    intros c Hc. vm_compute in Hc |- *. tauto.
  - apply str_eqb_eq in E3. eapply map_lower_literal; [|eassumption].
    intros c Hc. vm_compute in Hc |- *. tauto.
  - simpl in H. discriminate.
Qed.

Lemma strip_underscores_keeps (prev : Z) (a b : pystr) (c : Z) :
  strip_underscores prev a = Some b -> In c a -> c = 95 \/ In c b.
Proof.
  revert prev b. induction a as [|p a IH]; intros prev b H Hc; [destruct Hc|].
  simpl in H. destruct (p =? 95) eqn:Ep.
  - destruct (is_ascii_digit prev); [|discriminate].
    destruct Hc as [<-|Hc]; [left; apply Z.eqb_eq; assumption|].
    eapply IH; eassumption.
  - destruct ((prev =? 95) && negb (is_ascii_digit p)); [discriminate|].
    destruct (strip_underscores p a) as [b'|] eqn:Hb; [|discriminate].
    injection H as <-. destruct Hc as [<-|Hc]; [right; left; reflexivity|].
    destruct (IH _ _ Hb Hc) as [H|H]; [left; assumption|right; right; assumption].
Qed.

Lemma drop_while_keeps (p : Z -> bool) (s : pystr) (c : Z) :
  In c s -> In c (drop_while p s) \/ p c = true.
Proof.
  induction s as [|a s IH]; simpl; [intros []|].
  destruct (p a) eqn:Ha.
  - intros [<-|H]; [right; assumption|auto].
  - intros H. left. exact H.
Qed.

Section FloatText.
Context {rt : PyRuntime}.


Lemma transform_keeps (t : pystr) (c : Z) :
  In c t ->
  (c < 127 /\ In c (transform_decimal_and_space t))
  \/ (127 <= c /\ (py_isspace c = true \/ unicode_decimal c <> None))
  \/ In 63 (transform_decimal_and_space t).
Proof.
  induction t as [|a t IH]; [intros []|].
  intros Hc. cbn [transform_decimal_and_space].
  destruct (a <? 127) eqn:Ea.
  - destruct Hc as [<-|Hc].
    + left. split; [apply Z.ltb_lt; assumption|left; reflexivity].
    + destruct (IH Hc) as [[H1 H2]|[H|H]]; [left; split; [assumption|right; assumption]|auto|].
      right. right. right. exact H.
  - apply Z.ltb_ge in Ea. destruct (py_isspace a) eqn:Hsp.
    + destruct Hc as [<-|Hc]; [right; left; auto|].
      destruct (IH Hc) as [[H1 H2]|[H|H]]; [left; split; [assumption|right; assumption]|auto|].
      right. right. right. exact H.
    + destruct (unicode_decimal a) as [d|] eqn:Hd.
      * destruct Hc as [<-|Hc]; [right; left; split; [assumption|right; congruence]|].
        destruct (IH Hc) as [[H1 H2]|[H|H]]; [left; split; [assumption|right; assumption]|auto|].
        right. right. right. exact H.
      * right. right. left. reflexivity.
Qed.

Lemma float_of_str_chars (t : pystr) (x : float) :
  float_of_str t = Return x -> Forall float_text_char t.
Proof.
  unfold float_of_str.
  set (a0 := transform_decimal_and_space t).
  set (a1 := rev (drop_while c_isspace (rev (drop_while c_isspace a0)))).
  intros H.
  assert (Hlit : forall c, In c a0 -> float_literal_char c = true \/ c_isspace c = true).
  { assert (Ha1 : forall c, In c a1 -> float_literal_char c = true).
    { destruct (if existsb (Z.eqb 95) a1 then strip_underscores 0 a1 else Some a1)
        as [b|] eqn:Hb; [|discriminate].
      assert (Hbl : Forall (fun c => float_literal_char c = true) b).
      { destruct (parse_sign b) as [neg r] eqn:Hsign.
        destruct (parse_decimal r) as [[m e]|] eqn:Hdec.
        - eapply parse_sign_chars; [eassumption|]. eapply parse_decimal_chars. eassumption.
        - destruct (parse_inf_or_nan b) as [y|] eqn:Hinf; [|discriminate].
          eapply parse_inf_or_nan_chars. eassumption. }
      rewrite Forall_forall in Hbl. intros c Hc.
      destruct (existsb (Z.eqb 95) a1).
      - destruct (strip_underscores_keeps _ _ _ c Hb Hc) as [->|Hin]; [reflexivity|auto].
      - injection Hb as <-. auto. }
    intros c Hc. apply (drop_while_keeps c_isspace) in Hc. destruct Hc as [Hc|Hc]; [|auto].
    apply in_rev in Hc. apply (drop_while_keeps c_isspace) in Hc.
    destruct Hc as [Hc|Hc]; [|auto].
    left. apply Ha1. unfold a1. apply -> in_rev. exact Hc. }
  apply Forall_forall. intros c Hc.
  destruct (transform_keeps t c Hc) as [[H1 H2]|[H1|H1]].
  - left. split; [assumption|]. apply Hlit. exact H2.
  - right. exact H1.
  - apply Hlit in H1. vm_compute in H1. destruct H1; discriminate.
Qed.

Lemma float_of_str_nil : float_of_str [] = Raise (ValueError CouldNotConvert).
Proof. reflexivity. Qed.

End FloatText.

(** ** Value coercion *)



Lemma primary_markers_plain :
  Forall (fun m => m <> [] /\ space_free m) primary_markers.
Proof. repeat constructor; discriminate. Qed.

Lemma secondary_markers_plain :
  Forall (fun m => m <> [] /\ space_free m) secondary_markers.
Proof. repeat constructor; discriminate. Qed.

Lemma comma_plain : py "," <> [] /\ space_free (py ",").
Proof. split; [discriminate|repeat constructor]. Qed.

Section CoercionFacts.
Context {rt : PyRuntime}.

(** The text both variants hand to [float] is the specification's
    marker-free form. *)
Lemma to_float_text_form (s : pystr) :
  fold_left (fun s ch => str_strip (str_replace ch [] s)) primary_markers
            (str_replace (py ",") [] (str_strip s))
  = spec_marker_free_form primary_markers s.
Proof.
  unfold spec_marker_free_form.
  rewrite <- (fold_strip_replace primary_markers
                (str_replace (py ",") [] (str_strip s)) (str_replace (py ",") [] s)).
  - unfold primary_markers. cbn [fold_left]. rewrite strip_idempotent. reflexivity.
  - exact primary_markers_plain.
  - apply strip_replace_strip; apply comma_plain.
Qed.

Lemma to_ngn_float_text_form (s : pystr) :
  str_strip (str_replace (py "NGN") []
               (str_replace lit_naira [] (str_replace (py ",") [] (str_strip s))))
  = spec_marker_free_form secondary_markers s.
Proof.
  unfold spec_marker_free_form, secondary_markers. cbn [fold_left].
  apply strip_replace_congr; [discriminate|repeat constructor|].
  apply strip_replace_congr; [discriminate|repeat constructor|].
  apply strip_replace_strip; apply comma_plain.
Qed.


Lemma to_float_text_eq (s : pystr) :
  to_float_text s = coerce_form (spec_marker_free_form primary_markers s).
Proof.
  unfold to_float_text, coerce_form.
  change [lit_pound; py "GBP"; py "NGN"; lit_naira] with primary_markers.
  rewrite to_float_text_form. reflexivity.
Qed.

Lemma to_ngn_float_text_eq (s : pystr) :
  to_ngn_float_text s = coerce_form (spec_marker_free_form secondary_markers s).
Proof.
  unfold to_ngn_float_text, coerce_form.
  rewrite to_ngn_float_text_form. reflexivity.
Qed.

Lemma float_of_str_raises (t : pystr) (e : exn) :
  float_of_str t = Raise e -> e = ValueError CouldNotConvert.
Proof.
  unfold float_of_str.
  destruct (if existsb _ _ then _ else _) as [b|]; [|intros [= <-]; reflexivity].
  destruct (parse_sign b) as [neg r].
  destruct (parse_decimal r) as [[m ex]|]; [discriminate|].
  destruct (parse_inf_or_nan b); [discriminate|intros [= <-]; reflexivity].
Qed.

Lemma coerce_form_parsed (t : pystr) (x : float) :
  float_of_str t = Return x -> coerce_form t = Return (Some x).
Proof.
  intros H. unfold coerce_form. destruct t as [|c t].
  - rewrite float_of_str_nil in H. discriminate.
  - cbn [str_is_empty]. rewrite H. reflexivity.
Qed.

Lemma coerce_form_cases (t : pystr) :
  (coerce_form t = Return None /\ forall x, float_of_str t <> Return x)
  \/ (exists x, coerce_form t = Return (Some x) /\ float_of_str t = Return x).
Proof.
  unfold coerce_form. destruct t as [|c t].
  - left. split; [reflexivity|]. intros x. rewrite float_of_str_nil. discriminate.
  - cbn [str_is_empty]. destruct (float_of_str (c :: t)) as [x|e] eqn:E.
    + right. exists x. split; reflexivity.
    + left. apply float_of_str_raises in E. subst e. split; [reflexivity|discriminate].
Qed.

(** The text branch never raises. *)
Lemma coerce_form_returns (t : pystr) : exists o, coerce_form t = Return o.
Proof.
  destruct (coerce_form_cases t) as [[H _]|[x [H _]]]; eauto.
Qed.

(** For every text whose form with the thousands separators and the
    markers the variant's source lists removed and the white space
    trimmed parses as a number, each coercion variant returns exactly
    that number. *)
Lemma coercion_reads_marker_free_form (s : pystr) (x : float) :
  (float_of_str (spec_marker_free_form primary_markers s) = Return x ->
   _to_float (CStr s) = Return (Some x))
  /\ (float_of_str (spec_marker_free_form secondary_markers s) = Return x ->
      _to_ngn_float (CStr s) = Return (Some x)).
Proof.
  split; intros H; cbn [_to_float _to_ngn_float py_str].
  - rewrite to_float_text_eq. apply coerce_form_parsed. exact H.
  - rewrite to_ngn_float_text_eq. apply coerce_form_parsed. exact H.
Qed.

(** Both variants raise on the same cells, namely never on a cell without
    overflow. *)
Lemma to_float_returns (v : cell) : no_overflow v -> exists o, _to_float v = Return o.
Proof.
  destruct v as [|b|n|x|s|s t]; cbn [_to_float no_overflow py_str]; intros H; eauto.
  - destruct b; eexists; reflexivity.
  - destruct H as [x ->]. eexists. reflexivity.
  - rewrite to_float_text_eq. apply coerce_form_returns.
  - rewrite to_float_text_eq. apply coerce_form_returns.
Qed.

Lemma to_ngn_float_returns (v : cell) : no_overflow v -> exists o, _to_ngn_float v = Return o.
Proof.
  destruct v as [|b|n|x|s|s t]; cbn [_to_ngn_float no_overflow py_str]; intros H; eauto.
  - destruct b; eexists; reflexivity.
  - destruct H as [x ->]. eexists. reflexivity.
  - rewrite to_ngn_float_text_eq. apply coerce_form_returns.
  - rewrite to_ngn_float_text_eq. apply coerce_form_returns.
Qed.

Lemma float_of_int_raises (n : Z) (e : exn) :
  float_of_int n = Raise e -> e = OverflowError.
Proof.
  unfold float_of_int. destruct (binary_normalize _ _ _ _ _); try discriminate.
  intros [= <-]. reflexivity.
Qed.

(** The only exception of either variant is the [OverflowError] of an
    [int] cell. *)
Lemma to_float_raises (v : cell) (e : exn) :
  _to_float v = Raise e -> e = OverflowError /\ exists n, v = CInt n /\ float_of_int n = Raise e.
Proof.
  destruct v as [|b|n|x|s|s t]; cbn [_to_float py_str]; try discriminate.
  - destruct b; discriminate.
  - destruct (float_of_int n) as [x|e'] eqn:E; [discriminate|]. cbn [bind]. intros [= <-].
    split; [eapply float_of_int_raises; eassumption|eauto].
  - rewrite to_float_text_eq. destruct (coerce_form_returns (spec_marker_free_form primary_markers s)) as [o ->].
    discriminate.
  - rewrite to_float_text_eq. destruct (coerce_form_returns (spec_marker_free_form primary_markers s)) as [o ->].
    discriminate.
Qed.

Lemma to_ngn_float_raises (v : cell) (e : exn) :
  _to_ngn_float v = Raise e -> e = OverflowError /\ exists n, v = CInt n /\ float_of_int n = Raise e.
Proof.
  destruct v as [|b|n|x|s|s t]; cbn [_to_ngn_float py_str]; try discriminate.
  - destruct b; discriminate.
  - destruct (float_of_int n) as [x|e'] eqn:E; [discriminate|]. cbn [bind]. intros [= <-].
    split; [eapply float_of_int_raises; eassumption|eauto].
  - rewrite to_ngn_float_text_eq. destruct (coerce_form_returns (spec_marker_free_form secondary_markers s)) as [o ->].
    discriminate.
  - rewrite to_ngn_float_text_eq. destruct (coerce_form_returns (spec_marker_free_form secondary_markers s)) as [o ->].
    discriminate.
Qed.

(** What value coercion guarantees: on every cell that is not an [int]
    beyond the range of a double, neither variant raises; a number comes
    back as itself, widened to a float; [None], an empty or blank text
    and a text that is not a number once its markers and separators are
    stripped come back as [None]. *)
Lemma coercion_total_without_overflow :
  (forall v, no_overflow v ->
     (exists o, _to_float v = Return o) /\ (exists o, _to_ngn_float v = Return o))
  /\ (forall x, _to_float (CFloat x) = Return (Some x)
                /\ _to_ngn_float (CFloat x) = Return (Some x))
  /\ (forall n, _to_float (CInt n) = (x <- float_of_int n ;; Return (Some x))
                /\ _to_ngn_float (CInt n) = (x <- float_of_int n ;; Return (Some x)))
  /\ (_to_float CNone = Return None /\ _to_ngn_float CNone = Return None)
  /\ (forall s, (forall x, float_of_str (spec_marker_free_form primary_markers s) <> Return x) ->
                _to_float (CStr s) = Return None)
  /\ (forall s, (forall x, float_of_str (spec_marker_free_form secondary_markers s) <> Return x) ->
                _to_ngn_float (CStr s) = Return None).
Proof.
  repeat split.
  - apply to_float_returns. assumption.
  - apply to_ngn_float_returns. assumption.
  - intros s H. cbn [_to_float py_str]. rewrite to_float_text_eq.
    destruct (coerce_form_cases (spec_marker_free_form primary_markers s)) as [[E _]|[x [_ E]]];
      [assumption|]. exfalso. eapply H. eassumption.
  - intros s H. cbn [_to_ngn_float py_str]. rewrite to_ngn_float_text_eq.
    destruct (coerce_form_cases (spec_marker_free_form secondary_markers s)) as [[E _]|[x [_ E]]];
      [assumption|]. exfalso. eapply H. eassumption.
Qed.

(** A text the secondary variant reads as a number holds, once its
    separators are removed, neither the second code point of the pound
    marker nor the letter B. *)
Lemma secondary_text_chars (s : pystr) (x : float) :
  float_of_str (spec_marker_free_form secondary_markers s) = Return x ->
  ~ In 0xA3 (str_replace (py ",") [] s) /\ ~ In 66 (str_replace (py ",") [] s).
Proof.
  intros H. apply float_of_str_chars in H. rewrite Forall_forall in H.
  unfold spec_marker_free_form, secondary_markers in H. cbn [fold_left] in H.
  assert (Hkeep : forall c, In c (str_replace (py ",") [] s) ->
            ~ In c lit_naira -> ~ In c (py "NGN") -> py_isspace c = false ->
            float_text_char c).
  { intros c Hc Hn1 Hn2 Hsp. apply H.
    apply (replace_keeps lit_naira) in Hc; [|discriminate].
    destruct Hc as [Hc|Hc]; [|contradiction].
    apply (replace_keeps (py "NGN")) in Hc; [|discriminate].
    destruct Hc as [Hc|Hc]; [|contradiction].
    apply strip_keeps in Hc. destruct Hc as [Hc|Hc]; [assumption|congruence]. }
  split; intros Hin; apply Hkeep in Hin;
    try (vm_compute; intuition discriminate); try reflexivity.
  - destruct Hin as [[Hlt _]|[_ [Hsp|Hdec]]]; [lia|discriminate|].
    apply Hdec. apply unicode_decimal_latin1. lia.
  - destruct Hin as [[_ [Hl|Hsp]]|[Hge _]]; [discriminate|discriminate|lia].
Qed.

(** C10, amended. If the secondary-currency coercion returns a number for
    a cell, the primary-currency coercion returns the same number,
    provided that deleting "NGN" and the naira marker from the text of the
    cell gives the same text in either order; in particular an amount
    prefixed by the naira marker or by NGN is read as a number in a
    primary-currency column. *)
Theorem C10_secondary_number_is_primary_number :
  (forall (v : cell) (x : float),
      _to_ngn_float v = Return (Some x) -> markers_commute v ->
      _to_float v = Return (Some x))
  /\ _to_float (CStr (lit_naira ++ py "216,000")) = Return (Some float_216000)
  /\ _to_float (CStr (py "NGN 216,000")) = Return (Some float_216000).
Proof.
  split; [|split; reflexivity].
  intros v x Hngn Hcomm.
  assert (Htext : forall s, py_str v = s ->
            to_ngn_float_text s = Return (Some x) ->
            str_replace lit_naira [] (str_replace (py "NGN") [] (str_replace (py ",") [] s))
            = str_replace (py "NGN") [] (str_replace lit_naira [] (str_replace (py ",") [] s)) ->
            to_float_text s = Return (Some x)).
  { intros s _ Hs Hc. rewrite to_ngn_float_text_eq in Hs. rewrite to_float_text_eq.
    destruct (coerce_form_cases (spec_marker_free_form secondary_markers s))
      as [[E _]|[y [E Hparse]]]; rewrite E in Hs; [discriminate|].
    injection Hs as ->.
    destruct (secondary_text_chars s x Hparse) as [Hpound HB].
    apply coerce_form_parsed.
    unfold spec_marker_free_form, primary_markers. cbn [fold_left].
    rewrite (replace_absent lit_pound [] _ 0xA3) by (simpl; tauto).
    rewrite (replace_absent (py "GBP") [] _ 66) by (simpl; tauto).
    rewrite Hc. exact Hparse. }
  destruct v as [|b|n|y|s|s t]; cbn [_to_float _to_ngn_float] in *; try assumption.
  - apply (Htext s); [reflexivity|assumption|exact Hcomm].
  - apply (Htext s); [reflexivity|assumption|exact Hcomm].
Qed.

End CoercionFacts.

(** ** Plan extraction: the loop over the breakdown rows *)

Section LoopFacts.
Context {rt : PyRuntime}.

(** One turn of the [while] loop. *)
Lemma breakdown_loop_step (ws : worksheet) (st : loop_state) :
  breakdown_loop ws st =
  if (st_r st <=? max_row ws)%nat then
    match loop_body ws st with
    | Continue st' => breakdown_loop ws st'
    | Break st' => Return st'
    | Throw e => Raise e
    end
  else Return st.
Proof.
  funelim (breakdown_loop ws st);
    try match goal with
        | H : (_ <= _)%nat |- _ => rewrite (proj2 (Nat.leb_le _ _) H)
        | H : ~ (_ <= _)%nat |- _ => rewrite (proj2 (Nat.leb_nle _ _) H)
        end;
    try match goal with H : loop_body _ _ = _ |- _ => rewrite H end;
    reflexivity.
Qed.

(** The body of the loop, branch by branch, in the specification's terms. *)
Lemma process_row_spec (rw : row) (st : loop_state) :
  process_row (colA rw) (colB rw) (colC rw) (colD rw) st =
  if blank_label rw then Continue (advance st)
  else if terminal_sentinel rw then
    if totals_sentinel rw then
      match _to_float (colB rw) with
      | Raise e => Throw e
      | Return g =>
        match _to_ngn_float (colC rw) with
        | Raise e => Throw e
        | Return n =>
          Break {| st_r := st_r st;
                   st_items := st_items st;
                   st_total_support_gbp := or_zero g;
                   st_total_support_ngn := n |}
        end
      end
    else Break st
  else
    match _to_float (colB rw) with
    | Raise e => Throw e
    | Return None => Continue (advance st)
    | Return (Some _) =>
      match _to_ngn_float (colC rw) with
      | Raise e => Throw e
      | Return _ =>
        Continue (advance
          {| st_r := st_r st;
             st_items := st_items st ++ [item_of_row rw];
             st_total_support_gbp := st_total_support_gbp st;
             st_total_support_ngn := st_total_support_ngn st |})
      end
    end.
Proof.
  unfold process_row, terminal_sentinel, totals_sentinel, item_of_row, blank_label, label.
  destruct (is_None (colA rw)); [reflexivity|]. cbn [orb].
  destruct (str_strip (py_str (colA rw))) as [|c s] eqn:Hlabel; [reflexivity|].
  cbn [str_is_empty negb andb].
  destruct (str_eqb (str_upper (c :: s)) (py "TOTAL MONTHLY SUPPORT")); cbn [orb]; [reflexivity|].
  destruct (str_eqb (str_upper (c :: s)) (py "REMAINING FOR YOU")); [reflexivity|].
  cbn [str_eqb].
  destruct (_to_float (colB rw)) as [[a|]|e]; [|reflexivity|reflexivity].
  destruct (_to_ngn_float (colC rw)) as [n|e]; reflexivity.
Qed.

(** Every branch that goes on to the next turn has added one to [r]. *)
Lemma process_row_continue (cat gbp ngn note : cell) (st st' : loop_state) :
  process_row cat gbp ngn note st = Continue st' -> st_r st' = (st_r st + 1)%nat.
Proof.
  unfold process_row.
  repeat match goal with
         | |- (if ?c then _ else _) = _ -> _ => destruct c
         | |- match ?x with _ => _ end = _ -> _ => destruct x
         end;
    try discriminate; intros [= <-]; reflexivity.
Qed.

Lemma loop_body_continue (ws : worksheet) (st st' : loop_state) :
  loop_body ws st = Continue st' -> st_r st' = (st_r st + 1)%nat.
Proof. apply process_row_continue. Qed.

(** The body leaves the loop exactly at a terminal sentinel, unless a
    conversion raises. *)
Lemma process_row_break (rw : row) (st st' : loop_state) :
  process_row (colA rw) (colB rw) (colC rw) (colD rw) st = Break st' ->
  terminal_sentinel rw = true.
Proof.
  rewrite process_row_spec.
  destruct (blank_label rw); [discriminate|].
  destruct (terminal_sentinel rw); [reflexivity|].
  destruct (_to_float (colB rw)) as [[a|]|e]; try discriminate.
  destruct (_to_ngn_float (colC rw)); discriminate.
Qed.

Lemma loop_body_row (ws : worksheet) (st : loop_state) (i : nat) (rw : row) :
  st_r st = S i -> nth_error ws i = Some rw ->
  loop_body ws st = process_row (colA rw) (colB rw) (colC rw) (colD rw) st.
Proof.
  intros Hr Hrow. unfold loop_body, cell_value. rewrite Hr, Hrow. reflexivity.
Qed.

Lemma skipn_cons_nth (A : Type) (l : list A) (i : nat) (x : A) (rest : list A) :
  skipn i l = x :: rest ->
  nth_error l i = Some x /\ skipn (S i) l = rest /\ (i < length l)%nat.
Proof.
  revert i. induction l as [|a l IH]; intros i H.
  - destruct i; discriminate.
  - destruct i as [|i].
    + simpl in H. injection H as -> ->. repeat split. simpl. lia.
    + simpl in H. destruct (IH _ H) as [H1 [H2 H3]]. repeat split; try assumption.
      simpl. lia.
Qed.

(** The [while] loop visits the rows below its starting row in order. *)
Lemma breakdown_loop_scan (ws : worksheet) (rows : list row) :
  ws <> [] ->
  forall (i : nat) (st : loop_state),
    st_r st = S i -> (i <= length ws)%nat -> skipn i ws = rows ->
    breakdown_loop ws st = scan_rows rows st.
Proof.
  intros Hws. assert (Hmax : max_row ws = length ws).
  { unfold max_row. destruct ws; [congruence|]. simpl. lia. }
  induction rows as [|rw rest IH]; intros i st Hr Hi Hskip; rewrite breakdown_loop_step.
  - assert (Hlen : (length ws <= i)%nat).
    { apply (f_equal (@length row)) in Hskip. rewrite length_skipn in Hskip. simpl in Hskip. lia. }
    rewrite Hmax, Hr. destruct (Nat.leb_spec (S i) (length ws)); [lia|reflexivity].
  - destruct (skipn_cons_nth _ _ _ _ _ Hskip) as [Hnth [Hrest Hlt]].
    rewrite Hmax, Hr. destruct (Nat.leb_spec (S i) (length ws)); [|lia].
    rewrite (loop_body_row ws st i rw Hr Hnth). cbn [scan_rows].
    destruct (process_row _ _ _ _ st) as [st'|st'|e] eqn:Hbody; try reflexivity.
    apply (IH (S i)); [|lia|assumption].
    apply process_row_continue in Hbody. lia.
Qed.

(** *** What a scan of the rows leaves in the loop variables *)

Lemma is_item_row_spec (rw : row) :
  is_item_row rw =
  if blank_label rw then false
  else match _to_float (colB rw) with
       | Return (Some _) => true
       | _ => false
       end.
Proof. unfold is_item_row. destruct (blank_label rw); reflexivity. Qed.

Lemma blank_not_terminal (rw : row) : blank_label rw = true -> terminal_sentinel rw = false.
Proof. intros H. unfold terminal_sentinel. rewrite H. reflexivity. Qed.

Lemma scan_rows_items (rows : list row) (st st' : loop_state) :
  scan_rows rows st = Return st' ->
  st_items st' = st_items st ++ map item_of_row (filter is_item_row (before_terminal rows)).
Proof.
  revert st. induction rows as [|rw rest IH]; intros st H; cbn [scan_rows] in H.
  - injection H as <-. simpl. rewrite app_nil_r. reflexivity.
  - rewrite process_row_spec in H. cbn [before_terminal].
    destruct (blank_label rw) eqn:Hblank.
    + rewrite (blank_not_terminal rw Hblank). cbn [filter].
      rewrite is_item_row_spec, Hblank. apply IH in H. exact H.
    + destruct (terminal_sentinel rw) eqn:Ht.
      * simpl. rewrite app_nil_r.
        destruct (totals_sentinel rw).
        -- destruct (_to_float (colB rw)) as [g|e]; [|discriminate].
           destruct (_to_ngn_float (colC rw)) as [n|e]; [|discriminate].
           injection H as <-. reflexivity.
        -- injection H as <-. reflexivity.
      * cbn [filter]. rewrite is_item_row_spec, Hblank.
        destruct (_to_float (colB rw)) as [[a|]|e]; [| |discriminate].
        -- destruct (_to_ngn_float (colC rw)) as [n|e]; [|discriminate].
           apply IH in H. cbn [advance st_items] in H. rewrite H.
           cbn [map]. rewrite <- app_assoc. reflexivity.
        -- apply IH in H. exact H.
Qed.

(** The totals after the scan: those of the first terminal sentinel when
    it is the totals sentinel, the initial ones otherwise. *)
Lemma scan_rows_totals (rows : list row) (st st' : loop_state) :
  scan_rows rows st = Return st' ->
  match find terminal_sentinel rows with
  | Some rw =>
    if totals_sentinel rw then
      exists g, _to_float (colB rw) = Return g
                /\ st_total_support_gbp st' = or_zero g
                /\ _to_ngn_float (colC rw) = Return (st_total_support_ngn st')
    else st_total_support_gbp st' = st_total_support_gbp st
         /\ st_total_support_ngn st' = st_total_support_ngn st
  | None => st_total_support_gbp st' = st_total_support_gbp st
            /\ st_total_support_ngn st' = st_total_support_ngn st
  end.
Proof.
  revert st. induction rows as [|rw rest IH]; intros st H; cbn [scan_rows] in H.
  - injection H as <-. simpl. auto.
  - rewrite process_row_spec in H. cbn [find].
    destruct (blank_label rw) eqn:Hblank.
    + rewrite (blank_not_terminal rw Hblank). apply IH in H. exact H.
    + destruct (terminal_sentinel rw) eqn:Ht.
      * destruct (totals_sentinel rw).
        -- destruct (_to_float (colB rw)) as [g|e]; [|discriminate].
           destruct (_to_ngn_float (colC rw)) as [n|e]; [|discriminate].
           injection H as <-. exists g. auto.
        -- injection H as <-. auto.
      * destruct (_to_float (colB rw)) as [[a|]|e]; [| |discriminate].
        -- destruct (_to_ngn_float (colC rw)) as [n|e]; [|discriminate].
           apply IH in H. exact H.
        -- apply IH in H. exact H.
Qed.

(** A scan raises nothing but the [OverflowError] of a conversion. *)
Lemma scan_rows_raises (rows : list row) (st : loop_state) (e : exn) :
  scan_rows rows st = Raise e -> e = OverflowError.
Proof.
  revert st. induction rows as [|rw rest IH]; intros st H; cbn [scan_rows] in H; [discriminate|].
  rewrite process_row_spec in H.
  destruct (blank_label rw); [eauto|].
  destruct (terminal_sentinel rw).
  - destruct (totals_sentinel rw); [|discriminate].
    destruct (_to_float (colB rw)) as [g|e'] eqn:E1.
    + destruct (_to_ngn_float (colC rw)) as [n|e'] eqn:E2; [discriminate|].
      injection H as <-. apply to_ngn_float_raises in E2. tauto.
    + injection H as <-. apply to_float_raises in E1. tauto.
  - destruct (_to_float (colB rw)) as [[a|]|e'] eqn:E1.
    + destruct (_to_ngn_float (colC rw)) as [n|e'] eqn:E2; [eauto|].
      injection H as <-. apply to_ngn_float_raises in E2. tauto.
    + eauto.
    + injection H as <-. apply to_float_raises in E1. tauto.
Qed.

(** Without an overflow in the amount columns the scan returns. *)
Lemma scan_rows_returns (rows : list row) (st : loop_state) :
  Forall (fun rw => no_overflow (colB rw) /\ no_overflow (colC rw)) rows ->
  exists st', scan_rows rows st = Return st'.
Proof.
  intros Hrows. revert st. induction Hrows as [|rw rest [HB HC] _ IH]; intros st; cbn [scan_rows].
  - eauto.
  - rewrite process_row_spec.
    destruct (to_float_returns _ HB) as [g ->].
    destruct (to_ngn_float_returns _ HC) as [n ->].
    destruct (blank_label rw); [apply IH|].
    destruct (terminal_sentinel rw).
    + destruct (totals_sentinel rw); eauto.
    + destruct g; apply IH.
Qed.

End LoopFacts.

(** ** Plan extraction: anchors and the plan *)

Section PlanFacts.
Context {rt : PyRuntime}.

Lemma find_row_some (ws : worksheet) (lbl : pystr) (r : nat) :
  find_row ws lbl = Some r ->
  (1 <= r <= length ws)%nat
  /\ exists rw, nth_error ws (r - 1) = Some rw /\ is_None (colA rw) = false
                /\ str_lower (label rw) = str_lower (str_strip lbl).
Proof.
  unfold find_row. intros H. apply find_some in H. destruct H as [Hin Hp].
  apply in_seq in Hin. destruct r as [|i]; [lia|].
  unfold cell_value in Hp. destruct (nth_error ws i) as [rw|] eqn:Hrow; [|discriminate].
  assert (Hi : (i < length ws)%nat) by (apply nth_error_Some; congruence).
  split; [lia|]. exists rw. replace (S i - 1)%nat with i by lia.
  destruct (is_None (colA rw)); [discriminate|].
  apply str_eqb_eq in Hp. auto.
Qed.

Lemma find_row_has_label (ws : worksheet) (lbl : pystr) :
  has_label ws lbl <-> find_row ws lbl <> None.
Proof.
  split.
  - intros [rw [Hin [Hnone Hlow]]] Hfind.
    apply In_nth_error in Hin. destruct Hin as [i Hrow].
    assert (Hi : (i < length ws)%nat) by (apply nth_error_Some; congruence).
    unfold find_row in Hfind.
    assert (Hin : In (S i) (seq 1 (max_row ws))) by (apply in_seq; unfold max_row; lia).
    pose proof (find_none _ _ Hfind (S i) Hin) as Hp. cbn beta in Hp.
    unfold cell_value in Hp. rewrite Hrow, Hnone in Hp.
    apply Bool.not_true_iff_false in Hp. apply Hp.
    apply str_eqb_eq. exact Hlow.
  - destruct (find_row ws lbl) as [r|] eqn:Hfind; [|congruence]. intros _.
    destruct (find_row_some _ _ _ Hfind) as [_ [rw [Hrow [Hnone Hlow]]]].
    exists rw. split; [eapply nth_error_In; eassumption|auto].
Qed.

(** A cell read at a row that [find_row] returned belongs to a row. *)
Lemma cell_value_colB (ws : worksheet) (r : nat) :
  (1 <= r <= length ws)%nat ->
  exists rw, In rw ws /\ cell_value ws r 2 = colB rw.
Proof.
  intros Hr. destruct r as [|i]; [lia|]. unfold cell_value.
  destruct (nth_error ws i) as [rw|] eqn:Hrow.
  - exists rw. split; [eapply nth_error_In; eassumption|reflexivity].
  - apply nth_error_None in Hrow. lia.
Qed.

(** The plan in terms of the scan of the rows below the header. *)
Lemma care_plan_inv (ws : worksheet) (res : result CarePlan) :
  care_plan_of_worksheet ws = res ->
  match find_row ws (py "Weekly Income"), find_row ws (py "Monthly Income") with
  | Some wr, Some mr =>
    match _to_float (cell_value ws wr 2) with
    | Raise e => res = Raise e
    | Return w =>
      match _to_float (cell_value ws mr 2) with
      | Raise e => res = Raise e
      | Return m =>
        match find_row ws (py "MONTHLY SUPPORT BREAKDOWN") with
        | None => res = Raise (ValueError MissingHeaderRow)
        | Some h =>
          match scan_rows (skipn h ws) (initial_state h) with
          | Raise e => res = Raise e
          | Return st =>
            res = Return
              {| weekly_income_gbp := or_zero w;
                 monthly_income_gbp := or_zero m;
                 total_support_gbp :=
                   if float_eqb (st_total_support_gbp st) fzero
                      && negb (list_is_empty (st_items st))
                   then float_sum (map amount_gbp (st_items st))
                   else st_total_support_gbp st;
                 total_support_ngn := st_total_support_ngn st;
                 items := st_items st |}
          end
        end
      end
    end
  | _, _ => res = Raise (ValueError MissingIncomeRows)
  end.
Proof.
  intros <-. unfold care_plan_of_worksheet.
  destruct (find_row ws (py "Weekly Income")) as [wr|]; [|reflexivity].
  destruct (find_row ws (py "Monthly Income")) as [mr|]; [|reflexivity].
  destruct (_to_float (cell_value ws wr 2)) as [w|e]; [|reflexivity]. cbn [bind].
  destruct (_to_float (cell_value ws mr 2)) as [m|e]; [|reflexivity]. cbn [bind].
  destruct (find_row ws (py "MONTHLY SUPPORT BREAKDOWN")) as [h|] eqn:Hh; [|reflexivity].
  destruct (find_row_some _ _ _ Hh) as [[H1 H2] _].
  rewrite (breakdown_loop_scan ws (skipn h ws)) with (i := h);
    [|destruct ws; [simpl in H2; lia|congruence]|unfold initial_state; cbn [st_r]; lia|lia|reflexivity].
  destruct (scan_rows (skipn h ws) (initial_state h)) as [st|e]; reflexivity.
Qed.

(** A plan that was returned: the anchors it was read at and the state the
    scan of the breakdown rows ended in. *)
Lemma care_plan_returned (ws : worksheet) (plan : CarePlan) :
  care_plan_of_worksheet ws = Return plan ->
  exists wr mr h w m st,
    find_row ws (py "Weekly Income") = Some wr
    /\ find_row ws (py "Monthly Income") = Some mr
    /\ find_row ws (py "MONTHLY SUPPORT BREAKDOWN") = Some h
    /\ _to_float (cell_value ws wr 2) = Return w
    /\ _to_float (cell_value ws mr 2) = Return m
    /\ scan_rows (skipn h ws) (initial_state h) = Return st
    /\ plan = {| weekly_income_gbp := or_zero w;
                 monthly_income_gbp := or_zero m;
                 total_support_gbp :=
                   if float_eqb (st_total_support_gbp st) fzero
                      && negb (list_is_empty (st_items st))
                   then float_sum (map amount_gbp (st_items st))
                   else st_total_support_gbp st;
                 total_support_ngn := st_total_support_ngn st;
                 items := st_items st |}.
Proof.
  intros Hplan. apply care_plan_inv in Hplan.
  destruct (find_row ws (py "Weekly Income")) as [wr|]; [|discriminate].
  destruct (find_row ws (py "Monthly Income")) as [mr|]; [|discriminate].
  destruct (_to_float (cell_value ws wr 2)) as [w|e] eqn:Hw; [|discriminate].
  destruct (_to_float (cell_value ws mr 2)) as [m|e] eqn:Hm; [|discriminate].
  destruct (find_row ws (py "MONTHLY SUPPORT BREAKDOWN")) as [h|]; [|discriminate].
  destruct (scan_rows (skipn h ws) (initial_state h)) as [st|e] eqn:Hscan; [|discriminate].
  injection Hplan as ->. exists wr, mr, h, w, m, st. repeat split; assumption.
Qed.

Lemma ws_no_overflow_skipn (ws : worksheet) (h : nat) :
  ws_no_overflow ws ->
  Forall (fun rw => no_overflow (colB rw) /\ no_overflow (colC rw)) (skipn h ws).
Proof.
  unfold ws_no_overflow. rewrite !Forall_forall. intros H rw Hin.
  apply H. rewrite <- (firstn_skipn h ws). apply in_or_app. right. exact Hin.
Qed.

Lemma cell_value_no_overflow (ws : worksheet) (r : nat) :
  ws_no_overflow ws -> no_overflow (cell_value ws r 2).
Proof.
  intros H. unfold cell_value. destruct r as [|i]; [exact I|].
  destruct (nth_error ws i) as [rw|] eqn:Hrow; [|exact I].
  unfold ws_no_overflow in H. rewrite Forall_forall in H.
  apply H. eapply nth_error_In. eassumption.
Qed.

(** With the anchors in place and no overflow, extraction returns a plan. *)
Lemma care_plan_returns (ws : worksheet) :
  anchors_present ws -> ws_no_overflow ws ->
  exists plan, care_plan_of_worksheet ws = Return plan.
Proof.
  intros [HW [HM HH]] Hno.
  apply find_row_has_label in HW, HM, HH.
  pose proof (care_plan_inv ws _ eq_refl) as Hinv.
  destruct (find_row ws (py "Weekly Income")) as [wr|]; [|congruence].
  destruct (find_row ws (py "Monthly Income")) as [mr|]; [|congruence].
  destruct (to_float_returns _ (cell_value_no_overflow ws wr Hno)) as [w Hw].
  destruct (to_float_returns _ (cell_value_no_overflow ws mr Hno)) as [m Hm].
  rewrite Hw, Hm in Hinv.
  destruct (find_row ws (py "MONTHLY SUPPORT BREAKDOWN")) as [h|]; [|congruence].
  destruct (scan_rows_returns (skipn h ws) (initial_state h) (ws_no_overflow_skipn ws h Hno))
    as [st Hst].
  rewrite Hst in Hinv. eauto.
Qed.

(** C9. The loop over the breakdown region terminates: from any state it
    enters its body at most once per remaining row index up to
    [max_row], every branch that continues adds one to the row index, a
    [break] happens only at a terminal sentinel, and no turn continues
    past one. *)
Theorem C9_breakdown_loop_terminates (ws : worksheet) (st : loop_state) :
  (exists (n : nat) (res : result loop_state),
      loop_run ws st n res
      /\ (n <= S (max_row ws) - st_r st)%nat
      /\ breakdown_loop ws st = res)
  /\ (forall st', loop_body ws st = Continue st' -> st_r st' = (st_r st + 1)%nat)
  /\ (forall st', loop_body ws st = Break st' ->
        exists rw, nth_error ws (st_r st - 1) = Some rw /\ terminal_sentinel rw = true)
  /\ (forall i rw st', st_r st = S i -> nth_error ws i = Some rw ->
        terminal_sentinel rw = true -> loop_body ws st <> Continue st').
Proof.
  split; [|split; [|split]]; cycle 3.
  { intros i rw st' Hr Hrow Hterm. rewrite (loop_body_row ws st i rw Hr Hrow).
    rewrite process_row_spec, Hterm.
    destruct (blank_label rw) eqn:Hblank;
      [rewrite (blank_not_terminal rw Hblank) in Hterm; discriminate|].
    destruct (totals_sentinel rw); [|discriminate].
    destruct (_to_float (colB rw)); [|discriminate].
    destruct (_to_ngn_float (colC rw)); discriminate. }
  - remember (S (max_row ws) - st_r st)%nat as k eqn:Hk.
    revert st Hk. induction k as [k IH] using lt_wf_ind. intros st Hk.
    rewrite breakdown_loop_step.
    destruct (Nat.leb_spec (st_r st) (max_row ws)) as [Hle|Hgt].
    + destruct (loop_body ws st) as [st'|st'|e] eqn:Hbody.
      * pose proof (loop_body_continue _ _ _ Hbody) as Hr.
        destruct (IH (S (max_row ws) - st_r st')%nat ltac:(lia) st' eq_refl)
          as [n [res [Hrun [Hn Hres]]]].
        exists (S n), res. split; [|split].
        -- eapply run_continue; eassumption.
        -- lia.
        -- exact Hres.
      * exists 1%nat, (Return st'). split; [|split].
        -- apply run_break; assumption.
        -- lia.
        -- reflexivity.
      * exists 1%nat, (Raise e). split; [|split].
        -- apply run_raise; assumption.
        -- lia.
        -- reflexivity.
    + exists 0%nat, (Return st). split; [|split].
      * apply run_exit. exact Hgt.
      * lia.
      * reflexivity.
  - apply loop_body_continue.
  - intros st' Hbody. unfold loop_body, cell_value in Hbody.
    destruct (st_r st) as [|i] eqn:Hr; [discriminate|].
    replace (S i - 1)%nat with i by lia.
    destruct (nth_error ws i) as [rw|]; [|discriminate].
    exists rw. split; [reflexivity|]. eapply process_row_break. eassumption.
Qed.

(** C2. With the three anchor rows present, the items of every extracted
    plan are exactly the rows strictly after the breakdown header and
    strictly before the first terminal sentinel whose label is not blank
    and whose second cell coerces to a number, in row order; and the
    extraction returns a plan unless an amount cell overflows. *)
Theorem C2_items_are_the_breakdown_rows (ws : worksheet) (h : nat) :
  anchors_present ws ->
  find_row ws (py "MONTHLY SUPPORT BREAKDOWN") = Some h ->
  (forall plan, care_plan_of_worksheet ws = Return plan -> items plan = spec_items ws h)
  /\ (ws_no_overflow ws -> exists plan, care_plan_of_worksheet ws = Return plan).
Proof.
  intros Hanchors Hh. split; [|apply care_plan_returns; assumption].
  intros plan Hplan.
  destruct (care_plan_returned ws plan Hplan)
    as [wr [mr [h' [w [m [st [_ [_ [Hh' [_ [_ [Hscan ->]]]]]]]]]]]].
  rewrite Hh in Hh'. injection Hh' as <-. cbn [items].
  apply scan_rows_items in Hscan. exact Hscan.
Qed.

Lemma total_when_zero (l : list BudgetItem) :
  (if float_eqb fzero fzero && negb (list_is_empty l)
   then float_sum (map amount_gbp l) else fzero)
  = float_sum (map amount_gbp l).
Proof.
  destruct l as [|it l]; [|reflexivity].
  cbn [list_is_empty negb andb map]. rewrite andb_false_r.
  symmetry. apply float_sum_nil.
Qed.

(** C1. What the extracted totals are.  When no totals sentinel is met in
    the breakdown region, the total is the sum of the items' primary
    amounts and the secondary total is absent.  When one is met, the
    secondary total is the coerced third cell of that row, and the total
    is the coerced second cell of that row as it is if that is a number
    other than zero, and the sum of the items' primary amounts if it is
    absent or zero: a total that was found and is zero is replaced, where
    the source's comment speaks of totals that were not found. *)
Theorem C1_total_support (ws : worksheet) (plan : CarePlan) (h : nat) :
  care_plan_of_worksheet ws = Return plan ->
  find_row ws (py "MONTHLY SUPPORT BREAKDOWN") = Some h ->
  match totals_row ws h with
  | None =>
    total_support_gbp plan = float_sum (map amount_gbp (items plan))
    /\ total_support_ngn plan = None
  | Some rw =>
    _to_ngn_float (colC rw) = Return (total_support_ngn plan)
    /\ exists g, _to_float (colB rw) = Return g
         /\ total_support_gbp plan =
            match g with
            | Some x =>
              if float_eqb x fzero then float_sum (map amount_gbp (items plan)) else x
            | None => float_sum (map amount_gbp (items plan))
            end
  end.
Proof.
  intros Hplan Hh.
  destruct (care_plan_returned ws plan Hplan)
    as [wr [mr [h' [w [m [st [_ [_ [Hh' [_ [_ [Hscan ->]]]]]]]]]]]].
  rewrite Hh in Hh'. injection Hh' as <-.
  cbn [total_support_gbp total_support_ngn items].
  apply scan_rows_totals in Hscan. unfold totals_row, first_terminal.
  cbn [initial_state st_total_support_gbp st_total_support_ngn] in Hscan.
  assert (Hdefault :
            st_total_support_gbp st = fzero /\ st_total_support_ngn st = None ->
            (if float_eqb (st_total_support_gbp st) fzero && negb (list_is_empty (st_items st))
             then float_sum (map amount_gbp (st_items st)) else st_total_support_gbp st)
            = float_sum (map amount_gbp (st_items st))
            /\ st_total_support_ngn st = None).
  { intros [H1 H2]. rewrite H1. split; [apply total_when_zero|exact H2]. }
  destruct (find terminal_sentinel (skipn h ws)) as [rw|]; [|auto].
  destruct (totals_sentinel rw); [|auto].
  destruct Hscan as [g [Hg [Htotal Hngn]]]. split; [exact Hngn|].
  exists g. split; [exact Hg|]. rewrite Htotal.
  destruct g as [x|]; cbn [or_zero]; [|apply total_when_zero].
  unfold float_truthy. destruct (float_eqb x fzero) eqn:Hx; cbn [negb].
  - apply total_when_zero.
  - rewrite Hx. reflexivity.
Qed.

(** Which failure extraction ends in: a missing anchor exactly when one
    of the three labels has no match, as long as no amount cell
    overflows. *)
Lemma missing_anchor_iff_without_overflow (ws : worksheet) :
  ws_no_overflow ws ->
  ((care_plan_of_worksheet ws = Raise (ValueError MissingIncomeRows)
    \/ care_plan_of_worksheet ws = Raise (ValueError MissingHeaderRow))
   <-> ~ anchors_present ws)
  /\ (anchors_present ws -> exists plan, care_plan_of_worksheet ws = Return plan).
Proof.
  intros Hno. split; [|intros H; apply care_plan_returns; assumption].
  split.
  - intros Hfail Hanchors.
    destruct (care_plan_returns ws Hanchors Hno) as [plan Hplan].
    rewrite Hplan in Hfail. destruct Hfail; discriminate.
  - intros Hmissing. unfold anchors_present in Hmissing.
    rewrite !find_row_has_label in Hmissing.
    pose proof (care_plan_inv ws _ eq_refl) as Hinv.
    destruct (find_row ws (py "Weekly Income")) as [wr|]; [|left; exact Hinv].
    destruct (find_row ws (py "Monthly Income")) as [mr|]; [|left; exact Hinv].
    destruct (to_float_returns _ (cell_value_no_overflow ws wr Hno)) as [w Hw].
    destruct (to_float_returns _ (cell_value_no_overflow ws mr Hno)) as [m Hm].
    rewrite Hw, Hm in Hinv.
    destruct (find_row ws (py "MONTHLY SUPPORT BREAKDOWN")) as [h|]; [|right; exact Hinv].
    exfalso. apply Hmissing. repeat split; discriminate.
Qed.

(** A failure for a missing anchor always means a label without a match,
    and extraction raises nothing else than that and [OverflowError]. *)
Lemma extraction_failures (ws : worksheet) (e : exn) :
  care_plan_of_worksheet ws = Raise e ->
  (e = ValueError MissingIncomeRows /\ ~ anchors_present ws)
  \/ (e = ValueError MissingHeaderRow /\ ~ anchors_present ws)
  \/ e = OverflowError.
Proof.
  intros H. apply care_plan_inv in H. unfold anchors_present.
  rewrite !find_row_has_label.
  destruct (find_row ws (py "Weekly Income")) as [wr|];
    [|left; injection H as <-; split; [reflexivity|tauto]].
  destruct (find_row ws (py "Monthly Income")) as [mr|];
    [|left; injection H as <-; split; [reflexivity|tauto]].
  destruct (_to_float (cell_value ws wr 2)) as [w|e1] eqn:Hw;
    [|injection H as <-; apply to_float_raises in Hw; tauto].
  destruct (_to_float (cell_value ws mr 2)) as [m|e1] eqn:Hm;
    [|injection H as <-; apply to_float_raises in Hm; tauto].
  destruct (find_row ws (py "MONTHLY SUPPORT BREAKDOWN")) as [h|];
    [|right; left; injection H as <-; split; [reflexivity|tauto]].
  destruct (scan_rows (skipn h ws) (initial_state h)) as [st|e1] eqn:Hscan; [discriminate|].
  injection H as <-. apply scan_rows_raises in Hscan. tauto.
Qed.

Lemma or_zero_nonneg (o : option float) :
  (forall x, o = Some x -> float_nonneg x) -> float_nonneg (or_zero o).
Proof.
  intros H. destruct o as [x|]; cbn [or_zero]; [|reflexivity].
  destruct (float_truthy x); [apply H|]; reflexivity.
Qed.

Lemma before_terminal_incl (rows : list row) (rw : row) :
  In rw (before_terminal rows) -> In rw rows.
Proof.
  induction rows as [|a rows IH]; cbn [before_terminal]; [auto|].
  destruct (terminal_sentinel a); [intros []|].
  intros [H|H]; [left; assumption|right; auto].
Qed.

Lemma or_zero_nonneg_inv (x : float) :
  float_nonneg (or_zero (Some x)) -> float_nonneg x.
Proof.
  unfold float_nonneg, or_zero, float_truthy.
  destruct (float_eqb x fzero) eqn:Hzero; cbn [negb]; [intros _|auto].
  destruct x as [sg|sg| |sg m e]; try (destruct sg); try reflexivity;
    cbv in Hzero; discriminate.
Qed.

(** C7, amended. The incomes and the items' primary amounts of an
    extracted plan are non-negative exactly when the values extraction
    reads for them are: the second cells of the weekly and of the monthly
    income row and of the item rows of the breakdown region, where they
    coerce to a number.  Extraction itself checks no sign, and the cells
    it does not read play no part. *)
Theorem C7_amounts_nonnegative (ws : worksheet) (plan : CarePlan) (wr mr h : nat) :
  care_plan_of_worksheet ws = Return plan ->
  find_row ws (py "Weekly Income") = Some wr ->
  find_row ws (py "Monthly Income") = Some mr ->
  find_row ws (py "MONTHLY SUPPORT BREAKDOWN") = Some h ->
  (float_nonneg (weekly_income_gbp plan)
   /\ float_nonneg (monthly_income_gbp plan)
   /\ Forall (fun it => float_nonneg (amount_gbp it)) (items plan))
  <->
  ((forall x, _to_float (cell_value ws wr 2) = Return (Some x) -> float_nonneg x)
   /\ (forall x, _to_float (cell_value ws mr 2) = Return (Some x) -> float_nonneg x)
   /\ (forall rw x, In rw (breakdown_rows ws h) -> is_item_row rw = true ->
         _to_float (colB rw) = Return (Some x) -> float_nonneg x)).
Proof.
  intros Hplan Hwr Hmr Hh.
  destruct (care_plan_returned ws plan Hplan)
    as [wr' [mr' [h' [w [m [st [Hwr' [Hmr' [Hh' [Hw [Hm [Hscan ->]]]]]]]]]]]].
  rewrite Hwr in Hwr'. injection Hwr' as <-.
  rewrite Hmr in Hmr'. injection Hmr' as <-.
  rewrite Hh in Hh'. injection Hh' as <-.
  cbn [weekly_income_gbp monthly_income_gbp items].
  apply scan_rows_items in Hscan. cbn [initial_state st_items app] in Hscan.
  rewrite Hscan. fold (breakdown_rows ws h).
  split.
  - intros [Hweek [Hmonth Hitems]]. split; [|split].
    + intros x Hx. rewrite Hw in Hx. injection Hx as ->.
      apply or_zero_nonneg_inv. exact Hweek.
    + intros x Hx. rewrite Hm in Hx. injection Hx as ->.
      apply or_zero_nonneg_inv. exact Hmonth.
    + intros rw x Hin Hitem Hx.
      rewrite Forall_forall in Hitems.
      assert (Hit : In (item_of_row rw) (map item_of_row (filter is_item_row (breakdown_rows ws h)))).
      { apply in_map. apply filter_In. split; assumption. }
      specialize (Hitems _ Hit). unfold item_of_row in Hitems. cbn [amount_gbp] in Hitems.
      rewrite Hx in Hitems. exact Hitems.
  - intros [Hweek [Hmonth Hitems]]. split; [|split].
    + apply or_zero_nonneg. intros x ->. exact (Hweek x Hw).
    + apply or_zero_nonneg. intros x ->. exact (Hmonth x Hm).
    + apply Forall_forall. intros it Hit.
      apply in_map_iff in Hit. destruct Hit as [rw [<- Hrw]].
      apply filter_In in Hrw. destruct Hrw as [Hrw Hitem].
      pose proof Hitem as Hitem'.
      rewrite is_item_row_spec in Hitem'. destruct (blank_label rw); [discriminate|].
      unfold item_of_row. cbn [amount_gbp].
      destruct (_to_float (colB rw)) as [[x|]|e] eqn:Hx; try discriminate.
      exact (Hitems rw x Hrw Hitem Hx).
Qed.

(** With the file and the sheet in place, [read_care_plan_from_excel] is
    the extraction from that sheet. *)
Lemma read_care_plan_of_sheet (fs : filesystem) (xlsx_path : pystr)
    (wb : workbook) (ws : worksheet) :
  fs xlsx_path = Some (Workbook wb) ->
  sheet_by_name wb (py "Mom Monthly Support Plan") = Some ws ->
  read_care_plan_from_excel fs xlsx_path = care_plan_of_worksheet ws.
Proof.
  intros Hfile Hsheet. unfold read_care_plan_from_excel. rewrite Hfile, Hsheet. reflexivity.
Qed.

End PlanFacts.

(** ** The notification text *)

Lemma fold_left_append (A B : Type) (f : A -> B) (l : list A) (acc : list B) :
  fold_left (fun lines x => lines ++ [f x]) l acc = acc ++ map f l.
Proof.
  revert acc. induction l as [|x l IH]; intros acc; cbn [fold_left map].
  - symmetry. apply app_nil_r.
  - rewrite IH, <- app_assoc. reflexivity.
Qed.

Lemma plan_lines_eq (plan : CarePlan) :
  plan_lines plan =
  [title_line; income_line plan; support_line plan; []; py "Breakdown:"]
  ++ map item_line (items plan) ++ [[]; reminder_line].
Proof.
  unfold plan_lines. rewrite fold_left_append. cbn [app].
  rewrite <- !app_assoc. reflexivity.
Qed.

(** C6, amended. For every plan, also one without items, the message is
    exactly these lines joined by line breaks: the title, the income
    summary, the planned support (with the secondary-currency
    approximation exactly when the secondary total is present), an empty
    line, the "Breakdown:" header, one bulleted line per item in item
    order (with the approximation exactly when that item's secondary
    amount is present), a second empty line, and the closing reminder. *)
Theorem C6_message_lines (plan : CarePlan) :
  format_plan_for_telegram plan =
  str_join [10]
    ([title_line; income_line plan; support_line plan; []; py "Breakdown:"]
     ++ map item_line (items plan) ++ [[]; reminder_line])
  /\ support_line plan =
     py "Planned support: " ++ lit_pound ++ format_f0 false (total_support_gbp plan)
     ++ match total_support_ngn plan with
        | Some ngn => approx_ngn ngn
        | None => []
        end
  /\ forall item,
       item_line item =
       lit_bullet ++ py " " ++ category item ++ py ": " ++ lit_pound
       ++ format_f0 false (amount_gbp item)
       ++ match amount_ngn item with
          | Some ngn => approx_ngn ngn
          | None => []
          end.
Proof.
  split; [|split].
  - unfold format_plan_for_telegram. rewrite plan_lines_eq. reflexivity.
  - unfold support_line. destruct (total_support_ngn plan).
    + reflexivity.
    + rewrite app_nil_r. reflexivity.
  - intros item. unfold item_line. destruct (amount_ngn item).
    + reflexivity.
    + rewrite app_nil_r. reflexivity.
Qed.

(** ** The event log *)

Lemma zero_pad_length (width : nat) (bound : Z) (n : Z) :
  forallb (fun k => (length (zero_pad width (Z.of_nat k)) =? width)%nat)
          (seq 0 (Z.to_nat bound)) = true ->
  0 <= n < bound -> length (zero_pad width n) = width.
Proof.
  intros Hall Hn. rewrite forallb_forall in Hall.
  specialize (Hall (Z.to_nat n)). rewrite Z2Nat.id in Hall by lia.
  apply Nat.eqb_eq. apply Hall. apply in_seq. lia.
Qed.

Lemma strftime_length (t : datetime) : valid_datetime t -> length (strftime t) = 19%nat.
Proof.
  intros [Hy [Hmo [Hd [Hh [Hmi Hs]]]]]. unfold strftime.
  assert (H4 : forallb (fun k => (length (zero_pad 4 (Z.of_nat k)) =? 4)%nat)
                       (seq 0 (Z.to_nat 10000)) = true)
    by (vm_compute; reflexivity).
  assert (H2 : forallb (fun k => (length (zero_pad 2 (Z.of_nat k)) =? 2)%nat)
                       (seq 0 (Z.to_nat 100)) = true)
    by (vm_compute; reflexivity).
  rewrite !length_app.
  rewrite (zero_pad_length 4 10000 (year t) H4) by lia.
  rewrite (zero_pad_length 2 100 (month t) H2) by lia.
  rewrite (zero_pad_length 2 100 (day t) H2) by lia.
  rewrite (zero_pad_length 2 100 (hour t) H2) by lia.
  rewrite (zero_pad_length 2 100 (minute t) H2) by lia.
  rewrite (zero_pad_length 2 100 (second t) H2) by lia.
  reflexivity.
Qed.

Lemma str_or_empty_id (s : pystr) : str_or_empty s = s.
Proof. destruct s; reflexivity. Qed.

Lemma log_event_eq (c : log_call) (file : log_file) :
  log_event (call_now c) (call_job c) (call_status c) (call_message c) (call_extra c) file
  = Some (match file with
          | None => [fieldnames]
          | Some records => records
          end ++ [record_of_call c]).
Proof.
  unfold log_event, make_row, record_of_row, record_of_call. cbn.
  rewrite !str_or_empty_id. destruct file; reflexivity.
Qed.

Lemma log_events_from (calls : list log_call) (records : list csv_record) :
  log_events calls (Some records) = Some (records ++ map record_of_call calls).
Proof.
  revert records. induction calls as [|c calls IH]; intros records; cbn [log_events fold_left map].
  - rewrite app_nil_r. reflexivity.
  - rewrite log_event_eq. fold (log_events calls (Some (records ++ [record_of_call c]))).
    rewrite IH, <- app_assoc. reflexivity.
Qed.

(** C8, amended. A call of the logger appends one record of five fields:
    the timestamp, of 19 characters for a valid clock reading; the job
    name and the status as they were passed, without any cap; the message
    and the extra detail cut to their first 400 characters.  The header
    is written exactly when the file did not exist, so a log built by any
    number of calls is the header followed by one record per call. *)
Theorem C8_log_record (now : datetime) (job status message extra : pystr) (file : log_file) :
  log_event now job status message extra file
  = Some (match file with
          | None => [fieldnames]
          | Some records => records
          end
          ++ [[strftime now; job; status; firstn 400 message; firstn 400 extra]])
  /\ (length (firstn 400 message) <= 400)%nat
  /\ (length (firstn 400 extra) <= 400)%nat
  /\ (valid_datetime now -> length (strftime now) = 19%nat)
  /\ (forall c calls,
        log_events (c :: calls) None = Some (fieldnames :: map record_of_call (c :: calls))).
Proof.
  split; [|split; [|split; [|split]]].
  - apply (log_event_eq {| call_now := now; call_job := job; call_status := status;
                           call_message := message; call_extra := extra |}).
  - apply firstn_le_length.
  - apply firstn_le_length.
  - apply strftime_length.
  - intros c calls. cbn [log_events fold_left]. rewrite log_event_eq.
    fold (log_events calls (Some ([fieldnames] ++ [record_of_call c]))).
    rewrite log_events_from. reflexivity.
Qed.


(** ** The scenarios, evaluated *)

Lemma scenario_anchors : anchors_present scenario_sheet.
Proof.
  repeat split; apply find_row_has_label; vm_compute; discriminate.
Qed.

Lemma scenario_no_overflow : ws_no_overflow scenario_sheet.
Proof.
  repeat constructor; try exact I; eexists; vm_compute; reflexivity.
Qed.

Lemma scenario_header :
  find_row scenario_sheet (py "MONTHLY SUPPORT BREAKDOWN") = Some 3%nat.
Proof. vm_compute. reflexivity. Qed.

Lemma scenario_plan_read : care_plan_of_worksheet scenario_sheet = Return scenario_plan.
Proof. vm_compute. reflexivity. Qed.

Lemma zero_total_plan_read : care_plan_of_worksheet zero_total_sheet = Return scenario_plan.
Proof. vm_compute. reflexivity. Qed.

(** The other scenarios of the specification: without the totals row the
    total is derived and the secondary total absent; without the weekly
    income row extraction fails; a row without an amount gives no item. *)
Example scenario_without_totals_row :
  care_plan_of_worksheet (firstn 4 scenario_sheet)
  = Return {| weekly_income_gbp := float_100;
              monthly_income_gbp := float_433;
              total_support_gbp := float_50;
              total_support_ngn := None;
              items := items scenario_plan |}.
Proof. vm_compute. reflexivity. Qed.

Example scenario_without_weekly_income :
  care_plan_of_worksheet (skipn 1 scenario_sheet) = Raise (ValueError MissingIncomeRows).
Proof. vm_compute. reflexivity. Qed.

Example scenario_with_separator_row :
  care_plan_of_worksheet
    (firstn 3 scenario_sheet ++ [text_row "Housing" CNone CNone CNone] ++ skipn 3 scenario_sheet)
  = Return scenario_plan.
Proof. vm_compute. reflexivity. Qed.

Example scenario_support_line :
  support_line scenario_plan
  = py "Planned support: " ++ lit_pound ++ py "50 (" ++ lit_approx ++ py " "
    ++ lit_naira ++ py "20,000)".
Proof. vm_compute. reflexivity. Qed.

(** C1 as the specification words it fails on a sheet whose totals row
    says 0 below an item of 50: the plan's total is 50, not the 0 of
    the sentinel row. *)
Lemma C1_zero_total_is_replaced : ~ spec_total_support zero_total_sheet.
Proof.
  intros H.
  assert (Hh : find_row zero_total_sheet (py "MONTHLY SUPPORT BREAKDOWN") = Some 3%nat)
    by (vm_compute; reflexivity).
  specialize (H scenario_plan 3%nat zero_total_plan_read Hh).
  assert (Hrow : totals_row zero_total_sheet 3 = Some zero_total_row)
    by (vm_compute; reflexivity).
  rewrite Hrow in H. destruct H as [H _].
  assert (Hcell : _to_float (colB zero_total_row) = Return (Some fzero))
    by (vm_compute; reflexivity).
  rewrite Hcell in H. discriminate.
Qed.

(** C1 on the scenario of the specification: the totals row says 50 and
    20,000, and so does the plan. *)
Lemma C1_scenario :
  total_support_gbp scenario_plan = float_50
  /\ total_support_ngn scenario_plan = Some float_20000.
Proof.
  pose proof (C1_total_support scenario_sheet scenario_plan 3%nat
                scenario_plan_read scenario_header) as H.
  assert (Hrow : totals_row scenario_sheet 3
                 = Some (text_row "TOTAL MONTHLY SUPPORT" (CInt 50) (CStr (py "20,000")) CNone))
    by (vm_compute; reflexivity).
  rewrite Hrow in H. destruct H as [Hngn [g [Hg Htotal]]].
  split; [|reflexivity].
  assert (Hcell : _to_float (CInt 50) = Return (Some float_50)) by (vm_compute; reflexivity).
  cbn [colB text_row] in Hg. rewrite Hcell in Hg. injection Hg as <-.
  rewrite Htotal. reflexivity.
Defined.

(** C2 on the scenario: the plan's items are those of the one row between
    the header and the totals row. *)
Lemma C2_scenario :
  exists plan,
    care_plan_of_worksheet scenario_sheet = Return plan
    /\ items plan = spec_items scenario_sheet 3.
Proof.
  destruct (C2_items_are_the_breakdown_rows scenario_sheet 3 scenario_anchors scenario_header)
    as [Hitems Hreturns].
  destruct (Hreturns scenario_no_overflow) as [plan Hplan].
  exists plan. split; [exact Hplan|exact (Hitems plan Hplan)].
Defined.

(** C3. On a sheet whose weekly income is the integer 10**309 and that has
    no breakdown header, extraction ends in [OverflowError], raised by
    the conversion of the income, and not in the missing-anchor failure. *)
Theorem C3_overflow_comes_before_missing_header :
  ~ has_label huge_income_sheet (py "MONTHLY SUPPORT BREAKDOWN")
  /\ care_plan_of_worksheet huge_income_sheet = Raise OverflowError.
Proof.
  split.
  - intros H. apply find_row_has_label in H. apply H. vm_compute. reflexivity.
  - vm_compute. reflexivity.
Qed.

(** An amount marked the way the source spells the pound marker, and an
    NGN-marked amount. *)
Lemma coercion_of_marked_texts :
  _to_float (CStr (lit_pound ++ py "1,200.50")) = Return (Some float_1200_5)
  /\ _to_ngn_float (CStr (py "NGN 216,000")) = Return (Some float_216000).
Proof.
  split.
  - apply (proj1 (coercion_reads_marker_free_form _ _)). vm_compute. reflexivity.
  - apply (proj2 (coercion_reads_marker_free_form _ _)). vm_compute. reflexivity.
Defined.

(** C4. A text cell that marks its amount with the pound sign, or with
    the naira sign, coerces to no value, under every runtime for the
    pound sign: the markers the source lists are those signs' UTF-8 bytes
    read as a one-byte code page, so the sign itself is never removed and
    [float] refuses the text.  With the signs themselves as the symbol
    markers, as the specification words them, the marker-free form of
    each text parses as its amount, and the text carrying the source's
    spelling of the marker is read as that amount. *)
Theorem C4_currency_signs_are_not_stripped :
  (forall rt : PyRuntime,
     @_to_float rt (CStr (spec_pound_sign ++ py "200")) = Return None
     /\ @float_of_str rt (spec_marker_free_form spec_primary_markers
                            (spec_pound_sign ++ py "200")) = Return float_200
     /\ @_to_float rt (CStr (lit_pound ++ py "200")) = Return (Some float_200))
  /\ _to_ngn_float (CStr (spec_naira_sign ++ py "216,000")) = Return None
  /\ float_of_str (spec_marker_free_form spec_secondary_markers
                     (spec_naira_sign ++ py "216,000")) = Return float_216000
  /\ _to_ngn_float (CStr (lit_naira ++ py "216,000")) = Return (Some float_216000).
Proof.
  split; [|repeat split; vm_compute; reflexivity].
  intros rt.
  assert (Hspec : spec_marker_free_form spec_primary_markers (spec_pound_sign ++ py "200")
                  = py "200") by (vm_compute; reflexivity).
  assert (Hcode : spec_marker_free_form primary_markers (spec_pound_sign ++ py "200")
                  = spec_pound_sign ++ py "200") by (vm_compute; reflexivity).
  assert (Hlit : spec_marker_free_form primary_markers (lit_pound ++ py "200")
                 = py "200") by (vm_compute; reflexivity).
  assert (H200 : float_of_str (py "200") = Return float_200).
  { unfold float_of_str. cbn [py map list_ascii_of_string transform_decimal_and_space].
    vm_compute. reflexivity. }
  split; [|split].
  - cbn [_to_float py_str]. rewrite to_float_text_eq, Hcode.
    destruct (coerce_form_cases (spec_pound_sign ++ py "200")) as [[H _]|[x [_ Hx]]];
      [exact H|].
    exfalso. revert Hx. unfold float_of_str, spec_pound_sign.
    cbn [app transform_decimal_and_space].
    change (0xA3 <? 127) with false. cbv iota.
    rewrite unicode_decimal_latin1 by lia.
    change (py_isspace 0xA3) with false. cbv iota.
    vm_compute. discriminate.
  - rewrite Hspec. exact H200.
  - cbn [_to_float py_str]. rewrite to_float_text_eq, Hlit.
    apply coerce_form_parsed. exact H200.
Qed.

(** C5. Both coercion variants raise [OverflowError] on the integer cell
    10**309: the conversion of a number is not guarded the way the
    conversion of a text is. *)
Theorem C5_integer_overflow_is_raised :
  _to_float (CInt huge_int) = Raise OverflowError
  /\ _to_ngn_float (CInt huge_int) = Raise OverflowError.
Proof. split; vm_compute; reflexivity. Qed.

(** C6 as the specification words it fails already for a plan without
    items: the message has a second empty line, before the reminder. *)
Lemma C6_second_blank_line :
  format_plan_for_telegram empty_plan <> str_join [10] (spec_plan_lines empty_plan).
Proof.
  intros H.
  assert (Hlen : Nat.eqb (length (format_plan_for_telegram empty_plan))
                         (length (str_join [10] (spec_plan_lines empty_plan))) = false)
    by (vm_compute; reflexivity).
  rewrite H, Nat.eqb_refl in Hlen. discriminate.
Qed.

(** C7 as the specification words it fails on a sheet whose weekly income
    cell holds -5: the plan's weekly income is -5. *)
Lemma C7_negative_income_is_kept : ~ spec_nonnegative negative_income_sheet.
Proof.
  intros H.
  assert (Hplan : care_plan_of_worksheet negative_income_sheet = Return negative_income_plan)
    by (vm_compute; reflexivity).
  destruct (H negative_income_plan Hplan) as [H' _].
  discriminate.
Qed.

(** C7 on the scenario with two negative cells extraction does not read,
    one in a row without a label and one below the totals row: the values
    it reads are positive, and so are the plan's. *)
Lemma C7_scenario :
  care_plan_of_worksheet unread_negative_sheet = Return scenario_plan
  /\ float_nonneg (weekly_income_gbp scenario_plan)
  /\ float_nonneg (monthly_income_gbp scenario_plan)
  /\ Forall (fun it => float_nonneg (amount_gbp it)) (items scenario_plan).
Proof.
  assert (Hplan : care_plan_of_worksheet unread_negative_sheet = Return scenario_plan)
    by (vm_compute; reflexivity).
  assert (Hwr : find_row unread_negative_sheet (py "Weekly Income") = Some 1%nat)
    by (vm_compute; reflexivity).
  assert (Hmr : find_row unread_negative_sheet (py "Monthly Income") = Some 2%nat)
    by (vm_compute; reflexivity).
  assert (Hh : find_row unread_negative_sheet (py "MONTHLY SUPPORT BREAKDOWN") = Some 3%nat)
    by (vm_compute; reflexivity).
  assert (Hrows : breakdown_rows unread_negative_sheet 3
                  = [ {| colA := CNone; colB := CInt (-5); colC := CNone; colD := CNone |};
                      text_row "Transport" (CInt 50) (CStr (py "20,000")) (CStr []) ])
    by (vm_compute; reflexivity).
  split; [exact Hplan|].
  apply (proj2 (C7_amounts_nonnegative unread_negative_sheet scenario_plan 1 2 3
                  Hplan Hwr Hmr Hh)).
  split; [|split].
  - intros x. vm_compute. intros [= <-]. reflexivity.
  - intros x. vm_compute. intros [= <-]. reflexivity.
  - intros rw x Hin. rewrite Hrows in Hin.
    destruct Hin as [<-|[<-|[]]].
    + intros Hitem. vm_compute in Hitem. discriminate.
    + intros _. vm_compute. intros [= <-]. reflexivity.
Defined.

(** C8 as the specification words it fails: no bound holds for the job
    field, which is written as passed; a job name one character longer
    than a proposed cap gives a field longer than the cap. *)
Lemma C8_job_field_is_not_capped : ~ spec_fields_capped.
Proof.
  intros [cap H].
  specialize (H sample_time (repeat 120 (S cap)) [] [] [] None
                [fieldnames; [strftime sample_time; repeat 120 (S cap); []; []; []]] eq_refl).
  cbn [last] in H. inversion H as [|? ? _ Hrest]; subst.
  inversion Hrest as [|? ? Hjob _]; subst.
  cbn [length] in Hjob. rewrite repeat_length in Hjob. lia.
Qed.

(** C8 on the first call of a monthly run, the log file not yet there. *)
Lemma C8_sample_call :
  length (strftime sample_time) = 19%nat
  /\ log_event sample_time (py "monthly_support") (py "STARTED") (py "Monthly job triggered") [] None
     = Some ([fieldnames]
             ++ [[strftime sample_time; py "monthly_support"; py "STARTED";
                  firstn 400 (py "Monthly job triggered"); firstn 400 []]]).
Proof.
  destruct (C8_log_record sample_time (py "monthly_support") (py "STARTED")
              (py "Monthly job triggered") [] None) as [Hrecord [_ [_ [Htime _]]]].
  split; [|exact Hrecord].
  apply Htime. unfold valid_datetime, sample_time. cbn. lia.
Defined.

(** C9 on the scenario, from the row below the header. *)
Lemma C9_scenario :
  exists (n : nat) (res : result loop_state),
    loop_run scenario_sheet scenario_start n res
    /\ (n <= S (max_row scenario_sheet) - st_r scenario_start)%nat
    /\ breakdown_loop scenario_sheet scenario_start = res.
Proof. exact (proj1 (C9_breakdown_loop_terminates scenario_sheet scenario_start)). Defined.

(** C10 as it is stated fails on the text "NG" + naira marker + "N5": the
    secondary variant deletes the marker first and then "NGN", and reads
    5; the primary variant looks for "NGN" first, finds none, and is left
    with "NGN5". *)
Lemma C10_split_marker :
  _to_ngn_float (CStr split_marker_text) = Return (Some float_5)
  /\ _to_float (CStr split_marker_text) = Return None.
Proof. split; vm_compute; reflexivity. Qed.

(** C10 on an amount prefixed by the naira marker. *)
Lemma C10_naira_amount :
  _to_float (CStr (lit_naira ++ py "1,500")) = Return (Some float_1500).
Proof.
  apply (proj1 C10_secondary_number_is_primary_number).
  - vm_compute. reflexivity.
  - vm_compute. reflexivity.
Defined.

(* ===================================================================== *)
(** * Part III: further properties of the code                            *)
(* ===================================================================== *)

(** ** [find_row]: the first matching row *)

Section ReaderRowFacts.
Context {rt : PyRuntime}.

Lemma find_seq_first_index (f : nat -> bool) (p : row -> bool) (rows : list row) :
  forall k : nat,
    (forall i rw, nth_error rows i = Some rw -> f (S (k + i)) = p rw) ->
    find f (seq (S k) (length rows))
    = option_map (fun i => S (k + i)) (first_index p rows).
Proof.
  induction rows as [|rw rows IH]; intros k Hf; [reflexivity|].
  cbn [length seq find first_index].
  rewrite <- (Hf O rw eq_refl), Nat.add_0_r.
  destruct (f (S k)); [cbn [option_map]; f_equal; lia|].
  rewrite (IH (S k)).
  - destruct (first_index p rows) as [i|]; [|reflexivity].
    cbn [option_map]. f_equal. lia.
  - intros i rw' Hrow. rewrite <- (Hf (S i) rw' Hrow). f_equal. lia.
Qed.

Lemma find_row_first_index (ws : worksheet) (lbl : pystr) :
  find_row ws lbl = option_map S (first_index (label_matches lbl) ws).
Proof.
  unfold find_row. destruct ws as [|rw0 ws0] eqn:Hws; [reflexivity|].
  rewrite <- Hws.
  assert (Hmax : max_row ws = length ws) by (subst ws; unfold max_row; cbn [length]; lia).
  rewrite Hmax.
  rewrite (find_seq_first_index _ (label_matches lbl) ws O).
  - destruct (first_index _ ws); reflexivity.
  - intros i rw Hrow. cbn [Nat.add]. unfold cell_value, label_matches.
    rewrite Hrow. reflexivity.
Qed.

Lemma first_index_some (p : row -> bool) (rows : list row) (i : nat) :
  first_index p rows = Some i ->
  (exists rw, nth_error rows i = Some rw /\ p rw = true)
  /\ (forall j rw, (j < i)%nat -> nth_error rows j = Some rw -> p rw = false).
Proof.
  revert i. induction rows as [|rw rows IH]; intros i; cbn [first_index]; [discriminate|].
  destruct (p rw) eqn:Hp.
  - intros [= <-]. split; [exists rw; auto|]. intros j rw' Hj. lia.
  - destruct (first_index p rows) as [i'|]; [|discriminate].
    intros [= <-]. destruct (IH i' eq_refl) as [Hat Hbefore]. split; [exact Hat|].
    intros [|j] rw' Hj Hrow.
    + injection Hrow as <-. exact Hp.
    + apply (Hbefore j rw'); [lia|exact Hrow].
Qed.

Lemma first_index_none (p : row -> bool) (rows : list row) :
  first_index p rows = None -> forall rw, In rw rows -> p rw = false.
Proof.
  induction rows as [|rw rows IH]; cbn [first_index]; intros H rw' Hin; [destruct Hin|].
  destruct (p rw) eqn:Hp; [discriminate|].
  destruct (first_index p rows); [discriminate|].
  destruct Hin as [<-|Hin]; [exact Hp|auto].
Qed.

Lemma first_index_lt (p : row -> bool) (rows : list row) (i : nat) :
  first_index p rows = Some i -> (i < length rows)%nat.
Proof.
  intros H. destruct (first_index_some _ _ _ H) as [[rw [Hrow _]] _].
  apply nth_error_Some. congruence.
Qed.

Lemma first_index_app (p : row -> bool) (rows extra : list row) (i : nat) :
  first_index p rows = Some i -> first_index p (rows ++ extra) = Some i.
Proof.
  revert i. induction rows as [|rw rows IH]; intros i; cbn [first_index app]; [discriminate|].
  destruct (p rw); [auto|].
  destruct (first_index p rows) as [i'|]; [|discriminate].
  intros H. rewrite (IH i' eq_refl). exact H.
Qed.

(** X1.  [find_row] returns the first row, counted from 1, whose first cell
    holds the label (trimmed, whatever the case); it returns [None] when
    no row does. *)
Theorem find_row_is_first_match (ws : worksheet) (lbl : pystr) :
  match find_row ws lbl with
  | Some r =>
    (1 <= r <= length ws)%nat
    /\ (exists rw, nth_error ws (r - 1) = Some rw /\ label_matches lbl rw = true)
    /\ (forall r' rw, (1 <= r' < r)%nat -> nth_error ws (r' - 1) = Some rw ->
                      label_matches lbl rw = false)
  | None => forall rw, In rw ws -> label_matches lbl rw = false
  end.
Proof.
  rewrite find_row_first_index.
  destruct (first_index (label_matches lbl) ws) as [i|] eqn:Hfirst; cbn [option_map].
  - destruct (first_index_some _ _ _ Hfirst) as [Hat Hbefore].
    pose proof (first_index_lt _ _ _ Hfirst) as Hlt.
    replace (S i - 1)%nat with i by lia.
    split; [lia|]. split; [exact Hat|].
    intros r' rw Hr' Hrow. apply (Hbefore (r' - 1)%nat rw); [lia|exact Hrow].
  - apply first_index_none. exact Hfirst.
Qed.

End ReaderRowFacts.

(** ** The reader: what lies below the first terminal sentinel, and the
    items of a plan *)

Section ReaderFacts.
Context {rt : PyRuntime}.

Lemma find_row_app (ws extra : worksheet) (lbl : pystr) (r : nat) :
  find_row ws lbl = Some r -> find_row (ws ++ extra) lbl = Some r.
Proof.
  rewrite !find_row_first_index.
  destruct (first_index (label_matches lbl) ws) as [i|] eqn:Hfirst; [|discriminate].
  intros H. rewrite (first_index_app _ _ extra _ Hfirst). exact H.
Qed.

Lemma cell_value_app (ws extra : worksheet) (r c : nat) :
  (r <= length ws)%nat -> cell_value (ws ++ extra) r c = cell_value ws r c.
Proof.
  intros Hr. unfold cell_value. destruct r as [|i]; [reflexivity|].
  rewrite nth_error_app1 by lia. reflexivity.
Qed.

(** At a terminal sentinel a turn of the loop body breaks or raises. *)
Lemma process_row_terminal (rw : row) (st : loop_state) :
  terminal_sentinel rw = true ->
  match process_row (colA rw) (colB rw) (colC rw) (colD rw) st with
  | Continue _ => False
  | _ => True
  end.
Proof.
  intros Hterm. rewrite process_row_spec, Hterm.
  destruct (blank_label rw) eqn:Hblank.
  - rewrite blank_not_terminal in Hterm by assumption. discriminate.
  - destruct (totals_sentinel rw); [|exact I].
    destruct (_to_float (colB rw)); [|exact I].
    destruct (_to_ngn_float (colC rw)); exact I.
Qed.

Lemma scan_rows_app_terminal (rows extra : list row) (st : loop_state) :
  find terminal_sentinel rows <> None ->
  scan_rows (rows ++ extra) st = scan_rows rows st.
Proof.
  revert st. induction rows as [|rw rows IH]; intros st; cbn [find]; [congruence|].
  cbn [app scan_rows].
  destruct (terminal_sentinel rw) eqn:Hterm.
  - intros _. pose proof (process_row_terminal rw st Hterm) as Hp.
    destruct (process_row _ _ _ _ st); [destruct Hp|reflexivity|reflexivity].
  - intros Hfind. destruct (process_row _ _ _ _ st); [apply IH; exact Hfind|reflexivity|reflexivity].
Qed.

Lemma before_terminal_not_terminal (rows : list row) (rw : row) :
  In rw (before_terminal rows) -> terminal_sentinel rw = false.
Proof.
  induction rows as [|rw' rows IH]; cbn [before_terminal]; [intros []|].
  destruct (terminal_sentinel rw') eqn:Hterm; [intros []|].
  intros [<-|Hin]; [exact Hterm|auto].
Qed.

Lemma str_strip_nil : str_strip [] = [].
Proof. reflexivity. Qed.

Lemma item_of_row_well_formed (rw : row) :
  blank_label rw = false -> terminal_sentinel rw = false ->
  well_formed_item (item_of_row rw).
Proof.
  intros Hblank Hterm. unfold well_formed_item, item_of_row.
  cbn [category notes].
  unfold terminal_sentinel in Hterm. rewrite Hblank in Hterm. cbn [negb andb] in Hterm.
  apply Bool.orb_false_iff in Hterm. destruct Hterm as [Htotal Hremaining].
  unfold blank_label in Hblank. apply Bool.orb_false_iff in Hblank.
  destruct Hblank as [_ Hempty].
  repeat split.
  - intros Hnil. rewrite Hnil in Hempty. discriminate.
  - unfold label. apply strip_idempotent.
  - intros Heq. apply str_eqb_eq in Heq. congruence.
  - intros Heq. apply str_eqb_eq in Heq. congruence.
  - destruct (py_truthy (colD rw)); [apply strip_idempotent|reflexivity].
Qed.

(** X2.  The rows below the first terminal sentinel under the header are never
    read: whatever is appended to a sheet that has its three anchors and
    a terminal sentinel below the header, extraction ends the same way. *)
Theorem rows_below_terminal_are_not_read (ws extra : worksheet) (h : nat) :
  anchors_present ws ->
  find_row ws (py "MONTHLY SUPPORT BREAKDOWN") = Some h ->
  first_terminal ws h <> None ->
  care_plan_of_worksheet (ws ++ extra) = care_plan_of_worksheet ws.
Proof.
  intros [HW [HM _]] Hh Hterm.
  apply find_row_has_label in HW, HM.
  destruct (find_row ws (py "Weekly Income")) as [wr|] eqn:Hwr; [|congruence].
  destruct (find_row ws (py "Monthly Income")) as [mr|] eqn:Hmr; [|congruence].
  pose proof (care_plan_inv ws _ eq_refl) as H1.
  pose proof (care_plan_inv (ws ++ extra) _ eq_refl) as H2.
  rewrite (find_row_app _ extra _ _ Hwr), (find_row_app _ extra _ _ Hmr),
    (find_row_app _ extra _ _ Hh) in H2.
  rewrite Hwr, Hmr, Hh in H1.
  destruct (find_row_some _ _ _ Hwr) as [Hwr_le _].
  destruct (find_row_some _ _ _ Hmr) as [Hmr_le _].
  destruct (find_row_some _ _ _ Hh) as [Hh_le _].
  rewrite !cell_value_app in H2 by lia.
  rewrite skipn_app in H2.
  replace (h - length ws)%nat with O in H2 by lia.
  cbn [skipn] in H2.
  rewrite scan_rows_app_terminal in H2 by exact Hterm.
  destruct (_to_float (cell_value ws wr 2)); [|congruence].
  destruct (_to_float (cell_value ws mr 2)); [|congruence].
  destruct (scan_rows (skipn h ws) (initial_state h)); congruence.
Qed.

(** X3.  Every item of an extracted plan has a category that is not empty, has
    no white space around it and is not a terminal sentinel, and notes
    without white space around them. *)
Theorem items_are_well_formed (ws : worksheet) (plan : CarePlan) :
  care_plan_of_worksheet ws = Return plan -> Forall well_formed_item (items plan).
Proof.
  intros Hplan.
  destruct (care_plan_returned ws plan Hplan)
    as [wr [mr [h [w [m [st [_ [_ [_ [_ [_ [Hscan ->]]]]]]]]]]]].
  cbn [items]. rewrite (scan_rows_items _ _ _ Hscan). cbn [initial_state st_items app].
  apply Forall_forall. intros item Hin.
  apply in_map_iff in Hin. destruct Hin as [rw [<- Hrw]].
  apply filter_In in Hrw. destruct Hrw as [Hrw Hitem].
  apply item_of_row_well_formed.
  - rewrite is_item_row_spec in Hitem. destruct (blank_label rw); [discriminate|reflexivity].
  - eapply before_terminal_not_terminal. exact Hrw.
Qed.

(** X4.  How [read_care_plan_from_excel] fails: with [FileNotFoundError]
    exactly when there is no file at the path; with the exception of
    [load_workbook] exactly when the file there cannot be read as a
    workbook; with the missing-sheet [ValueError] exactly when the
    workbook that was read has no sheet of the expected name; and, with
    the workbook and the sheet in place, only with one of the two
    missing-anchor errors, which then means an anchor label without a
    match, or with [OverflowError]. *)
Theorem read_care_plan_failures (fs : filesystem) (xlsx_path : pystr) :
  (read_care_plan_from_excel fs xlsx_path = Raise FileNotFoundError <-> fs xlsx_path = None)
  /\ (forall type_name,
        read_care_plan_from_excel fs xlsx_path = Raise (LoadError type_name)
        <-> fs xlsx_path = Some (Unreadable type_name))
  /\ (read_care_plan_from_excel fs xlsx_path = Raise (ValueError SheetNotFound)
      <-> exists wb, fs xlsx_path = Some (Workbook wb)
                     /\ sheet_by_name wb (py "Mom Monthly Support Plan") = None)
  /\ (forall wb ws e,
        fs xlsx_path = Some (Workbook wb) ->
        sheet_by_name wb (py "Mom Monthly Support Plan") = Some ws ->
        read_care_plan_from_excel fs xlsx_path = Raise e ->
        (e = ValueError MissingIncomeRows /\ ~ anchors_present ws)
        \/ (e = ValueError MissingHeaderRow /\ ~ anchors_present ws)
        \/ e = OverflowError).
Proof.
  unfold read_care_plan_from_excel.
  destruct (fs xlsx_path) as [[wb|name]|].
  - destruct (sheet_by_name wb (py "Mom Monthly Support Plan")) as [ws|] eqn:Hsheet.
    + split; [|split; [|split]].
      * split; [|discriminate]. intros H. apply extraction_failures in H.
        destruct H as [[H _]|[[H _]|H]]; discriminate.
      * intros type_name. split; [|discriminate]. intros H. apply extraction_failures in H.
        destruct H as [[H _]|[[H _]|H]]; discriminate.
      * split.
        -- intros H. apply extraction_failures in H.
           destruct H as [[H _]|[[H _]|H]]; discriminate.
        -- intros [wb' [[= <-] H]]. congruence.
      * intros wb' ws' e [= <-] Hws H. rewrite Hsheet in Hws. injection Hws as <-.
        apply extraction_failures. exact H.
    + split; [|split; [|split]].
      * split; discriminate.
      * intros type_name. split; discriminate.
      * split; [|reflexivity]. intros _. exists wb. auto.
      * intros wb' ws' e [= <-] Hws. congruence.
  - split; [|split; [|split]].
    + split; discriminate.
    + intros type_name. split; intros [= ->]; reflexivity.
    + split; [discriminate|]. intros [wb [H _]]. discriminate.
    + intros wb ws e H. discriminate.
  - split; [|split; [|split]].
    + split; reflexivity.
    + intros type_name. split; discriminate.
    + split; [discriminate|]. intros [wb [H _]]. discriminate.
    + intros wb ws e H. discriminate.
Qed.

End ReaderFacts.

Lemma rows_below_terminal_scenario :
  care_plan_of_worksheet
    (scenario_sheet ++ [text_row "Rent" (CInt huge_int) CNone CNone])
  = care_plan_of_worksheet scenario_sheet.
Proof.
  apply (rows_below_terminal_are_not_read scenario_sheet _ 3).
  - exact scenario_anchors.
  - exact scenario_header.
  - vm_compute. discriminate.
Defined.

Lemma items_of_scenario_well_formed : Forall well_formed_item (items scenario_plan).
Proof. exact (items_are_well_formed scenario_sheet scenario_plan scenario_plan_read). Defined.

(** ** The reader: rows without a label *)

Section BlankRowFacts.
Context {rt : PyRuntime}.

Lemma first_index_insert (p : row -> bool) (b : row) (rows : list row) :
  p b = false ->
  forall k, first_index p (insert_row k b rows)
            = option_map (shift_index k) (first_index p rows).
Proof.
  intros Hb. unfold insert_row.
  induction rows as [|x rows IH]; intros k.
  - rewrite firstn_nil, skipn_nil. cbn [app first_index]. rewrite Hb. reflexivity.
  - destruct k as [|k].
    + cbn [firstn skipn app]. cbn [first_index]. rewrite Hb.
      destruct (p x); [reflexivity|].
      destruct (first_index p rows); reflexivity.
    + cbn [firstn skipn app first_index].
      destruct (p x); [reflexivity|].
      rewrite IH. destruct (first_index p rows) as [i|]; [|reflexivity].
      cbn [option_map]. unfold shift_index.
      change (S i <? S k)%nat with (i <? k)%nat.
      destruct (i <? k)%nat; reflexivity.
Qed.

Lemma nth_error_insert (b : row) (rows : list row) :
  forall k i, (i < length rows)%nat ->
    nth_error (insert_row k b rows) (shift_index k i) = nth_error rows i.
Proof.
  unfold insert_row.
  induction rows as [|x rows IH]; intros k i Hi; [cbn [length] in Hi; lia|].
  destruct k as [|k]; [reflexivity|].
  destruct i as [|i]; [reflexivity|].
  cbn [firstn skipn app]. unfold shift_index.
  change (S i <? S k)%nat with (i <? k)%nat.
  specialize (IH k i). unfold shift_index in IH.
  destruct (i <? k)%nat; cbn [nth_error]; apply IH; cbn [length] in Hi; lia.
Qed.

Lemma skipn_insert (b : row) (rows : list row) :
  forall k i, (i < length rows)%nat ->
    exists a c,
      skipn (S i) rows = a ++ c
      /\ (skipn (S (shift_index k i)) (insert_row k b rows) = a ++ b :: c
          \/ skipn (S (shift_index k i)) (insert_row k b rows) = a ++ c).
Proof.
  unfold insert_row.
  induction rows as [|x rows IH]; intros k i Hi; [cbn [length] in Hi; lia|].
  destruct k as [|k].
  - exists (skipn (S i) (x :: rows)), []. rewrite app_nil_r. split; [reflexivity|].
    right. reflexivity.
  - destruct i as [|i].
    + exists (firstn k rows), (skipn k rows). split.
      * cbn [skipn]. symmetry. apply firstn_skipn.
      * left. reflexivity.
    + cbn [length] in Hi. destruct (IH k i ltac:(lia)) as [a [c [Hrows Hins]]].
      exists a, c. split; [exact Hrows|].
      unfold shift_index in *. change (S i <? S k)%nat with (i <? k)%nat.
      cbn [firstn skipn app].
      destruct (i <? k)%nat; exact Hins.
Qed.

(** A turn of the loop body treats the variables other than the row
    counter the same way whatever the row counter. *)
Lemma process_row_vars (cat gbp ngn note : cell) (st st' : loop_state) :
  loop_vars st = loop_vars st' ->
  match process_row cat gbp ngn note st, process_row cat gbp ngn note st' with
  | Continue s, Continue s' => loop_vars s = loop_vars s'
  | Break s, Break s' => loop_vars s = loop_vars s'
  | Throw e, Throw e' => e = e'
  | _, _ => False
  end.
Proof.
  destruct st as [r its g n], st' as [r' its' g' n'].
  unfold loop_vars. cbn [st_items st_total_support_gbp st_total_support_ngn].
  intros [= -> -> ->]. unfold process_row, advance.
  cbn [st_r st_items st_total_support_gbp st_total_support_ngn].
  destruct (is_None cat); [reflexivity|].
  destruct (str_is_empty _); [reflexivity|].
  destruct (_ || _).
  - destruct (str_eqb _ _); [|reflexivity].
    destruct (_to_float gbp); [|reflexivity].
    destruct (_to_ngn_float ngn); reflexivity.
  - destruct (str_eqb _ _); [reflexivity|].
    destruct (_to_float gbp) as [[x|]|e]; try reflexivity.
    destruct (_to_ngn_float ngn); reflexivity.
Qed.

Lemma scan_rows_vars (rows : list row) :
  forall st st', loop_vars st = loop_vars st' ->
    result_vars (scan_rows rows st) = result_vars (scan_rows rows st').
Proof.
  induction rows as [|rw rows IH]; intros st st' Hvars.
  - cbn [scan_rows result_vars]. rewrite Hvars. reflexivity.
  - cbn [scan_rows].
    pose proof (process_row_vars (colA rw) (colB rw) (colC rw) (colD rw) st st' Hvars) as Hp.
    destruct (process_row _ _ _ _ st) as [s|s|e], (process_row _ _ _ _ st') as [s'|s'|e'];
      try solve [destruct Hp].
    + apply IH. exact Hp.
    + cbn [result_vars]. rewrite Hp. reflexivity.
    + rewrite Hp. reflexivity.
Qed.

Lemma scan_rows_insert (b : row) (a c : list row) :
  colA b = CNone ->
  forall st st', loop_vars st = loop_vars st' ->
    result_vars (scan_rows (a ++ b :: c) st) = result_vars (scan_rows (a ++ c) st').
Proof.
  intros Hb. induction a as [|rw a IH]; intros st st' Hvars.
  - cbn [app scan_rows]. unfold process_row. rewrite Hb. cbn [is_None].
    apply scan_rows_vars. rewrite <- Hvars. destruct st. reflexivity.
  - cbn [app scan_rows].
    pose proof (process_row_vars (colA rw) (colB rw) (colC rw) (colD rw) st st' Hvars) as Hp.
    destruct (process_row _ _ _ _ st) as [s|s|e], (process_row _ _ _ _ st') as [s'|s'|e'];
      try solve [destruct Hp].
    + apply IH. exact Hp.
    + cbn [result_vars]. rewrite Hp. reflexivity.
    + rewrite Hp. reflexivity.
Qed.

Lemma find_row_insert (k : nat) (b : row) (ws : worksheet) (lbl : pystr) :
  colA b = CNone ->
  find_row (insert_row k b ws) lbl
  = option_map (fun r => S (shift_index k (r - 1))) (find_row ws lbl).
Proof.
  intros Hb. rewrite !find_row_first_index, first_index_insert.
  - destruct (first_index _ ws) as [i|]; [|reflexivity].
    cbn [option_map]. replace (S i - 1)%nat with i by lia. reflexivity.
  - unfold label_matches. rewrite Hb. reflexivity.
Qed.

Lemma cell_value_insert (k : nat) (b : row) (ws : worksheet) (i c : nat) :
  (i < length ws)%nat ->
  cell_value (insert_row k b ws) (S (shift_index k i)) c = cell_value ws (S i) c.
Proof.
  intros Hi. unfold cell_value. rewrite nth_error_insert by exact Hi. reflexivity.
Qed.

(** X5.  A row whose first cell is empty changes nothing, wherever it is put
    in the sheet and whatever its other cells hold: extraction ends the
    same way with and without it. *)
Theorem row_without_label_changes_nothing (k : nat) (b : row) (ws : worksheet) :
  colA b = CNone ->
  care_plan_of_worksheet (insert_row k b ws) = care_plan_of_worksheet ws.
Proof.
  intros Hb.
  pose proof (care_plan_inv ws _ eq_refl) as H1.
  pose proof (care_plan_inv (insert_row k b ws) _ eq_refl) as H2.
  rewrite !(find_row_insert k b ws _ Hb) in H2.
  destruct (find_row ws (py "Weekly Income")) as [wr|] eqn:Hwr;
    [|cbn [option_map] in H2; congruence].
  destruct (find_row ws (py "Monthly Income")) as [mr|] eqn:Hmr;
    [|cbn [option_map] in H2; congruence].
  cbn [option_map] in H2.
  destruct (find_row_some _ _ _ Hwr) as [Hwr_le _].
  destruct (find_row_some _ _ _ Hmr) as [Hmr_le _].
  rewrite !cell_value_insert in H2 by lia.
  replace (S (wr - 1)) with wr in H2 by lia.
  replace (S (mr - 1)) with mr in H2 by lia.
  destruct (_to_float (cell_value ws wr 2)) as [w|e]; [|congruence].
  destruct (_to_float (cell_value ws mr 2)) as [m|e]; [|congruence].
  destruct (find_row ws (py "MONTHLY SUPPORT BREAKDOWN")) as [h|] eqn:Hh;
    [|cbn [option_map] in H2; congruence].
  cbn [option_map] in H2.
  destruct (find_row_some _ _ _ Hh) as [Hh_le _].
  assert (Hscan : result_vars (scan_rows (skipn (S (shift_index k (h - 1))) (insert_row k b ws))
                                 (initial_state (S (shift_index k (h - 1)))))
                  = result_vars (scan_rows (skipn h ws) (initial_state h))).
  { destruct (skipn_insert b ws k (h - 1)%nat ltac:(lia)) as [a [c [Hrows Hins]]].
    replace (S (h - 1)) with h in Hrows by lia. rewrite Hrows.
    destruct Hins as [-> | ->].
    - apply scan_rows_insert; [exact Hb|reflexivity].
    - apply scan_rows_vars. reflexivity. }
  destruct (scan_rows (skipn h ws) (initial_state h)) as [st|e],
           (scan_rows (skipn (S (shift_index k (h - 1))) (insert_row k b ws)) _) as [st'|e'];
    cbn [result_vars] in Hscan; try discriminate.
  - unfold loop_vars in Hscan. injection Hscan as Hi Hg Hn.
    rewrite H1, H2, Hi, Hg, Hn. reflexivity.
  - injection Hscan as ->. congruence.
Qed.

End BlankRowFacts.

Lemma separator_row_in_scenario :
  care_plan_of_worksheet
    (insert_row 3 {| colA := CNone; colB := CInt huge_int; colC := CNone; colD := CNone |}
                scenario_sheet)
  = care_plan_of_worksheet scenario_sheet.
Proof. apply row_without_label_changes_nothing. reflexivity. Defined.

(** ** Value coercion: white space around a text *)

Section CoercionSpaceFacts.
Context {rt : PyRuntime}.

Lemma fold_replace_congr (ms : list pystr) :
  Forall (fun m => m <> [] /\ space_free m) ms ->
  forall a b, str_strip a = str_strip b ->
    str_strip (fold_left (fun s m => str_replace m [] s) ms a)
    = str_strip (fold_left (fun s m => str_replace m [] s) ms b).
Proof.
  induction 1 as [|m ms [Hm Hfree] _ IH]; intros a b Hab; [exact Hab|].
  cbn [fold_left]. apply IH. apply strip_replace_congr; assumption.
Qed.

Lemma marker_free_form_around (ms : list pystr) (l s r : pystr) :
  Forall (fun m => m <> [] /\ space_free m) ms ->
  all_space l -> all_space r ->
  spec_marker_free_form ms (l ++ s ++ r) = spec_marker_free_form ms s.
Proof.
  intros Hms Hl Hr. unfold spec_marker_free_form.
  apply fold_replace_congr; [exact Hms|].
  apply strip_replace_congr; [apply comma_plain|apply comma_plain|].
  apply strip_around; assumption.
Qed.

(** X6.  White space around the text of a cell does not change what either
    coercion returns for it. *)
Theorem coercion_ignores_space_around (l s r : pystr) :
  all_space l -> all_space r ->
  _to_float (CStr (l ++ s ++ r)) = _to_float (CStr s)
  /\ _to_ngn_float (CStr (l ++ s ++ r)) = _to_ngn_float (CStr s).
Proof.
  intros Hl Hr. unfold _to_float, _to_ngn_float. cbn [py_str].
  rewrite !to_float_text_eq, !to_ngn_float_text_eq.
  rewrite (marker_free_form_around primary_markers) by
    (assumption || exact primary_markers_plain).
  rewrite (marker_free_form_around secondary_markers) by
    (assumption || exact secondary_markers_plain).
  split; reflexivity.
Qed.

End CoercionSpaceFacts.

Lemma coercion_of_padded_amount :
  _to_float (CStr (py "  " ++ py "1,200.50" ++ [0xA0])) = _to_float (CStr (py "1,200.50"))
  /\ _to_ngn_float (CStr (py "  " ++ py "1,200.50" ++ [0xA0]))
     = _to_ngn_float (CStr (py "1,200.50")).
Proof. apply coercion_ignores_space_around; repeat constructor. Defined.

(** ** The Telegram client and [_safe] *)

Section CallerFacts.
Context {rt : PyRuntime}.
Variable o : outside.

Lemma leaves_refl (w : world) : leaves w w [] [].
Proof. split; rewrite app_nil_r; reflexivity. Qed.

Lemma leaves_trans (w w1 w2 : world) (r1 r2 : list csv_record) (c1 c2 : list call) :
  leaves w w1 r1 c1 -> leaves w1 w2 r2 c2 -> leaves w w2 (r1 ++ r2) (c1 ++ c2).
Proof.
  intros [Hl1 Hc1] [Hl2 Hc2]. split.
  - rewrite Hl2, Hl1, app_assoc. reflexivity.
  - rewrite Hc2, Hc1, app_assoc. reflexivity.
Qed.

Lemma leaves_consulted (w : world) : leaves w (consulted w) [] [].
Proof. split; cbn [consulted w_log w_calls]; rewrite app_nil_r; reflexivity. Qed.

Lemma leaves_called (c : call) (w : world) : leaves w (called c w) [] [c].
Proof. split; cbn [called w_log w_calls]; [rewrite app_nil_r|]; reflexivity. Qed.

(** A call of [log_event] on a log that can be written to. *)
Lemma log_event_now_writable (job status message extra : pystr) (w : world) :
  log_writable o ->
  log_event_now o job status message extra w
  = (Returned tt,
     {| w_log := log_event (out_now o (w_tick w)) job status message extra (w_log w);
        w_calls := w_calls w;
        w_tick := S (w_tick w) |}).
Proof. intros Hlog. unfold log_event_now. rewrite Hlog. reflexivity. Qed.

(** The record it appends. *)
Lemma log_event_now_leaves (job status message extra : pystr) (w : world) :
  log_writable o ->
  fst (log_event_now o job status message extra w) = Returned tt
  /\ leaves w (snd (log_event_now o job status message extra w))
            [[strftime (out_now o (w_tick w)); job; status;
              firstn 400 message; firstn 400 extra]] [].
Proof.
  intros Hlog. rewrite (log_event_now_writable _ _ _ _ _ Hlog).
  split; [reflexivity|]. unfold leaves. cbn [snd w_log w_calls].
  rewrite (log_event_eq {| call_now := out_now o (w_tick w); call_job := job;
                           call_status := status; call_message := message;
                           call_extra := extra |}).
  split; [reflexivity|]. rewrite app_nil_r. reflexivity.
Qed.

Lemma env_truthy_text (s : option pystr) :
  env_truthy s = true -> s = Some (env_text s) /\ env_text s <> [].
Proof.
  destruct s as [[|c s]|]; cbn [env_truthy env_text]; try discriminate.
  intros _. split; [reflexivity|discriminate].
Qed.

Lemma get_creds_cases (w : world) :
  (no_credentials o /\ _get_creds o w = (Raised missing_credentials, w))
  \/ (exists token chat_id,
         credentials o token chat_id /\ _get_creds o w = (Returned (token, chat_id), w)).
Proof.
  unfold _get_creds, no_credentials, credentials.
  destruct (env_truthy (out_getenv o (py "TELEGRAM_BOT_TOKEN"))) eqn:Htoken;
    [|left; split; [left|]; reflexivity].
  destruct (env_truthy (out_getenv o (py "TELEGRAM_CHAT_ID"))) eqn:Hchat;
    [|left; split; [right|]; reflexivity].
  right. apply env_truthy_text in Htoken, Hchat.
  destruct Htoken as [Htoken Htoken'], Hchat as [Hchat Hchat'].
  exists (env_text (out_getenv o (py "TELEGRAM_BOT_TOKEN"))),
         (env_text (out_getenv o (py "TELEGRAM_CHAT_ID"))).
  repeat split; assumption.
Qed.


Lemma send_telegram_cases (message : pystr) (w : world) :
  (no_credentials o /\ send_telegram o message w = (Raised missing_credentials, w))
  \/ (exists token chat_id,
         credentials o token chat_id
         /\ send_telegram o message w
            = (post_result o (w_tick w) (message_request token chat_id message),
               called (RequestsPost (message_request token chat_id message)) w)).
Proof.
  unfold send_telegram, and_then.
  destruct (get_creds_cases w) as [[Hno ->]|[token [chat_id [Hcreds ->]]]];
    [left; split; [exact Hno|reflexivity]|].
  right. exists token, chat_id. split; [exact Hcreds|].
  unfold requests_post, post_result, message_request, raise_for_status.
  destruct (out_post o (w_tick w) _) as [r|e]; [|reflexivity].
  destruct (status_error r); reflexivity.
Qed.

Lemma send_document_cases (file_path : path) (caption : pystr) (w : world) :
  (no_credentials o /\ send_document o file_path caption w = (Raised missing_credentials, w))
  \/ (exists token chat_id,
         credentials o token chat_id
         /\ send_document o file_path caption w
            = if out_exists o (w_tick w) file_path then
                match out_open o (S (w_tick w)) file_path with
                | Some e => (Raised e, consulted (consulted w))
                | None =>
                  (post_result o (S (S (w_tick w)))
                               (document_request token chat_id file_path caption),
                   called (RequestsPost (document_request token chat_id file_path caption))
                          (consulted (consulted w)))
                end
              else (Raised (document_not_found o file_path), consulted w)).
Proof.
  unfold send_document, and_then.
  destruct (get_creds_cases w) as [[Hno ->]|[token [chat_id [Hcreds ->]]]];
    [left; split; [exact Hno|reflexivity]|].
  right. exists token, chat_id. split; [exact Hcreds|].
  unfold path_exists. cbv beta iota.
  destruct (out_exists o (w_tick w) file_path); cbn [negb]; [|reflexivity].
  unfold path_open_rb. cbn [consulted w_tick].
  destruct (out_open o (S (w_tick w)) file_path); [reflexivity|].
  unfold requests_post, post_result, document_request, raise_for_status.
  cbn [consulted w_tick w_log w_calls].
  destruct (str_is_empty caption); cbn [negb];
    (destruct (out_post o (S (S (w_tick w))) _) as [r|e]; [|reflexivity]);
    destruct (status_error r); reflexivity.
Qed.

(** X7.  [send_telegram] makes a request exactly when both credentials are
    set to a non-empty string: then it makes one, to the [sendMessage]
    address of the token, with the chat and the text, and returns unless
    the post or the status of the response raises; otherwise it raises
    [RuntimeError] and leaves the world as it was. *)
Theorem send_telegram_needs_credentials (message : pystr) (w : world) :
  (no_credentials o /\ send_telegram o message w = (Raised missing_credentials, w))
  \/ (exists token chat_id,
         credentials o token chat_id
         /\ send_telegram o message w
            = (post_result o (w_tick w)
                 (PostJson (py "https://api.telegram.org/bot" ++ token ++ py "/sendMessage")
                           [(py "chat_id", chat_id); (py "text", message)]),
               {| w_log := w_log w;
                  w_calls := w_calls w
                    ++ [RequestsPost
                          (PostJson (py "https://api.telegram.org/bot" ++ token
                                     ++ py "/sendMessage")
                                    [(py "chat_id", chat_id); (py "text", message)])];
                  w_tick := S (w_tick w) |})).
Proof.
  unfold send_telegram, and_then.
  destruct (get_creds_cases w) as [[Hno ->]|[token [chat_id [Hcreds ->]]]].
  - left. split; [exact Hno|reflexivity].
  - right. exists token, chat_id. split; [exact Hcreds|].
    unfold requests_post, post_result, raise_for_status, send_message_url, called.
    destruct (out_post o (w_tick w) _) as [r|e]; [|reflexivity].
    destruct (status_error r); reflexivity.
Qed.

(** X8.  [send_document] checks the credentials first and the file second: it
    raises [RuntimeError] without looking at the file when a credential
    is missing, [FileNotFoundError] without any request when the file is
    not there, and makes its one request, with the caption only if it is
    not empty, once the file is open. *)
Theorem send_document_checks_before_posting (file_path : path) (caption : pystr) (w : world) :
  (no_credentials o /\ send_document o file_path caption w = (Raised missing_credentials, w))
  \/ (exists token chat_id,
         credentials o token chat_id
         /\ send_document o file_path caption w
            = if out_exists o (w_tick w) file_path then
                match out_open o (S (w_tick w)) file_path with
                | Some e => (Raised e, consulted (consulted w))
                | None =>
                  (post_result o (S (S (w_tick w)))
                     (PostForm (py "https://api.telegram.org/bot" ++ token
                                ++ py "/sendDocument")
                               (if str_is_empty caption
                                then [(py "chat_id", chat_id)]
                                else [(py "chat_id", chat_id); (py "caption", caption)])
                               [(py "document", (last file_path [], file_path))]),
                   {| w_log := w_log w;
                      w_calls := w_calls w
                        ++ [RequestsPost
                              (PostForm (py "https://api.telegram.org/bot" ++ token
                                         ++ py "/sendDocument")
                                        (if str_is_empty caption
                                         then [(py "chat_id", chat_id)]
                                         else [(py "chat_id", chat_id);
                                               (py "caption", caption)])
                                        [(py "document", (last file_path [], file_path))])];
                      w_tick := S (S (S (w_tick w))) |})
                end
              else (Raised {| exc_type_name := py "FileNotFoundError";
                              exc_text := py "Document not found: "
                                          ++ path_str (out_sep o) file_path;
                              exc_is_Exception := true |},
                    consulted w)).
Proof.
  unfold send_document, and_then.
  destruct (get_creds_cases w) as [[Hno ->]|[token [chat_id [Hcreds ->]]]].
  - left. split; [exact Hno|reflexivity].
  - right. exists token, chat_id. split; [exact Hcreds|].
    unfold path_exists. cbv beta iota.
    destruct (out_exists o (w_tick w) file_path); cbn [negb]; [|reflexivity].
    unfold path_open_rb. cbn [consulted w_tick].
    destruct (out_open o (S (w_tick w)) file_path); [reflexivity|].
    unfold requests_post, post_result, raise_for_status, send_document_url, path_name.
    cbn [consulted called w_tick w_log w_calls].
    destruct (str_is_empty caption); cbn [negb];
      (destruct (out_post o (S (S (w_tick w))) _) as [r|e]; [|reflexivity]);
      destruct (status_error r); reflexivity.
Qed.

Lemma send_telegram_quiet (message : pystr) : quiet (send_telegram o message).
Proof.
  intros w.
  destruct (send_telegram_cases message w) as [[_ ->]|[token [chat_id [_ ->]]]];
    cbn [snd]; eexists.
  - apply leaves_refl.
  - apply leaves_called.
Qed.

Lemma send_document_quiet (file_path : path) (caption : pystr) :
  quiet (send_document o file_path caption).
Proof.
  intros w.
  destruct (send_document_cases file_path caption w) as [[_ ->]|[token [chat_id [_ ->]]]];
    cbn [snd]; [eexists; apply leaves_refl|].
  destruct (out_exists o (w_tick w) file_path); cbn [snd]; [|eexists; apply leaves_consulted].
  destruct (out_open o (S (w_tick w)) file_path); cbn [snd]; eexists.
  - exact (leaves_trans _ _ _ _ _ _ _ (leaves_consulted w) (leaves_consulted _)).
  - exact (leaves_trans _ _ _ _ _ _ _
             (leaves_trans _ _ _ _ _ _ _ (leaves_consulted w) (leaves_consulted _))
             (leaves_called _ _)).
Qed.

Lemma read_care_plan_quiet (xlsx_path : pystr) : quiet (read_care_plan o xlsx_path).
Proof. intros w. eexists. apply leaves_consulted. Qed.

Lemma build_mom_care_pdf_quiet (plan : CarePlan) (out_path : path) :
  quiet (build_mom_care_pdf o plan out_path).
Proof. intros w. eexists. apply leaves_called. Qed.

End CallerFacts.

(** ** [_safe] *)

Section SafeFacts.
Context {rt : PyRuntime}.
Variable o : outside.
Hypothesis Hlog : log_writable o.

(** The outcome of the handler of [_safe]: of the notice it tries to
    send, only an exception that is not an [Exception] gets out. *)
Lemma safe_unfold {A : Type} (job step : pystr) (fn : action A) (w : world) :
  _safe o job step fn w =
  match fn w with
  | (Returned a, w1) =>
    (Returned (Some a), snd (log_event_now o job (py "SENT") step [] w1))
  | (Raised e, w1) =>
    if exc_is_Exception e then
      let w2 := snd (log_event_now o job (py "ERROR") step (error_text e) w1) in
      let sent := send_telegram o (error_notice job step (error_text e)) w2 in
      (match fst sent with
       | Raised e' => if exc_is_Exception e' then Returned None else Raised e'
       | Returned _ => Returned None
       end, snd sent)
    else (Raised e, w1)
  end.
Proof.
  unfold _safe, try_except_Exception, and_then.
  destruct (fn w) as [[a|e] w1].
  - rewrite !(log_event_now_writable o _ _ _ _ _ Hlog). reflexivity.
  - destruct (exc_is_Exception e); [|reflexivity].
    cbv beta iota zeta. rewrite !(log_event_now_writable o _ _ _ _ _ Hlog). cbn [snd].
    destruct (send_telegram o _ _) as [[[]|e'] w3]; cbn [fst snd]; [reflexivity|].
    destruct (exc_is_Exception e'); reflexivity.
Qed.

Lemma safe_leaves {A : Type} (job step : pystr) (fn : action A) (w : world) :
  quiet fn ->
  match _safe o job step fn w with
  | (Raised e, _) => exc_is_Exception e = false
  | (Returned r, w') =>
    exists t calls,
      match r with
      | Some a =>
        fst (fn w) = Returned a
        /\ leaves w w' [[strftime t; job; py "SENT"; firstn 400 step; []]] calls
      | None =>
        exists e,
          fst (fn w) = Raised e /\ exc_is_Exception e = true
          /\ leaves w w' [[strftime t; job; py "ERROR"; firstn 400 step;
                           firstn 400 (error_text e)]] calls
      end
  end.
Proof.
  intros Hquiet. rewrite safe_unfold.
  destruct (Hquiet w) as [calls1 Hfn].
  destruct (fn w) as [[a|e] w1] eqn:Hrun; cbn [snd fst] in *.
  - exists (out_now o (w_tick w1)), (calls1 ++ []). split; [reflexivity|].
    exact (leaves_trans _ _ _ _ _ _ _ Hfn
             (proj2 (log_event_now_leaves o job (py "SENT") step [] w1 Hlog))).
  - destruct (exc_is_Exception e) eqn:He; [|exact He].
    cbv zeta.
    pose proof (proj2 (log_event_now_leaves o job (py "ERROR") step (error_text e) w1 Hlog))
      as Hrec.
    set (w2 := snd (log_event_now o job (py "ERROR") step (error_text e) w1)) in *.
    destruct (send_telegram_quiet o (error_notice job step (error_text e)) w2)
      as [calls3 Hsend].
    pose proof (leaves_trans _ _ _ _ _ _ _ (leaves_trans _ _ _ _ _ _ _ Hfn Hrec) Hsend)
      as Hall.
    cbn [app] in Hall.
    destruct (send_telegram o _ w2) as [[[]|e'] w3]; cbn [fst snd] in *.
    + exists (out_now o (w_tick w1)), ((calls1 ++ []) ++ calls3), e. auto.
    + destruct (exc_is_Exception e') eqn:He'; [|exact He'].
      exists (out_now o (w_tick w1)), ((calls1 ++ []) ++ calls3), e. auto.
Qed.

(** X9.  While the log can be written to, [_safe] never raises an
    [Exception]; when it returns, the log has one
    more record than after the call of [fn]: the job, [SENT], the step
    and nothing else when [fn] returned, whose result is then returned;
    the job, [ERROR], the step and the error text, both cut at 400
    characters, when [fn] raised an [Exception], and the result is then
    [None]. *)
Theorem safe_logs_one_record {A : Type} (job step : pystr) (fn : action A) (w : world) :
  match _safe o job step fn w with
  | (Raised e, _) => exc_is_Exception e = false
  | (Returned r, w') =>
    exists t : datetime,
      match r, fst (fn w) with
      | Some a, Returned a' =>
        a = a'
        /\ log_base (w_log w')
           = log_base (w_log (snd (fn w)))
             ++ [[strftime t; job; py "SENT"; firstn 400 step; []]]
      | None, Raised e =>
        exc_is_Exception e = true
        /\ log_base (w_log w')
           = log_base (w_log (snd (fn w)))
             ++ [[strftime t; job; py "ERROR"; firstn 400 step;
                  firstn 400 (exc_type_name e ++ py ": " ++ exc_text e)]]
      | _, _ => False
      end
  end.
Proof.
  rewrite safe_unfold.
  destruct (fn w) as [[a|e] w1] eqn:Hrun; cbn [snd fst].
  - exists (out_now o (w_tick w1)). split; [reflexivity|].
    exact (proj1 (proj2 (log_event_now_leaves o job (py "SENT") step [] w1 Hlog))).
  - destruct (exc_is_Exception e) eqn:He; [|exact He].
    cbv zeta.
    pose proof (proj2 (log_event_now_leaves o job (py "ERROR") step (error_text e) w1 Hlog))
      as Hrec.
    set (w2 := snd (log_event_now o job (py "ERROR") step (error_text e) w1)) in *.
    destruct (send_telegram_quiet o (error_notice job step (error_text e)) w2)
      as [calls3 Hsend].
    pose proof (leaves_trans _ _ _ _ _ _ _ Hrec Hsend) as [Hall _].
    cbn [app] in Hall.
    destruct (send_telegram o _ w2) as [[[]|e'] w3]; cbn [fst snd] in *.
    + exists (out_now o (w_tick w1)). split; [reflexivity|exact Hall].
    + destruct (exc_is_Exception e') eqn:He'; [|exact He'].
      exists (out_now o (w_tick w1)). split; [reflexivity|exact Hall].
Qed.

End SafeFacts.

(** ** The jobs *)

Section JobSteps.
Context {rt : PyRuntime}.
Variable o : outside.
Hypothesis Hlog : log_writable o.

Lemma log_event_now_tick (job status message extra : pystr) (w : world) :
  w_tick (snd (log_event_now o job status message extra w)) = S (w_tick w).
Proof.
  unfold log_event_now.
  destruct (out_log_failure o (w_tick w) (w_log w)) as [[e left_behind]|]; reflexivity.
Qed.

Lemma send_telegram_succeeds (message : pystr) (w : world) :
  is_Returned (fst (send_telegram o message w)) = send_succeeds o (w_tick w) message.
Proof.
  unfold send_succeeds.
  destruct (send_telegram_cases o message w) as [[Hno ->]|[token [chat_id [Hcreds ->]]]];
    cbn [fst is_Returned].
  - destruct Hno as [-> | ->]; [reflexivity|].
    rewrite Bool.andb_false_r. reflexivity.
  - destruct Hcreds as [Htoken [Hchat [Htoken' Hchat']]]. rewrite Htoken, Hchat.
    cbn [env_text]. destruct token; [congruence|]. destruct chat_id; [congruence|].
    reflexivity.
Qed.

Lemma read_care_plan_returned (xlsx_path : pystr) (w : world) :
  is_Returned (fst (read_care_plan o xlsx_path w))
  = is_Return (read_care_plan_from_excel (out_workbooks o (w_tick w)) xlsx_path).
Proof.
  unfold read_care_plan. cbn [fst].
  destruct (read_care_plan_from_excel _ _); reflexivity.
Qed.

(** A step of [_safe] on an action that does not log: the one record it
    appends when it returns. *)
Lemma safe_step {A : Type} (job step : pystr) (fn : action A) (w : world) :
  quiet fn ->
  match _safe o job step fn w with
  | (Raised e, _) => exc_is_Exception e = false
  | (Returned r, w') =>
    exists t calls extra,
      leaves w w' [[strftime t; job; status_of (is_Returned (fst (fn w)));
                    firstn 400 step; extra]] calls
      /\ match r with
         | Some a => fst (fn w) = Returned a
         | None => is_Returned (fst (fn w)) = false
         end
  end.
Proof.
  intros Hquiet. pose proof (safe_leaves o Hlog job step fn w Hquiet) as H.
  destruct (_safe o job step fn w) as [[[a|]|e] w']; [| |exact H].
  - destruct H as [t [calls [Hfn Hl]]]. exists t, calls, []. rewrite Hfn. auto.
  - destruct H as [t [calls [e [Hfn [_ Hl]]]]].
    exists t, calls, (firstn 400 (error_text e)). rewrite Hfn. auto.
Qed.

End JobSteps.

(** One step of a job: a call of [log_event], a call of [_safe] on an
    action that does not log; and the growth of the log so far. *)
Ltac run_log Hl Ht :=
  match goal with
  | Hw : log_writable ?o' |- context [log_event_now ?o' ?j ?s ?m ?e ?w] =>
    let r := fresh "r" in
    let w' := fresh "w" in
    let Hr := fresh "Hr" in
    pose proof (log_event_now_leaves o' j s m e w Hw) as [Hr Hl];
    pose proof (log_event_now_tick o' j s m e w) as Ht;
    destruct (log_event_now o' j s m e w) as [r w'];
    cbn [fst snd] in Hr, Hl, Ht; subst r
  end.

Ltac run_safe Hl Hr Hquiet :=
  match goal with
  | Hw : log_writable ?o' |- context [_safe ?o' ?j ?s ?fn ?w] =>
    let r := fresh "r" in
    let e := fresh "e" in
    let w' := fresh "w" in
    let H := fresh "H" in
    let t := fresh "t" in
    let calls := fresh "calls" in
    let extra := fresh "extra" in
    pose proof (safe_step o' Hw j s fn w Hquiet) as H;
    destruct (_safe o' j s fn w) as [[r|e] w']; [|first [exact H|right; exact H]];
    destruct H as [t [calls [extra [Hl Hr]]]]
  end.

Ltac chain Hacc Hl :=
  let H := fresh "H" in
  pose proof (leaves_trans _ _ _ _ _ _ _ Hacc Hl) as H; clear Hacc Hl; rename H into Hacc.

Section JobFacts.
Context {rt : PyRuntime}.
Variable o : outside.
Hypothesis Hlog : log_writable o.

(** X10.  While the log can be written to, [weekly_call_job] raises only
    what is not an [Exception]; when it
    returns it has appended three records to the log: [STARTED], the
    reminder as [SENT] or, when it could not be sent, as [ERROR], and
    [DONE]. *)
Theorem weekly_call_job_log (w : world) :
  match weekly_call_job o w with
  | (Raised e, _) => exc_is_Exception e = false
  | (Returned _, w') =>
    exists records calls,
      leaves w w' records calls
      /\ map record_summary records
         = weekly_call_log (send_succeeds o (S (w_tick w)) weekly_call_text)
  end.
Proof.
  unfold weekly_call_job, and_then. cbv zeta.
  run_log Hacc Ht1. cbn [snd].
  run_safe Hl2 Hr2 (send_telegram_quiet o weekly_call_text). chain Hacc Hl2.
  run_log Hl3 Ht3. chain Hacc Hl3.
  rewrite send_telegram_succeeds, Ht1 in Hacc.
  eexists _, _. split; [exact Hacc|reflexivity].
Qed.

Lemma read_care_plan_plan (xlsx_path : pystr) (w : world) (plan : CarePlan) :
  fst (read_care_plan o xlsx_path w) = Returned plan ->
  read_care_plan_from_excel (out_workbooks o (w_tick w)) xlsx_path = Return plan.
Proof.
  unfold read_care_plan. cbn [fst].
  destruct (read_care_plan_from_excel _ _); [intros [= ->]; reflexivity|discriminate].
Qed.

End JobFacts.

(** ** The jobs when everything works, and without credentials *)

Section JobRuns.
Context {rt : PyRuntime}.
Variable o : outside.

Lemma safe_returned {A : Type} (Hlog : log_writable o) (job step : pystr) (fn : action A)
    (w w1 : world) (a : A) (calls : list call) :
  fn w = (Returned a, w1) ->
  leaves w w1 [] calls ->
  exists w',
    _safe o job step fn w = (Returned (Some a), w')
    /\ leaves w w' [[strftime (out_now o (w_tick w1)); job; py "SENT";
                     firstn 400 step; []]] calls
    /\ w_tick w' = S (w_tick w1).
Proof.
  intros Hfn Hl. rewrite (safe_unfold o Hlog), Hfn.
  eexists. split; [reflexivity|]. split; [|apply log_event_now_tick].
  pose proof (leaves_trans _ _ _ _ _ _ _ Hl
                (proj2 (log_event_now_leaves o job (py "SENT") step [] w1 Hlog))) as H.
  rewrite app_nil_r in H. exact H.
Qed.

Lemma credentials_truthy (token chat_id : pystr) :
  credentials o token chat_id -> ~ no_credentials o.
Proof.
  intros [Htoken [Hchat [Htoken' Hchat']]] [H|H].
  - rewrite Htoken in H. destruct token; [congruence|discriminate].
  - rewrite Hchat in H. destruct chat_id; [congruence|discriminate].
Qed.

Lemma credentials_unique (token chat_id token' chat_id' : pystr) :
  credentials o token chat_id -> credentials o token' chat_id' ->
  token' = token /\ chat_id' = chat_id.
Proof.
  intros [Htoken [Hchat _]] [Htoken' [Hchat' _]]. split; congruence.
Qed.

Lemma send_telegram_posted (token chat_id message : pystr) (w : world) :
  credentials o token chat_id ->
  send_telegram o message w
  = (post_result o (w_tick w) (message_request token chat_id message),
     called (RequestsPost (message_request token chat_id message)) w).
Proof.
  intros Hcreds.
  destruct (send_telegram_cases o message w) as [[Hno _]|[token' [chat_id' [Hcreds' ->]]]].
  - destruct (credentials_truthy _ _ Hcreds Hno).
  - destruct (credentials_unique _ _ _ _ Hcreds Hcreds') as [-> ->]. reflexivity.
Qed.

Lemma send_telegram_refused (message : pystr) (w : world) :
  no_credentials o -> send_telegram o message w = (Raised missing_credentials, w).
Proof.
  intros Hno.
  destruct (send_telegram_cases o message w) as [[_ ->]|[token [chat_id [Hcreds _]]]];
    [reflexivity|].
  destruct (credentials_truthy _ _ Hcreds Hno).
Qed.

Lemma send_document_posted (token chat_id : pystr) (file_path : path) (caption : pystr)
    (w : world) :
  credentials o token chat_id ->
  out_exists o (w_tick w) file_path = true ->
  out_open o (S (w_tick w)) file_path = None ->
  send_document o file_path caption w
  = (post_result o (S (S (w_tick w))) (document_request token chat_id file_path caption),
     called (RequestsPost (document_request token chat_id file_path caption))
            (consulted (consulted w))).
Proof.
  intros Hcreds Hexists Hopen.
  destruct (send_document_cases o file_path caption w)
    as [[Hno _]|[token' [chat_id' [Hcreds' ->]]]].
  - destruct (credentials_truthy _ _ Hcreds Hno).
  - destruct (credentials_unique _ _ _ _ Hcreds Hcreds') as [-> ->].
    rewrite Hexists, Hopen. reflexivity.
Qed.

(** X13.  With everything working, [monthly_support_job] returns having logged
    [STARTED], four steps as [SENT] and [DONE], and having made three
    calls: the document built from the plan that was read, under the name
    of the month in [out], that document posted with its caption, and
    the text of the plan as [format_plan_for_telegram] gives it, under
    its two lines of heading. *)
Theorem monthly_support_job_delivers (w : world) (token chat_id : pystr) (plan : CarePlan) :
  obliging o token chat_id plan ->
  exists (w' : world) (now : datetime) (records : list csv_record),
    monthly_support_job o w = (Returned tt, w')
    /\ leaves w w' records
         [ BuildDocument plan [py "out"; py "Mom_Care_Plan_" ++ strftime_Ym now ++ py ".pdf"];
           RequestsPost
             (PostForm (py "https://api.telegram.org/bot" ++ token ++ py "/sendDocument")
                       [(py "chat_id", chat_id);
                        (py "caption",
                         lit_page ++ py " Mom Care Plan (" ++ strftime_Ym now ++ py ")")]
                       [(py "document",
                         (py "Mom_Care_Plan_" ++ strftime_Ym now ++ py ".pdf",
                          [py "out"; py "Mom_Care_Plan_" ++ strftime_Ym now ++ py ".pdf"]))]);
           RequestsPost
             (PostJson (py "https://api.telegram.org/bot" ++ token ++ py "/sendMessage")
                       [(py "chat_id", chat_id);
                        (py "text",
                         (lit_calendar ++ py " Monthly Support Reminder" ++ [10]
                          ++ py "Today is your scheduled transfer date." ++ [10; 10])
                         ++ format_plan_for_telegram plan)]) ]
    /\ map record_summary records = monthly_support_log true true true true.
Proof.
  intros [Hcreds [Hpost [Hexists [Hopen [Hbuild [Hread Hlog]]]]]].
  unfold monthly_support_job, and_then. cbv zeta.
  run_log Hacc Ht1. cbn [snd].
  destruct (safe_returned Hlog (py "monthly_support") (py "read_excel_plan")
              (read_care_plan o PLAN_PATH) w0 (consulted w0) plan []) as [w1 [-> [Hl2 Ht2]]].
  { unfold read_care_plan. rewrite Hread. reflexivity. }
  { apply leaves_consulted. }
  chain Hacc Hl2. unfold datetime_now. cbv beta iota.
  pose proof (leaves_consulted w1) as Hl3. chain Hacc Hl3.
  set (stamp := strftime_Ym (out_now o (w_tick w1))).
  set (pdf_path := path_div PDF_DIR (py "Mom_Care_Plan_" ++ stamp ++ py ".pdf")).
  destruct (safe_returned Hlog (py "monthly_support") (py "build_pdf")
              (build_mom_care_pdf o plan pdf_path) (consulted w1)
              (called (BuildDocument plan pdf_path) (consulted w1)) pdf_path
              [BuildDocument plan pdf_path]) as [w2 [-> [Hl4 Ht4]]].
  { unfold build_mom_care_pdf. rewrite Hbuild. reflexivity. }
  { apply leaves_called. }
  chain Hacc Hl4.
  destruct (safe_returned Hlog (py "monthly_support") (py "send_pdf_to_telegram")
              (send_document o pdf_path (pdf_caption stamp)) w2
              (called (RequestsPost (document_request token chat_id pdf_path
                                       (pdf_caption stamp)))
                      (consulted (consulted w2))) tt
              [RequestsPost (document_request token chat_id pdf_path (pdf_caption stamp))])
    as [w3 [-> [Hl5 Ht5]]].
  { rewrite (send_document_posted token chat_id) by auto. rewrite Hpost. reflexivity. }
  { exact (leaves_trans _ _ _ _ _ _ _
             (leaves_trans _ _ _ _ _ _ _ (leaves_consulted w2) (leaves_consulted _))
             (leaves_called _ _)). }
  chain Hacc Hl5. unfold ret. cbv beta iota.
  destruct (safe_returned Hlog (py "monthly_support") (py "send_text_breakdown")
              (send_telegram o (monthly_text plan)) w3
              (called (RequestsPost (message_request token chat_id (monthly_text plan))) w3)
              tt [RequestsPost (message_request token chat_id (monthly_text plan))])
    as [w4 [-> [Hl6 Ht6]]].
  { rewrite (send_telegram_posted token chat_id) by auto. rewrite Hpost. reflexivity. }
  { apply leaves_called. }
  chain Hacc Hl6.
  run_log Hl7 Ht7. chain Hacc Hl7.
  exists w5, (out_now o (w_tick w1)). eexists. split; [reflexivity|].
  split; [exact Hacc|reflexivity].
Qed.

End JobRuns.

Lemma sample_outside_obliging :
  obliging sample_outside (py "110201543:AAHdqTcv") (py "42") scenario_plan.
Proof.
  split; [|split; [|split; [|split; [|split; [|split]]]]].
  - split; [reflexivity|]. split; [reflexivity|]. split; discriminate.
  - intros t req. reflexivity.
  - intros t p. reflexivity.
  - intros t p. reflexivity.
  - intros t pl p. reflexivity.
  - intros t. vm_compute. reflexivity.
  - intros t file. reflexivity.
Qed.

Lemma monthly_support_job_sample :
  exists w' : world,
    monthly_support_job sample_outside first_world = (Returned tt, w')
    /\ length (w_calls w') = 3%nat.
Proof.
  destruct (monthly_support_job_delivers sample_outside first_world _ _ _
              sample_outside_obliging) as [w' [now [records [Hrun [[_ Hcalls] _]]]]].
  exists w'. split; [exact Hrun|]. rewrite Hcalls. reflexivity.
Defined.

Section MoreJobRuns.
Context {rt : PyRuntime}.
Variable o : outside.

(** X14.  With everything working, [emergency_savings_job] posts one message:
    the reminder with the amount of the first item whose category, in
    lower case, contains "emergency", or the general reminder when the
    plan has no such item. *)
Theorem emergency_savings_job_reminds (w : world) (token chat_id : pystr) (plan : CarePlan) :
  obliging o token chat_id plan ->
  exists (w' : world) (records : list csv_record),
    emergency_savings_job o w = (Returned tt, w')
    /\ leaves w w' records
         [ RequestsPost
             (PostJson (py "https://api.telegram.org/bot" ++ token ++ py "/sendMessage")
                [(py "chat_id", chat_id);
                 (py "text",
                  match find (fun i => str_contains (py "emergency") (str_lower (category i)))
                             (items plan) with
                  | Some emergency => emergency_amount_text emergency
                  | None => generic_emergency_text
                  end)]) ]
    /\ map record_summary records
       = emergency_savings_log true (has_emergency_item (Return plan)) true.
Proof.
  intros [Hcreds [Hpost [_ [_ [_ [Hread Hlog]]]]]].
  unfold emergency_savings_job, and_then. cbv zeta.
  run_log Hacc Ht1. cbn [snd].
  destruct (safe_returned o Hlog (py "emergency_savings") (py "read_excel_plan")
              (read_care_plan o PLAN_PATH) w0 (consulted w0) plan []) as [w1 [-> [Hl2 Ht2]]].
  { unfold read_care_plan. rewrite Hread. reflexivity. }
  { apply leaves_consulted. }
  chain Hacc Hl2. cbv beta iota. cbn [has_emergency_item].
  fold (emergency_item plan).
  destruct (emergency_item plan) as [emergency|].
  - destruct (safe_returned o Hlog (py "emergency_savings") (py "send_emergency_amount_reminder")
                (send_telegram o (emergency_amount_text emergency)) w1
                (called (RequestsPost (message_request token chat_id
                                         (emergency_amount_text emergency))) w1)
                tt [RequestsPost (message_request token chat_id
                                    (emergency_amount_text emergency))])
      as [w2 [-> [Hl3 Ht3]]].
    { rewrite (send_telegram_posted o token chat_id) by auto. rewrite Hpost. reflexivity. }
    { apply leaves_called. }
    chain Hacc Hl3. unfold ret. cbv beta iota.
    run_log Hl4 Ht4. chain Hacc Hl4.
    eexists _, _. split; [reflexivity|]. split; [exact Hacc|reflexivity].
  - destruct (safe_returned o Hlog (py "emergency_savings") (py "send_generic_emergency_reminder")
                (send_telegram o generic_emergency_text) w1
                (called (RequestsPost (message_request token chat_id
                                         generic_emergency_text)) w1)
                tt [RequestsPost (message_request token chat_id generic_emergency_text)])
      as [w2 [-> [Hl3 Ht3]]].
    { rewrite (send_telegram_posted o token chat_id) by auto. rewrite Hpost. reflexivity. }
    { apply leaves_called. }
    chain Hacc Hl3. unfold ret. cbv beta iota.
    run_log Hl4 Ht4. chain Hacc Hl4.
    eexists _, _. split; [reflexivity|]. split; [exact Hacc|reflexivity].
Qed.

Lemma safe_refused (job step message : pystr) (w : world) :
  log_writable o ->
  no_credentials o ->
  _safe o job step (send_telegram o message) w
  = (Returned None,
     snd (log_event_now o job (py "ERROR") step (error_text missing_credentials) w)).
Proof.
  intros Hlog Hno. rewrite (safe_unfold o Hlog). rewrite !send_telegram_refused by exact Hno.
  cbn [exc_is_Exception missing_credentials]. cbv zeta.
  rewrite send_telegram_refused by exact Hno. reflexivity.
Qed.

(** X15.  Without credentials, and with a log that can be written to,
    [weekly_call_job] makes no call at all; it logs
    [STARTED], the reminder as [ERROR] with the text of the
    [RuntimeError], and [DONE], and returns. *)
Theorem weekly_call_job_without_credentials (w : world) :
  log_writable o ->
  no_credentials o ->
  exists (w' : world) (t1 t2 t3 : datetime),
    weekly_call_job o w = (Returned tt, w')
    /\ w_calls w' = w_calls w
    /\ log_base (w_log w')
       = log_base (w_log w)
         ++ [ [strftime t1; py "weekly_call"; py "STARTED";
               py "Weekly call job triggered"; []];
              [strftime t2; py "weekly_call"; py "ERROR"; py "send_call_reminder";
               py "RuntimeError: Missing TELEGRAM_BOT_TOKEN or TELEGRAM_CHAT_ID in .env"];
              [strftime t3; py "weekly_call"; py "DONE";
               py "Weekly call job completed"; []] ].
Proof.
  intros Hlog Hno. unfold weekly_call_job, and_then. cbv zeta.
  run_log Hacc Ht1. cbn [snd].
  rewrite safe_refused by assumption.
  pose proof (proj2 (log_event_now_leaves o (py "weekly_call") (py "ERROR")
                       (py "send_call_reminder") (error_text missing_credentials) w0 Hlog))
    as Hl2.
  set (w1 := snd (log_event_now o (py "weekly_call") (py "ERROR") (py "send_call_reminder")
                    (error_text missing_credentials) w0)) in *.
  clearbody w1. chain Hacc Hl2.
  run_log Hl3 Ht3. chain Hacc Hl3.
  destruct Hacc as [Hrecords Hcalls].
  eexists _, _, _, _. split; [reflexivity|]. split.
  - rewrite Hcalls. apply app_nil_r.
  - rewrite Hrecords. reflexivity.
Qed.

(** X16.  With a log that can be written to, [main] reaches the scheduler
    only when its first message got through:
    otherwise it raises, and nothing has been logged.  When it gets
    there, the three jobs are registered, and the log has [STARTED] and
    the outcome of the second message, which does not stop the start. *)
Theorem main_starts_after_first_message (w : world) :
  log_writable o ->
  match main o w with
  | (Returned sched, w') =>
    send_succeeds o (w_tick w) live_text = true
    /\ map job_id (sched_jobs sched)
       = [py "monthly_support"; py "weekly_call"; py "emergency_savings"]
    /\ exists records calls,
         leaves w w' records calls
         /\ map record_summary records
            = [ (py "system", py "STARTED", py "Scheduler started");
                (py "system", status_of (send_succeeds o (S (S (w_tick w))) startup_text),
                 py "startup_message") ]
  | (Raised e, w') =>
    (send_succeeds o (w_tick w) live_text = false /\ w_log w' = w_log w)
    \/ exc_is_Exception e = false
  end.
Proof.
  intros Hlog. unfold main, and_then.
  pose proof (send_telegram_succeeds o live_text w) as Hsent.
  destruct (send_telegram_cases o live_text w) as [[Hno Hrun]|[token [chat_id [Hcreds Hrun]]]];
    rewrite Hrun in *; cbn [fst is_Returned] in Hsent.
  - left. split; [symmetry; exact Hsent|reflexivity].
  - destruct (post_result o (w_tick w) _) as [[]|e]; cbn [is_Returned] in Hsent.
    + pose proof (leaves_called (RequestsPost (message_request token chat_id live_text)) w)
        as Hacc.
      set (w0 := called _ w) in *.
      assert (Ht0 : w_tick w0 = S (w_tick w)) by reflexivity. clearbody w0.
      unfold start_scheduler, and_then. cbv zeta.
      run_log Hl1 Ht1. chain Hacc Hl1.
      run_safe Hl2 Hr2 (send_telegram_quiet o startup_text). chain Hacc Hl2.
      rewrite send_telegram_succeeds, Ht1, Ht0 in Hacc.
      unfold ret. split; [symmetry; exact Hsent|]. split; [reflexivity|].
      eexists _, _. split; [exact Hacc|reflexivity].
    + left. split; [symmetry; exact Hsent|reflexivity].
Qed.

End MoreJobRuns.

(** ** How often the steps consult the outside, and what the jobs log *)

Section StepTicks.
Context {rt : PyRuntime}.
Variable o : outside.
Hypothesis Hlog : log_writable o.

Lemma configured_cases :
  (no_credentials o /\ configured o = false)
  \/ (exists token chat_id, credentials o token chat_id /\ configured o = true).
Proof.
  unfold configured.
  destruct (get_creds_cases o first_world) as [[Hno _]|[token [chat_id [Hcreds _]]]].
  - left. split; [exact Hno|]. destruct Hno as [-> | ->]; [reflexivity|apply andb_false_r].
  - right. exists token, chat_id. split; [exact Hcreds|].
    destruct Hcreds as [-> [-> [Htoken Hchat]]].
    destruct token; [congruence|]. destruct chat_id; [congruence|]. reflexivity.
Qed.

Lemma send_telegram_tick (message : pystr) (w : world) :
  w_tick (snd (send_telegram o message w)) = (send_ticks o + w_tick w)%nat.
Proof.
  unfold send_ticks.
  destruct configured_cases as [[Hno ->]|[token [chat_id [Hcreds ->]]]].
  - rewrite (send_telegram_refused o) by exact Hno. reflexivity.
  - rewrite (send_telegram_posted o token chat_id) by exact Hcreds. reflexivity.
Qed.

Lemma send_document_run (file_path : path) (caption : pystr) (w : world) :
  is_Returned (fst (send_document o file_path caption w))
  = document_succeeds o (w_tick w) file_path caption
  /\ w_tick (snd (send_document o file_path caption w))
     = (document_ticks o (w_tick w) file_path + w_tick w)%nat.
Proof.
  unfold document_succeeds, document_ticks. fold (configured o).
  destruct (send_document_cases o file_path caption w)
    as [[Hno ->]|[token [chat_id [Hcreds ->]]]];
    destruct configured_cases as [[Hno' ->]|[token' [chat_id' [Hcreds' ->]]]];
    try (exfalso; eapply credentials_truthy; eassumption).
  - split; reflexivity.
  - destruct Hcreds as [Htoken [Hchat _]]. rewrite Htoken, Hchat. cbn [env_text andb].
    destruct (out_exists o (w_tick w) file_path); [|split; reflexivity].
    destruct (out_open o (S (w_tick w)) file_path); split; reflexivity.
Qed.

Lemma build_mom_care_pdf_run (plan : CarePlan) (out_path : path) (w : world) :
  is_Returned (fst (build_mom_care_pdf o plan out_path w))
  = build_succeeds o (w_tick w) plan out_path
  /\ w_tick (snd (build_mom_care_pdf o plan out_path w)) = S (w_tick w).
Proof.
  unfold build_mom_care_pdf, build_succeeds. cbn [fst snd].
  destruct (out_reportlab o (w_tick w) plan out_path); split; reflexivity.
Qed.

(** How often a step of [_safe] consults the outside. *)
Lemma safe_tick {A : Type} (job step : pystr) (fn : action A) (w : world) :
  match _safe o job step fn w with
  | (Raised _, _) => True
  | (Returned _, w') =>
    w_tick w' = (safe_ticks o (is_Returned (fst (fn w))) + w_tick (snd (fn w)))%nat
  end.
Proof.
  rewrite (safe_unfold o Hlog).
  destruct (fn w) as [[a|e] w1]; cbn [fst snd is_Returned safe_ticks].
  - apply log_event_now_tick.
  - destruct (exc_is_Exception e); [|exact I]. cbv zeta.
    pose proof (send_telegram_tick (error_notice job step (error_text e))
                  (snd (log_event_now o job (py "ERROR") step (error_text e) w1))) as Ht.
    rewrite log_event_now_tick in Ht.
    destruct (send_telegram o _ _) as [[[]|e'] w3]; cbn [fst snd] in *.
    + rewrite Ht. lia.
    + destruct (exc_is_Exception e'); [|exact I]. rewrite Ht. lia.
Qed.

End StepTicks.

(** A step of [_safe], with the count of its consultations. *)
Ltac run_safe_t Hl Hr Ht Hquiet :=
  match goal with
  | Hw : log_writable ?o' |- context [_safe ?o' ?j ?s ?fn ?w] =>
    let r := fresh "r" in
    let e := fresh "e" in
    let w' := fresh "w" in
    let H := fresh "H" in
    let t := fresh "t" in
    let calls := fresh "calls" in
    let extra := fresh "extra" in
    pose proof (safe_step o' Hw j s fn w Hquiet) as H;
    pose proof (safe_tick o' Hw j s fn w) as Ht;
    destruct (_safe o' j s fn w) as [[r|e] w']; [|first [exact H|right; exact H]];
    destruct H as [t [calls [extra [Hl Hr]]]]
  end.

(** The moment of the last message, as the goal and as [Hacc] give it. *)
Ltac same_moment Hacc :=
  match type of Hacc with
  | context [send_succeeds ?o' ?a _] =>
    match goal with
    | |- context [send_succeeds o' ?b _] => replace b with a by lia
    end
  end.

Section JobOutcomes.
Context {rt : PyRuntime}.
Variable o : outside.
Hypothesis Hlog : log_writable o.

(** X11.  While the log can be written to, [monthly_support_job] raises
    only what is not an [Exception].  When it returns, the log has grown
    by [STARTED] and the outcome of reading the plan, and that is all
    when the plan could not be read: no [DONE] then.  When the plan was
    read, the outcome of building the document follows, that of sending
    it if it was built, and, whether or not it was built or sent, the
    outcome of sending the text, and [DONE].  Each outcome is that of the
    step at the moment the job gets to it: the document is built when the
    outside has been consulted four times and sent after six, and the
    text is sent once the handling of a failure, if there was one, is
    over. *)
Theorem monthly_support_job_log (w : world) :
  match monthly_support_job o w with
  | (Raised e, _) => exc_is_Exception e = false
  | (Returned _, w') =>
    exists records calls,
      leaves w w' records calls
      /\ map record_summary records
         = match read_care_plan_from_excel (out_workbooks o (1 + w_tick w)) PLAN_PATH with
           | Raise _ => monthly_support_log false false false false
           | Return plan =>
             let stamp := strftime_Ym (out_now o (3 + w_tick w)) in
             let pdf_path := path_div PDF_DIR (py "Mom_Care_Plan_" ++ stamp ++ py ".pdf") in
             let built := build_succeeds o (4 + w_tick w) plan pdf_path in
             let pdf := document_succeeds o (6 + w_tick w) pdf_path (pdf_caption stamp) in
             let before_text :=
               if built
               then (6 + w_tick w + document_ticks o (6 + w_tick w) pdf_path
                     + safe_ticks o pdf)%nat
               else (5 + w_tick w + safe_ticks o false)%nat in
             monthly_support_log true built pdf
               (send_succeeds o before_text (monthly_text plan))
           end
  end.
Proof.
  unfold monthly_support_job, and_then. cbv zeta.
  run_log Hacc Ht1. cbn [snd].
  run_safe_t Hl2 Hr2 Ht2 (read_care_plan_quiet o PLAN_PATH). chain Hacc Hl2.
  rewrite read_care_plan_returned, Ht1 in Hacc.
  cbn [Nat.add].
  destruct r as [plan|].
  - pose proof (read_care_plan_plan o PLAN_PATH w0 plan Hr2) as Hread.
    rewrite Hr2 in Ht2. rewrite Ht1 in Hread. rewrite Hread in *.
    cbn [is_Return is_Returned safe_ticks snd read_care_plan consulted w_tick Nat.add] in Ht2, Hacc.
    rewrite Ht1 in Ht2. clear Hr2. cbv zeta.
    unfold datetime_now. cbv beta iota.
    pose proof (leaves_consulted w1) as Hl3. chain Hacc Hl3.
    rewrite Ht2.
    set (stamp := strftime_Ym (out_now o (S (S (S (w_tick w)))))).
    set (pdf_path := path_div PDF_DIR (py "Mom_Care_Plan_" ++ stamp ++ py ".pdf")).
    run_safe_t Hl4 Hr4 Ht4 (build_mom_care_pdf_quiet o plan pdf_path).
    chain Hacc Hl4.
    destruct (build_mom_care_pdf_run o plan pdf_path (consulted w1)) as [Hb Hbt].
    cbn [consulted w_tick] in Hb, Hbt. rewrite Ht2 in Hb, Hbt.
    rewrite Hb in Hacc, Ht4. rewrite Hbt in Ht4.
    destruct r as [built|].
    + rewrite Hr4 in Hb. cbn [is_Returned] in Hb. rewrite <- Hb in *.
      cbn [safe_ticks Nat.add] in Ht4.
      assert (built = pdf_path) as ->.
      { revert Hr4. unfold build_mom_care_pdf. cbn [fst].
        destruct (out_reportlab o _ plan pdf_path); [discriminate|]. intros [= <-]. reflexivity. }
      run_safe_t Hl5 Hr5 Ht5 (send_document_quiet o pdf_path (pdf_caption stamp)).
      chain Hacc Hl5. unfold ret. cbv beta iota.
      destruct (send_document_run o pdf_path (pdf_caption stamp) w2) as [Hd Hdt].
      rewrite Ht4 in Hd, Hdt. rewrite Hd in Hacc, Ht5. rewrite Hdt in Ht5.
      run_safe_t Hl6 Hr6 Ht6 (send_telegram_quiet o (monthly_text plan)). chain Hacc Hl6.
      rewrite send_telegram_succeeds, Ht5 in Hacc.
      run_log Hl7 Ht7. chain Hacc Hl7.
      same_moment Hacc.
      eexists _, _. split; [exact Hacc|reflexivity].
    + rewrite Hr4 in Hb. rewrite <- Hb in *. unfold ret. cbv beta iota.
      run_safe_t Hl6 Hr6 Ht6 (send_telegram_quiet o (monthly_text plan)). chain Hacc Hl6.
      rewrite send_telegram_succeeds, Ht4 in Hacc.
      run_log Hl7 Ht7. chain Hacc Hl7.
      same_moment Hacc.
      eexists _, _. split; [exact Hacc|reflexivity].
  - rewrite read_care_plan_returned, Ht1 in Hr2.
    destruct (read_care_plan_from_excel (out_workbooks o (S (w_tick w))) PLAN_PATH);
      [discriminate|].
    unfold ret. cbv beta iota.
    eexists _, _. split; [exact Hacc|reflexivity].
Qed.

End JobOutcomes.

Section EmergencyOutcomes.
Context {rt : PyRuntime}.
Variable o : outside.
Hypothesis Hlog : log_writable o.

(** X12.  While the log can be written to, [emergency_savings_job] raises
    only what is not an [Exception]; when
    it returns it has appended four records: [STARTED], the outcome of
    reading the plan, the outcome of one reminder, and [DONE], also when
    the plan could not be read.  The reminder is the one with the amount
    exactly when the plan was read and has an item whose category, in
    lower case, contains "emergency", and it is logged as [SENT] exactly
    when it gets through at the moment the job sends it. *)
Theorem emergency_savings_job_log (w : world) :
  match emergency_savings_job o w with
  | (Raised e, _) => exc_is_Exception e = false
  | (Returned _, w') =>
    exists records calls,
      leaves w w' records calls
      /\ map record_summary records
         = let read := read_care_plan_from_excel (out_workbooks o (1 + w_tick w)) PLAN_PATH in
           emergency_savings_log
             (is_Return read) (has_emergency_item read)
             (send_succeeds o (2 + w_tick w + safe_ticks o (is_Return read))%nat
                            (emergency_reminder read))
  end.
Proof.
  unfold emergency_savings_job, and_then. cbv zeta.
  run_log Hacc Ht1. cbn [snd].
  run_safe_t Hl2 Hr2 Ht2 (read_care_plan_quiet o PLAN_PATH). chain Hacc Hl2.
  rewrite read_care_plan_returned, Ht1 in Hacc, Ht2.
  cbn [snd read_care_plan consulted w_tick] in Ht2. rewrite Ht1 in Ht2.
  cbn [Nat.add].
  destruct r as [plan|].
  - apply read_care_plan_plan in Hr2. rewrite Ht1 in Hr2. rewrite Hr2 in *.
    cbn [is_Return has_emergency_item emergency_reminder] in *.
    destruct (emergency_item plan) as [emergency|].
    + run_safe_t Hl3 Hr3 Ht3 (send_telegram_quiet o (emergency_amount_text emergency)).
      chain Hacc Hl3. unfold ret. cbv beta iota.
      rewrite send_telegram_succeeds, Ht2 in Hacc.
      run_log Hl4 Ht4. chain Hacc Hl4.
      same_moment Hacc.
      eexists _, _. split; [exact Hacc|reflexivity].
    + run_safe_t Hl3 Hr3 Ht3 (send_telegram_quiet o generic_emergency_text).
      chain Hacc Hl3. unfold ret. cbv beta iota.
      rewrite send_telegram_succeeds, Ht2 in Hacc.
      run_log Hl4 Ht4. chain Hacc Hl4.
      same_moment Hacc.
      eexists _, _. split; [exact Hacc|reflexivity].
  - rewrite read_care_plan_returned, Ht1 in Hr2.
    destruct (read_care_plan_from_excel (out_workbooks o (S (w_tick w))) PLAN_PATH);
      [discriminate|].
    cbn [is_Return has_emergency_item emergency_reminder] in *.
    run_safe_t Hl3 Hr3 Ht3 (send_telegram_quiet o generic_emergency_text).
    chain Hacc Hl3.
    rewrite send_telegram_succeeds, Ht2 in Hacc.
    run_log Hl4 Ht4. chain Hacc Hl4.
    same_moment Hacc.
    eexists _, _. split; [exact Hacc|reflexivity].
Qed.

End EmergencyOutcomes.

(** ** The tables of the document *)

Lemma budget_data_eq (plan : CarePlan) :
  budget_data plan = budget_header :: map budget_row (items plan) ++ [budget_total_row plan].
Proof.
  unfold budget_data. rewrite fold_left_append. reflexivity.
Qed.

(** X17.  The budget table has a header, one row per item of the plan, in the
    order of the plan, and the row of the total; each of its rows has as
    many cells as the table has column widths, and so has each row of the
    income table. *)
Theorem tables_are_rectangular (plan : CarePlan) :
  length (budget_data plan) = (length (items plan) + 2)%nat
  /\ Forall (fun cells => length cells = budget_columns) (budget_data plan)
  /\ Forall (fun cells => length cells = income_columns) (income_table plan)
  /\ nth_error (budget_data plan) 0 = Some budget_header
  /\ (forall i item, nth_error (items plan) i = Some item ->
        nth_error (budget_data plan) (S i) = Some (budget_row item))
  /\ nth_error (budget_data plan) (S (length (items plan))) = Some (budget_total_row plan).
Proof.
  rewrite budget_data_eq. repeat split.
  - cbn [length]. rewrite length_app, length_map. cbn [length]. lia.
  - constructor; [reflexivity|]. apply Forall_app. split.
    + apply Forall_map. apply Forall_forall. intros item _. reflexivity.
    + constructor; [reflexivity|constructor].
  - repeat constructor.
  - intros i item Hitem. cbn [nth_error].
    rewrite nth_error_app1 by (rewrite length_map; apply nth_error_Some; congruence).
    rewrite nth_error_map, Hitem. reflexivity.
  - cbn [nth_error]. rewrite nth_error_app2 by (rewrite length_map; lia).
    rewrite length_map, Nat.sub_diag. reflexivity.
Qed.

Lemma emergency_savings_job_sample :
  exists w' : world,
    emergency_savings_job sample_outside first_world = (Returned tt, w')
    /\ length (w_calls w') = 1%nat.
Proof.
  destruct (emergency_savings_job_reminds sample_outside first_world _ _ _
              sample_outside_obliging) as [w' [records [Hrun [[_ Hcalls] _]]]].
  exists w'. split; [exact Hrun|]. rewrite Hcalls. reflexivity.
Defined.

Lemma weekly_call_job_unconfigured :
  exists w' : world,
    weekly_call_job unconfigured_outside first_world = (Returned tt, w')
    /\ w_calls w' = [].
Proof.
  destruct (weekly_call_job_without_credentials unconfigured_outside first_world)
    as [w' [t1 [t2 [t3 [Hrun [Hcalls _]]]]]].
  - intros t file. reflexivity.
  - right. reflexivity.
  - exists w'. split; [exact Hrun|exact Hcalls].
Defined.

Section PlanNotRead.
Context {rt : PyRuntime}.
Variable o : outside.
Hypothesis Hlog : log_writable o.

(** X18.  When the plan cannot be read, for want of the file, of a file
    that is a workbook, of the sheet or of an anchor, or for an overflow,
    and the log can be written to, [monthly_support_job] logs [STARTED]
    and the error, with the type and the text of the exception, and
    stops there: no document is built, no text is sent, and the only call
    it may make is the post of the error notice. *)
Theorem monthly_support_job_without_plan (w : world) (e : exn) :
  read_care_plan_from_excel (out_workbooks o (S (w_tick w))) PLAN_PATH = Raise e ->
  match monthly_support_job o w with
  | (Raised e', _) => exc_is_Exception e' = false
  | (Returned _, w') =>
    exists (t1 t2 : datetime) (calls : list call),
      leaves w w'
        [ [strftime t1; py "monthly_support"; py "STARTED"; py "Monthly job triggered"; []];
          [strftime t2; py "monthly_support"; py "ERROR"; py "read_excel_plan";
           firstn 400 (exc_type_name (exception_of_exn o e) ++ py ": " ++ out_exn_text o e)] ]
        calls
      /\ (calls = []
          \/ exists token chat_id,
               calls = [ RequestsPost
                           (PostJson (py "https://api.telegram.org/bot" ++ token
                                      ++ py "/sendMessage")
                              [(py "chat_id", chat_id);
                               (py "text",
                                lit_warning ++ py " MomCareBot monthly_support error at '"
                                ++ py "read_excel_plan" ++ py "': "
                                ++ exc_type_name (exception_of_exn o e) ++ py ": "
                                ++ out_exn_text o e)]) ])
  end.
Proof.
  intros Hread. unfold monthly_support_job, and_then. cbv zeta.
  run_log Hacc Ht1. cbn [snd].
  rewrite (safe_unfold o Hlog). unfold read_care_plan at 1. rewrite Ht1, Hread.
  cbn [exc_is_Exception exception_of_exn]. cbv zeta.
  pose proof (proj2 (log_event_now_leaves o (py "monthly_support") (py "ERROR")
                       (py "read_excel_plan") (error_text (exception_of_exn o e))
                       (consulted w0) Hlog)) as Hl2.
  set (w1 := snd (log_event_now o (py "monthly_support") (py "ERROR") (py "read_excel_plan")
                    (error_text (exception_of_exn o e)) (consulted w0))) in *.
  clearbody w1.
  pose proof (leaves_trans _ _ _ _ _ _ _ (leaves_consulted w0) Hl2) as Hl2'. clear Hl2.
  chain Hacc Hl2'.
  destruct (send_telegram_cases o
              (error_notice (py "monthly_support") (py "read_excel_plan")
                            (error_text (exception_of_exn o e))) w1)
    as [[_ ->]|[token [chat_id [_ ->]]]]; cbn [fst snd].
  - cbn [exc_is_Exception missing_credentials]. unfold ret.
    eexists _, _, _. split; [exact Hacc|]. left. reflexivity.
  - pose proof (leaves_called
                  (RequestsPost
                     (message_request token chat_id
                        (error_notice (py "monthly_support") (py "read_excel_plan")
                                      (error_text (exception_of_exn o e))))) w1) as Hl3.
    chain Hacc Hl3.
    destruct (post_result o (w_tick w1) _) as [[]|e'].
    + unfold ret. eexists _, _, _. split; [exact Hacc|]. right.
      exists token, chat_id. reflexivity.
    + destruct (exc_is_Exception e') eqn:He'; [|exact He'].
      unfold ret. eexists _, _, _. split; [exact Hacc|]. right.
      exists token, chat_id. reflexivity.
Qed.

End PlanNotRead.

Lemma monthly_support_job_without_workbook :
  match monthly_support_job outside_without_workbook first_world with
  | (Raised e', _) => exc_is_Exception e' = false
  | (Returned _, w') =>
    exists records, w_log w' = Some (fieldnames :: records) /\ length records = 2%nat
  end.
Proof.
  pose proof (monthly_support_job_without_plan outside_without_workbook
                (fun _ _ => eq_refl) first_world FileNotFoundError eq_refl) as H.
  destruct (monthly_support_job outside_without_workbook first_world) as [[[]|e'] w'];
    [|exact H].
  destruct H as [t1 [t2 [calls [[Hlog _] _]]]].
  destruct (w_log w') as [records|]; cbn [log_base] in Hlog; [|discriminate].
  eexists. split; [rewrite Hlog; reflexivity|reflexivity].
Defined.

(** ** From the rows of the sheet to the lines of the message *)

Section ReadAndFormat.
Context {rt : PyRuntime}.

(** X19.  What [test_reader.py] prints for a workbook from which a plan is
    read: after the five lines of the head, one line per item row of the
    breakdown region, in the order of the rows, then the empty line and
    the reminder. *)
Theorem printed_plan_follows_the_rows (fs : filesystem) (wb : workbook) (ws : worksheet)
    (h : nat) (text : pystr) :
  fs (py "data/Mom_Care_Monthly_Support_Plan.xlsx") = Some (Workbook wb) ->
  sheet_by_name wb (py "Mom Monthly Support Plan") = Some ws ->
  find_row ws (py "MONTHLY SUPPORT BREAKDOWN") = Some h ->
  test_reader fs = Return text ->
  exists plan,
    care_plan_of_worksheet ws = Return plan
    /\ text = str_join [10]
                ([title_line; income_line plan; support_line plan; []; py "Breakdown:"]
                 ++ map (fun rw => item_line (item_of_row rw))
                        (filter is_item_row (breakdown_rows ws h))
                 ++ [[]; reminder_line]).
Proof.
  intros Hfile Hsheet Hh. unfold test_reader.
  rewrite (read_care_plan_of_sheet fs _ wb ws Hfile Hsheet).
  destruct (care_plan_of_worksheet ws) as [plan|e] eqn:Hplan; cbn [bind]; [|discriminate].
  intros [= <-]. exists plan. split; [reflexivity|].
  unfold format_plan_for_telegram. rewrite plan_lines_eq.
  destruct (care_plan_returned ws plan Hplan)
    as [wr [mr [h' [w [m [st [_ [_ [Hh' [_ [_ [Hscan Heq]]]]]]]]]]]].
  assert (h' = h) by congruence. subst h'.
  assert (Hitems : items plan = map item_of_row (filter is_item_row (breakdown_rows ws h))).
  { rewrite Heq. cbn [items]. rewrite (scan_rows_items _ _ _ Hscan). reflexivity. }
  rewrite Hitems, map_map. reflexivity.
Qed.

End ReadAndFormat.

Lemma printed_scenario :
  exists plan,
    care_plan_of_worksheet scenario_sheet = Return plan
    /\ format_plan_for_telegram scenario_plan
       = str_join [10]
           ([title_line; income_line plan; support_line plan; []; py "Breakdown:"]
            ++ map (fun rw => item_line (item_of_row rw))
                   (filter is_item_row (breakdown_rows scenario_sheet 3))
            ++ [[]; reminder_line]).
Proof.
  apply (printed_plan_follows_the_rows (out_workbooks sample_outside 0) sample_workbook).
  - reflexivity.
  - reflexivity.
  - exact scenario_header.
  - unfold test_reader.
    rewrite (read_care_plan_of_sheet (out_workbooks sample_outside 0)
               (py "data/Mom_Care_Monthly_Support_Plan.xlsx")
               sample_workbook scenario_sheet eq_refl eq_refl).
    rewrite scenario_plan_read. reflexivity.
Defined.

(** ** Integers as text, and amounts read back *)

Lemma uint_codepoints_digits (d : Decimal.uint) :
  Forall (fun c => is_ascii_digit c = true) (uint_codepoints d).
Proof. induction d; cbn [uint_codepoints]; constructor; (reflexivity || assumption). Qed.

Lemma digits_value_acc (d : Decimal.uint) :
  forall acc : positive,
    fold_left (fun acc c => 10 * acc + (c - 48)) (uint_codepoints d) (Zpos acc)
    = Zpos (Pos.of_uint_acc d acc).
Proof.
  induction d; intros acc; cbn [uint_codepoints fold_left Pos.of_uint_acc];
    [reflexivity|..];
    rewrite <- IHd; f_equal; lia.
Qed.

Lemma digits_value_uint (d : Decimal.uint) :
  digits_value (uint_codepoints d) = Z.of_N (Pos.of_uint d).
Proof.
  unfold digits_value.
  induction d; cbn [uint_codepoints fold_left Pos.of_uint]; [reflexivity|exact IHd|..];
    apply (digits_value_acc d).
Qed.

Lemma digits_value_of_N (n : N) : digits_value (digits_of_N n) = Z.of_N n.
Proof.
  unfold digits_of_N. rewrite digits_value_uint.
  change (Pos.of_uint (N.to_uint n)) with (N.of_uint (N.to_uint n)).
  rewrite DecimalN.Unsigned.of_to. reflexivity.
Qed.

Lemma digits_of_N_digits (n : N) : Forall (fun c => is_ascii_digit c = true) (digits_of_N n).
Proof. apply uint_codepoints_digits. Qed.

Lemma digits_of_N_nonempty (n : N) : digits_of_N n <> [].
Proof.
  unfold digits_of_N. destruct n as [|p]; [discriminate|].
  cbn [N.to_uint]. pose proof (DecimalPos.Unsigned.to_uint_nonnil p) as H.
  destruct (Pos.to_uint p); [congruence|..]; discriminate.
Qed.

Section IntegerText.
Context {rt : PyRuntime}.

Lemma transform_ascii (s : pystr) :
  Forall (fun c => c < 127) s -> transform_decimal_and_space s = s.
Proof.
  induction 1 as [|c s Hc _ IH]; cbn [transform_decimal_and_space]; [reflexivity|].
  apply Z.ltb_lt in Hc. rewrite Hc, IH. reflexivity.
Qed.

Lemma drop_while_none (p : Z -> bool) (s : pystr) :
  Forall (fun c => p c = false) s -> drop_while p s = s.
Proof. destruct 1 as [|c s Hc _]; cbn [drop_while]; [reflexivity|]. rewrite Hc. reflexivity. Qed.

Lemma existsb_none (p : Z -> bool) (s : pystr) :
  Forall (fun c => p c = false) s -> existsb p s = false.
Proof.
  induction 1 as [|c s Hc _ IH]; cbn [existsb]; [reflexivity|]. rewrite Hc, IH. reflexivity.
Qed.

Lemma scan_digits_all (ds : pystr) :
  Forall (fun c => is_ascii_digit c = true) ds -> scan_digits ds = (ds, []).
Proof.
  induction 1 as [|c ds Hc _ IH]; cbn [scan_digits]; [reflexivity|].
  rewrite Hc, IH. reflexivity.
Qed.

Lemma sign_or_digit_facts (c : Z) :
  sign_or_digit c ->
  c < 127 /\ c_isspace c = false /\ py_isspace c = false /\ (c =? 95) = false
  /\ c <> 44 /\ c <> 0xC2 /\ c <> 71 /\ c <> 78 /\ c <> 0xE2.
Proof.
  unfold sign_or_digit, is_ascii_digit, c_isspace, py_isspace. intros H.
  assert (Hc : 48 <= c <= 57 \/ c = 45) by lia.
  repeat split; lia.
Qed.

Lemma signed_digits (neg : bool) (ds : pystr) :
  Forall (fun c => is_ascii_digit c = true) ds ->
  Forall sign_or_digit (sign_prefix neg ++ ds).
Proof.
  intros H. apply Forall_app. split.
  - destruct neg; cbn [sign_prefix]; [|constructor].
    constructor; [right; reflexivity|constructor].
  - eapply Forall_impl; [|exact H]. intros c Hc. left. exact Hc.
Qed.

Lemma parse_decimal_digits (ds : pystr) :
  ds <> [] -> Forall (fun c => is_ascii_digit c = true) ds ->
  parse_decimal ds = Some (digits_value ds, 0).
Proof.
  intros Hne Hds. unfold parse_decimal. rewrite (scan_digits_all ds Hds).
  rewrite app_nil_r. destruct ds as [|d ds]; [congruence|]. reflexivity.
Qed.

(** [float] of an integer written in decimal, with its sign. *)
Lemma float_of_str_integer (neg : bool) (ds : pystr) :
  ds <> [] -> Forall (fun c => is_ascii_digit c = true) ds ->
  float_of_str (sign_prefix neg ++ ds) = Return (float_of_decimal neg (digits_value ds) 0).
Proof.
  intros Hne Hds.
  pose proof (signed_digits neg ds Hds) as Hall.
  assert (Hfacts : Forall (fun c => c < 127 /\ c_isspace c = false /\ (c =? 95) = false)
                          (sign_prefix neg ++ ds)).
  { eapply Forall_impl; [|exact Hall]. intros c Hc.
    destruct (sign_or_digit_facts c Hc) as [H1 [H2 [_ [H3 _]]]]. auto. }
  unfold float_of_str.
  rewrite transform_ascii by (eapply Forall_impl; [|exact Hfacts]; cbv beta; tauto).
  rewrite (drop_while_none c_isspace (sign_prefix neg ++ ds))
    by (eapply Forall_impl; [|exact Hfacts]; cbv beta; tauto).
  rewrite (drop_while_none c_isspace (rev (sign_prefix neg ++ ds)))
    by (apply Forall_rev; eapply Forall_impl; [|exact Hfacts]; cbv beta; tauto).
  rewrite rev_involutive. cbv zeta.
  rewrite (existsb_none (Z.eqb 95)).
  2:{ eapply Forall_impl; [|exact Hfacts]. cbv beta. intros c [_ [_ H]].
      rewrite Z.eqb_sym. exact H. }
  assert (Hsign : parse_sign (sign_prefix neg ++ ds) = (neg, ds)).
  { destruct neg; cbn [sign_prefix app parse_sign]; [reflexivity|].
    destruct ds as [|d ds']; [congruence|]. cbn [parse_sign].
    inversion Hds as [|? ? Hd _]; subst. unfold is_ascii_digit in Hd.
    replace (d =? 45) with false by lia. replace (d =? 43) with false by lia.
    reflexivity. }
  rewrite Hsign, (parse_decimal_digits ds Hne Hds). reflexivity.
Qed.

End IntegerText.

Section AmountsReadBack.
Context {rt : PyRuntime}.

Lemma strip_space_free (s : pystr) : space_free s -> str_strip s = s.
Proof.
  intros Hfree. destruct (strip_split s) as [l [r [Hs [Hl Hr]]]].
  unfold space_free in Hfree. rewrite Forall_forall in Hfree.
  assert (l = []) as ->.
  { destruct l as [|c l]; [reflexivity|]. inversion Hl as [|? ? Hc _]; subst.
    rewrite (Hfree c) in Hc; [discriminate|]. rewrite Hs. left. reflexivity. }
  assert (r = []) as ->.
  { destruct r as [|c r]; [reflexivity|]. inversion Hr as [|? ? Hc _]; subst.
    rewrite (Hfree c) in Hc; [discriminate|]. rewrite Hs.
    apply in_or_app. right. apply in_or_app. right. left. reflexivity. }
  rewrite app_nil_r in Hs. symmetry. exact Hs.
Qed.

Lemma startswith_app_self (p t : pystr) : startswith p (p ++ t) = true.
Proof.
  induction p as [|c p IH]; cbn [startswith app]; [reflexivity|].
  unfold codepoint_eqb. rewrite Z.eqb_refl. exact IH.
Qed.

Lemma replace_prefix (old t : pystr) :
  old <> [] -> str_replace old [] (old ++ t) = str_replace old [] t.
Proof.
  intros Hold. destruct old as [|c old']; [congruence|].
  change ((c :: old') ++ t) with (c :: (old' ++ t)).
  rewrite str_replace_cons by exact Hold.
  change (c :: (old' ++ t)) with ((c :: old') ++ t).
  rewrite startswith_app_self, skipn_app, skipn_all, Nat.sub_diag. reflexivity.
Qed.

Lemma replace_comma_filter (s : pystr) :
  str_replace (py ",") [] s = filter (fun c => negb (c =? 44)) s.
Proof.
  change (py ",") with [44].
  induction s as [|c s IH]; [reflexivity|].
  rewrite str_replace_cons by discriminate.
  cbn [startswith filter skipn length app]. unfold codepoint_eqb.
  rewrite Bool.andb_true_r, (Z.eqb_sym 44 c).
  destruct (c =? 44); cbn [negb]; rewrite IH; reflexivity.
Qed.

Lemma filter_group_rev (ds : pystr) :
  forall k, filter (fun c => negb (c =? 44)) (group_rev k ds)
            = filter (fun c => negb (c =? 44)) ds.
Proof.
  induction ds as [|d ds IH]; intros k; [reflexivity|].
  cbn [group_rev].
  destruct k as [|[|[|[|k]]]]; cbn [filter]; rewrite IH; reflexivity.
Qed.

Lemma filter_all (p : Z -> bool) (s : pystr) :
  Forall (fun c => p c = true) s -> filter p s = s.
Proof.
  induction 1 as [|c s Hc _ IH]; cbn [filter]; [reflexivity|]. rewrite Hc, IH. reflexivity.
Qed.

Lemma ungroup_thousands (neg : bool) (ds : pystr) :
  Forall (fun c => is_ascii_digit c = true) ds ->
  str_replace (py ",") [] (lit_naira ++ sign_prefix neg ++ group_thousands ds)
  = lit_naira ++ sign_prefix neg ++ ds.
Proof.
  intros Hds. rewrite replace_comma_filter, !filter_app. f_equal. f_equal.
  - destruct neg; reflexivity.
  - unfold group_thousands. rewrite filter_rev, filter_group_rev, <- filter_rev, rev_involutive.
    apply filter_all. eapply Forall_impl; [|exact Hds].
    intros c Hc. unfold is_ascii_digit in Hc. cbv beta. lia.
Qed.

Lemma plain_absent (t : pystr) (c : Z) :
  Forall sign_or_digit t -> c = 44 \/ c = 0xC2 \/ c = 71 \/ c = 78 \/ c = 0xE2 -> ~ In c t.
Proof.
  intros Ht Hc Hin. rewrite Forall_forall in Ht.
  pose proof (sign_or_digit_facts c (Ht c Hin)) as [_ [_ [_ [_ H]]]]. lia.
Qed.

Lemma plain_space_free (t : pystr) : Forall sign_or_digit t -> space_free t.
Proof.
  intros Ht. eapply Forall_impl; [|exact Ht]. intros c Hc.
  apply (sign_or_digit_facts c Hc).
Qed.

Lemma primary_form_of_marked (t : pystr) :
  Forall sign_or_digit t ->
  spec_marker_free_form primary_markers t = t
  /\ spec_marker_free_form primary_markers (lit_pound ++ t) = t.
Proof.
  intros Ht.
  assert (Hclean : str_strip
                     (str_replace lit_naira []
                        (str_replace (py "NGN") []
                           (str_replace (py "GBP") [] (str_replace lit_pound [] t)))) = t).
  { rewrite (replace_absent lit_pound [] t 0xC2);
      [|left; reflexivity|apply plain_absent; [exact Ht|lia]].
    rewrite (replace_absent (py "GBP") [] t 71);
      [|left; reflexivity|apply plain_absent; [exact Ht|lia]].
    rewrite (replace_absent (py "NGN") [] t 78);
      [|left; reflexivity|apply plain_absent; [exact Ht|lia]].
    rewrite (replace_absent lit_naira [] t 0xE2);
      [|left; reflexivity|apply plain_absent; [exact Ht|lia]].
    apply strip_space_free, plain_space_free, Ht. }
  unfold spec_marker_free_form, primary_markers. cbn [fold_left]. split.
  - rewrite (replace_absent (py ",") [] t 44);
      [exact Hclean|left; reflexivity|apply plain_absent; [exact Ht|lia]].
  - rewrite (replace_absent (py ",") [] (lit_pound ++ t) 44); [|left; reflexivity|].
    + rewrite replace_prefix by discriminate. exact Hclean.
    + intros Hin. apply in_app_or in Hin. destruct Hin as [Hin|Hin].
      * cbn in Hin. lia.
      * revert Hin. apply plain_absent; [exact Ht|lia].
Qed.

Lemma secondary_form_of_plain (t : pystr) :
  Forall sign_or_digit t ->
  str_strip (str_replace (py "NGN") [] (str_replace lit_naira [] t)) = t.
Proof.
  intros Ht.
  rewrite (replace_absent lit_naira [] t 0xE2);
    [|left; reflexivity|apply plain_absent; [exact Ht|lia]].
  rewrite (replace_absent (py "NGN") [] t 78);
    [|left; reflexivity|apply plain_absent; [exact Ht|lia]].
  apply strip_space_free, plain_space_free, Ht.
Qed.

Lemma coerce_form_integer (neg : bool) (ds : pystr) :
  ds <> [] -> Forall (fun c => is_ascii_digit c = true) ds ->
  coerce_form (sign_prefix neg ++ ds)
  = Return (Some (float_of_decimal neg (digits_value ds) 0)).
Proof.
  intros Hne Hds. apply coerce_form_parsed. apply float_of_str_integer; assumption.
Qed.

(** X20.  An integer written as text is coerced, by either variant, to the
    double nearest to it, infinite when the integer is beyond the range
    of a double; the integer itself is coerced to the same double, except
    that beyond the range it raises [OverflowError]. *)
Theorem integer_as_text_reads_as_the_integer (n : Z) :
  _to_float (CStr (str_of_int n)) = Return (Some (binary_normalize prec emax n 0 false))
  /\ _to_ngn_float (CStr (str_of_int n))
     = Return (Some (binary_normalize prec emax n 0 false))
  /\ _to_float (CInt n)
     = match binary_normalize prec emax n 0 false with
       | S754_infinity _ => Raise OverflowError
       | x => Return (Some x)
       end.
Proof.
  assert (Htext : exists neg ds,
             str_of_int n = sign_prefix neg ++ ds /\ ds <> []
             /\ Forall (fun c => is_ascii_digit c = true) ds
             /\ float_of_decimal neg (digits_value ds) 0 = binary_normalize prec emax n 0 false).
  { destruct n as [|p|p]; cbn [str_of_int].
    - exists false, (digits_of_N (Z.to_N 0)). repeat split.
      + discriminate.
      + apply digits_of_N_digits.
    - exists false, (digits_of_N (Z.to_N (Zpos p))).
      split; [reflexivity|]. split; [apply digits_of_N_nonempty|].
      split; [apply digits_of_N_digits|].
      rewrite digits_value_of_N. cbn [Z.to_N Z.of_N float_of_decimal binary_normalize].
      change (10 ^ 0) with 1. rewrite Z.mul_1_r. reflexivity.
    - exists true, (digits_of_N (Npos p)).
      split; [reflexivity|]. split; [apply digits_of_N_nonempty|].
      split; [apply digits_of_N_digits|].
      rewrite digits_value_of_N. cbn [Z.of_N float_of_decimal binary_normalize].
      change (10 ^ 0) with 1. rewrite Z.mul_1_r. reflexivity. }
  destruct Htext as [neg [ds [Htext [Hne [Hds Hvalue]]]]].
  pose proof (signed_digits neg ds Hds) as Hplain.
  split; [|split].
  - unfold _to_float. cbn [py_str]. rewrite to_float_text_eq, Htext.
    rewrite (proj1 (primary_form_of_marked _ Hplain)).
    rewrite coerce_form_integer by assumption. rewrite Hvalue. reflexivity.
  - unfold _to_ngn_float. cbn [py_str]. rewrite to_ngn_float_text_eq, Htext.
    unfold spec_marker_free_form, secondary_markers. cbn [fold_left].
    rewrite (replace_absent (py ",") [] _ 44);
      [|left; reflexivity|apply plain_absent; [exact Hplain|lia]].
    rewrite (secondary_form_of_plain _ Hplain).
    rewrite coerce_form_integer by assumption. rewrite Hvalue. reflexivity.
  - unfold _to_float, float_of_int.
    destruct (binary_normalize prec emax n 0 false); reflexivity.
Qed.

Lemma float_round_magnitude_nonneg (m : positive) (e : Z) : 0 <= float_round_magnitude m e.
Proof.
  unfold float_round_magnitude. destruct e as [|k|k].
  - lia.
  - apply Z.mul_nonneg_nonneg; [lia|]. apply Z.pow_nonneg. lia.
  - unfold round_half_even_div. rewrite Z.pow_pos_fold.
    assert (Hd : 0 < 2 ^ Z.pos k) by (apply Z.pow_pos_nonneg; lia).
    assert (Hq : 0 <= Z.pos m / 2 ^ Z.pos k) by (apply Z.div_pos; lia).
    destruct (2 * (Z.pos m mod 2 ^ Z.pos k) ?= 2 ^ Z.pos k); [|lia|lia].
    destruct (Z.even _); lia.
Qed.

(** X21.  An amount as the message prints it, with the pound marker, or with
    the naira marker and thousands separators, is read back by the
    coercion of that currency as the whole number printed: the double
    nearest to it. *)
Theorem printed_amounts_read_back (x : float) :
  _to_float (CStr (lit_pound ++ format_f0 false x)) = Return (Some (printed_whole x))
  /\ _to_ngn_float (CStr (lit_naira ++ format_f0 true x)) = Return (Some (printed_whole x)).
Proof.
  destruct x as [s|s| |s m e].
  - destruct s; split; vm_compute; reflexivity.
  - destruct s; split; vm_compute; reflexivity.
  - split; vm_compute; reflexivity.
  - cbn [format_f0 printed_whole].
    set (ds := digits_of_N (Z.to_N (float_round_magnitude m e))).
    assert (Hds : Forall (fun c => is_ascii_digit c = true) ds) by apply digits_of_N_digits.
    assert (Hne : ds <> []) by apply digits_of_N_nonempty.
    assert (Hvalue : digits_value ds = float_round_magnitude m e).
    { unfold ds. rewrite digits_value_of_N. apply Z2N.id, float_round_magnitude_nonneg. }
    pose proof (signed_digits s ds Hds) as Hplain.
    split.
    + unfold _to_float. cbn [py_str]. rewrite to_float_text_eq.
      rewrite (proj2 (primary_form_of_marked _ Hplain)).
      rewrite coerce_form_integer by assumption. rewrite Hvalue. reflexivity.
    + unfold _to_ngn_float. cbn [py_str]. rewrite to_ngn_float_text_eq.
      unfold spec_marker_free_form, secondary_markers. cbn [fold_left].
      rewrite ungroup_thousands by exact Hds.
      rewrite replace_prefix by discriminate.
      rewrite (secondary_form_of_plain _ Hplain).
      rewrite coerce_form_integer by assumption. rewrite Hvalue. reflexivity.
Qed.

End AmountsReadBack.
(** ** When the log cannot be written to *)

Section LogFailure.
Context {rt : PyRuntime}.
Variable o : outside.



End LogFailure.

Lemma sample_log_writable : log_writable sample_outside.
Proof. intros t file. reflexivity. Qed.



Lemma safe_logs_one_record_sample :
  match _safe sample_outside (py "weekly_call") (py "send_call_reminder")
              (send_telegram sample_outside weekly_call_text) first_world with
  | (Raised e, _) => exc_is_Exception e = false
  | (Returned r, w') =>
    exists t : datetime,
      log_base (w_log w')
      = [fieldnames;
         [strftime t; py "weekly_call"; py "SENT"; py "send_call_reminder"; []]]
  end.
Proof.
  pose proof (safe_logs_one_record sample_outside sample_log_writable
                (py "weekly_call") (py "send_call_reminder")
                (send_telegram sample_outside weekly_call_text) first_world) as H.
  assert (Hfn : fst (send_telegram sample_outside weekly_call_text first_world) = Returned tt)
    by (vm_compute; reflexivity).
  assert (Hw : log_base (w_log (snd (send_telegram sample_outside weekly_call_text
                                       first_world))) = [fieldnames])
    by (vm_compute; reflexivity).
  rewrite Hfn, Hw in H.
  destruct (_safe sample_outside _ _ _ first_world) as [[[a|]|e] w']; [| |exact H].
  - destruct H as [t [_ H]]. exists t. rewrite H. reflexivity.
  - destruct H as [t []].
Defined.

Lemma weekly_call_job_sample :
  match weekly_call_job sample_outside first_world with
  | (Raised e, _) => exc_is_Exception e = false
  | (Returned _, w') =>
    exists records calls,
      leaves first_world w' records calls
      /\ map record_summary records = weekly_call_log true
  end.
Proof.
  pose proof (weekly_call_job_log sample_outside sample_log_writable first_world) as H.
  destruct (weekly_call_job sample_outside first_world) as [[[]|e] w']; [|exact H].
  destruct H as [records [calls [Hl Hs]]]. exists records, calls.
  split; [exact Hl|]. rewrite Hs. vm_compute. reflexivity.
Defined.

Lemma monthly_support_job_unconfigured :
  match monthly_support_job unconfigured_outside first_world with
  | (Raised e, _) => exc_is_Exception e = false
  | (Returned _, w') =>
    exists records calls,
      leaves first_world w' records calls
      /\ map record_summary records = monthly_support_log true true false false
  end.
Proof.
  pose proof (monthly_support_job_log unconfigured_outside (fun _ _ => eq_refl) first_world)
    as H.
  destruct (monthly_support_job unconfigured_outside first_world) as [[[]|e] w']; [|exact H].
  destruct H as [records [calls [Hl Hs]]]. exists records, calls.
  split; [exact Hl|]. rewrite Hs. vm_compute. reflexivity.
Defined.

Lemma emergency_savings_job_without_workbook :
  match emergency_savings_job outside_without_workbook first_world with
  | (Raised e, _) => exc_is_Exception e = false
  | (Returned _, w') =>
    exists records calls,
      leaves first_world w' records calls
      /\ map record_summary records = emergency_savings_log false false true
  end.
Proof.
  pose proof (emergency_savings_job_log outside_without_workbook (fun _ _ => eq_refl)
                first_world) as H.
  destruct (emergency_savings_job outside_without_workbook first_world) as [[[]|e] w'];
    [|exact H].
  destruct H as [records [calls [Hl Hs]]]. exists records, calls.
  split; [exact Hl|]. rewrite Hs. vm_compute. reflexivity.
Defined.

Lemma main_sample :
  match main sample_outside first_world with
  | (Returned sched, w') =>
    map job_id (sched_jobs sched)
    = [py "monthly_support"; py "weekly_call"; py "emergency_savings"]
  | (Raised e, _) => exc_is_Exception e = false
  end.
Proof.
  pose proof (main_starts_after_first_message sample_outside first_world
                sample_log_writable) as H.
  destruct (main sample_outside first_world) as [[sched|e] w'].
  - exact (proj1 (proj2 H)).
  - destruct H as [[H _]|H]; [|exact H].
    assert (Hsent : send_succeeds sample_outside (w_tick first_world) live_text = true)
      by (vm_compute; reflexivity).
    rewrite Hsent in H. discriminate.
Defined.
